(** * fires.py: download, inspect, analyse and save a daily fire snapshot

    A shallow embedding of [src/fires.py].  The script is glue around
    pandas, requests, earthkit and the file system, so the development has
    three layers:

    - the part of pandas the script uses (typed columns, boolean-mask
      selection, [sort_values], [nlargest], [to_csv]), modelled on columns
      as pandas stores them;
    - the world the script acts on (file system, console, network, clock,
      external loader) as explicit state and oracles, threaded through a
      state-and-exception monad;
    - the five functions of the script under the names they have in the
      source, the loop of the fetcher and the four sub-analyses of the
      analyzer as definitions of their own. *)

From Stdlib Require Import ZArith Ascii Floats.SpecFloat.
From stdpp Require Import base list gmap strings sorting.

(* String literals are read in [string_scope]; the list and number
   notations stay in front of it. *)
Local Open Scope string_scope.
Local Open Scope nat_scope.
Local Open Scope list_scope.
Local Open Scope stdpp_scope.

(** ** Scalars and dtypes *)

(** A float64 is an IEEE-754 binary64 value; [S754_nan] is pandas' missing
    value. *)
Definition float64 : Type := spec_float.

Definition nan : float64 := S754_nan.

(** The integer [z] as a float64 (round to nearest even). *)
Definition float_of_Z (z : Z) : float64 := binary_normalize 53 1024 z 0 false.

Definition is_nan (f : float64) : bool :=
  match f with S754_nan => true | _ => false end.

(** What numpy needs of an element type to sort it: the strict order [<] of
    the dtype, and which elements are missing.  Missing elements compare
    false with everything. *)
Class DType (A : Type) := {
  isna : A → bool;
  less : A → A → bool;
}.

#[export] Instance int64_dtype : DType Z := {|
  isna := λ _, false;
  less := Z.ltb;
|}.

#[export] Instance float64_dtype : DType float64 := {|
  isna := is_nan;
  less := SFltb;
|}.

(** Python orders [str] by code point: lexicographic on the characters. *)
Definition str_lt (s1 s2 : string) : bool :=
  match String.compare s1 s2 with Lt => true | _ => false end.

(** An element of an object column read from CSV: a string, or missing. *)
Definition obj_isna (o : option string) : bool :=
  match o with None => true | Some _ => false end.

Definition obj_less (o1 o2 : option string) : bool :=
  match o1, o2 with
  | Some s1, Some s2 => str_lt s1 s2
  | _, _ => false
  end.

#[export] Instance object_dtype : DType (option string) := {|
  isna := obj_isna;
  less := obj_less;
|}.

(** ** Columns and frames *)

(** A pandas column is a homogeneous array with a dtype.  [read_csv] yields
    int64 columns, float64 columns (NaN for an empty field) and object
    columns of strings (with the missing marker for an empty field). *)
Inductive column :=
| Int64 (vs : list Z)
| Float64 (vs : list float64)
| Object (vs : list (option string)).

(** One cell, as Python sees it. *)
Inductive scalar :=
| SInt (z : Z)
| SFloat (f : float64)
| SStr (s : string).

Definition obj_scalar (o : option string) : scalar :=
  match o with Some s => SStr s | None => SFloat nan end.

Definition cells (c : column) : list scalar :=
  match c with
  | Int64 vs => SInt <$> vs
  | Float64 vs => SFloat <$> vs
  | Object vs => obj_scalar <$> vs
  end.

Definition col_len (c : column) : nat := length (cells c).

(** [vs.take(pos)]: the elements at the positions [pos], in that order.
    Every use below takes positions that are in range; a position out of
    range (an [IndexError] in numpy) is skipped. *)
Definition gather {A} (vs : list A) (pos : list nat) : list A :=
  omap (λ i, vs !! i) pos.

Arguments gather : simpl never.

Definition col_take (pos : list nat) (c : column) : column :=
  match c with
  | Int64 vs => Int64 (gather vs pos)
  | Float64 vs => Float64 (gather vs pos)
  | Object vs => Object (gather vs pos)
  end.

(** A frame: the row labels and the named columns, in column order. *)
Record DataFrame := {
  index : list nat;
  series : list (string * column);
}.

Definition columns (df : DataFrame) : list string := fst <$> series df.

(** [len(df)] *)
Definition df_len (df : DataFrame) : nat := length (index df).

(** [df.empty]: some axis has length 0. *)
Definition df_empty (df : DataFrame) : bool :=
  Nat.eqb (df_len df) 0 || Nat.eqb (length (series df)) 0.

(** [name in df.columns] *)
Definition in_columns (name : string) (df : DataFrame) : bool :=
  existsb (String.eqb name) (columns df).

(** [df[name]], guarded in the script by [name in df.columns]. *)
Definition df_col (name : string) (df : DataFrame) : option column :=
  snd <$> List.find (λ nc, String.eqb name nc.1) (series df).

(** Every column is as long as the index. *)
Definition rectangular (df : DataFrame) : bool :=
  forallb (λ nc, Nat.eqb (col_len nc.2) (df_len df)) (series df).

(** [df.take(pos)] *)
Definition df_take (pos : list nat) (df : DataFrame) : DataFrame :=
  {| index := gather (index df) pos;
     series := (λ nc, (nc.1, col_take pos nc.2)) <$> series df |}.

(** [np.nonzero(mask)]: the positions that hold [True]. *)
Fixpoint nonzero_from (k : nat) (mask : list bool) : list nat :=
  match mask with
  | [] => []
  | b :: mask' =>
      if b then k :: nonzero_from (S k) mask' else nonzero_from (S k) mask'
  end.

Definition nonzero (mask : list bool) : list nat := nonzero_from 0 mask.

(** [df[mask]] for a boolean mask over the rows. *)
Definition df_mask (mask : list bool) (df : DataFrame) : DataFrame :=
  df_take (nonzero mask) df.

(** [df.head(n)] *)
Definition df_head (n : nat) (df : DataFrame) : DataFrame :=
  df_take (seq 0 (Nat.min n (df_len df))) df.

(** The rows of a frame: a row is its label and its record, the cells in
    column order under their column names. *)
Definition record : Type := list (string * scalar).

Definition row_at (df : DataFrame) (i : nat) : record :=
  omap (λ nc, (nc.1,.) <$> cells nc.2 !! i) (series df).

Definition rows (df : DataFrame) : list (nat * record) :=
  imap (λ i lbl, (lbl, row_at df i)) (index df).

(** [row.get(name, default)] *)
Definition record_get (name : string) (r : record) : option scalar :=
  snd <$> List.find (λ nv, String.eqb name nv.1) r.

(** [numpy.compress]: the elements whose mask entry is [True]. *)
Fixpoint compress {A} (mask : list bool) (l : list A) : list A :=
  match mask, l with
  | b :: mask', x :: l' =>
      if b then x :: compress mask' l' else compress mask' l'
  | _, _ => []
  end.

(** ** Exceptions, files, the console *)

Inductive exn :=
| Exception (msg : string)
| KeyError (key : string)
| TypeError (msg : string)
| ValueError (msg : string)
| FileExistsError (path : string)
| FileNotFoundError (path : string)
| IsADirectoryError (path : string)
| RequestError (msg : string)
| LoaderError (msg : string).

Inductive result (A : Type) :=
| Ok (a : A)
| Raise (e : exn).

Arguments Ok {A} a.
Arguments Raise {A} e.

(** What a file holds: bytes the script did not write, or a table written
    by [to_csv(index=False)] (the header and the cells of each row; their
    rendering as text is not modelled). *)
Inductive content :=
| Bytes (s : string)
| Table (header : list string) (body : list (list scalar)).

(** The file system maps a path to what is there. *)
Inductive node :=
| File (c : content)
| Dir.

(** The object the earthkit loader returns. *)
Inductive handle := EkData (id : nat).

Record datetime := {
  year : nat; month : nat; day : nat;
  hour : nat; minute : nat; second : nat;
}.

(** One printed line: literal text and formatted values. *)
Inductive token :=
| Lit (s : string)
| Num (n : nat)
| Val (v : scalar)
| Fix2 (v : scalar)
| Mean2 (c : column)
| Cols (names : list string)
| Frame (df : DataFrame)
| Loaded (h : handle)
| Exn (e : exn)
| Clock (t : datetime).

Definition line : Type := list token.

(** ** What the script does not define *)

(** - [argsort]: numpy's [argsort] with [kind='quicksort'], the default of
      [sort_values]: the positions of the keys in ascending order.
    - [download url]: [requests.get(url, timeout=30)], [raise_for_status()]
      and [pd.read_csv] of the body; any of them may raise.
    - [ek_from_source path node]: [ek.from_source("file", path)], which
      reads the file at [path] and may raise.
    - [mkstemp files]: the name [NamedTemporaryFile] picks.
    - [clock n]: what the [n]-th call of [datetime.now()] returns. *)
Class Oracles := {
  argsort : ∀ A : Type, DType A → list A → list nat;
  download : string → result DataFrame;
  ek_from_source : string → option node → result handle;
  mkstemp : gmap string node → string;
  clock : nat → datetime;
}.

Arguments argsort {_ A _} keys.

(** ** Sorting and selecting, as pandas does it *)

Definition enumerate {A} (l : list A) : list (nat * A) := imap pair l.

(** The positions and keys that are present, and those that are missing. *)
Definition present_pairs {A} `{DType A} (items : list A) : list (nat * A) :=
  List.filter (λ p : nat * A, negb (isna p.2)) (enumerate items).

Definition missing_pairs {A} `{DType A} (items : list A) : list (nat * A) :=
  List.filter (λ p : nat * A, isna p.2) (enumerate items).

(** [pandas.core.sorting.nargsort] with [na_position='last']: missing keys
    are set aside and appended; for a descending sort the keys are reversed
    before [argsort] and the result is reversed after it. *)
Definition nargsort `{Oracles} {A} `{DType A} (items : list A)
    (ascending : bool) : list nat :=
  let non_nan := present_pairs items in
  let nan_idx := fst <$> missing_pairs items in
  let non_nan := if ascending then non_nan else reverse non_nan in
  let indexer := gather (fst <$> non_nan) (argsort (snd <$> non_nan)) in
  let indexer := if ascending then indexer else reverse indexer in
  indexer ++ nan_idx.

Definition column_nargsort `{Oracles} (c : column) (ascending : bool)
    : list nat :=
  match c with
  | Int64 vs => nargsort vs ascending
  | Float64 vs => nargsort vs ascending
  | Object vs => nargsort vs ascending
  end.

(** [df[name]] *)
Definition df_getitem (name : string) (df : DataFrame) : result column :=
  match df_col name df with
  | Some c => Ok c
  | None => Raise (KeyError name)
  end.

(** [df.sort_values(by, ascending=ascending)] *)
Definition sort_values `{Oracles} (by_ : string) (ascending : bool)
    (df : DataFrame) : result DataFrame :=
  match df_col by_ df with
  | Some c => Ok (df_take (column_nargsort c ascending) df)
  | None => Raise (KeyError by_)
  end.

Definition is_object (c : column) : bool :=
  match c with Object _ => true | _ => false end.

Definition is_float (c : column) : bool :=
  match c with Float64 _ => true | _ => false end.

(** [df.nlargest(n, column)]: pandas documents it as
    [df.sort_values(column, ascending=False).head(n)]; it refuses object
    columns. *)
Definition nlargest `{Oracles} (n : nat) (column_ : string)
    (df : DataFrame) : result DataFrame :=
  match df_col column_ df with
  | Some c =>
      if is_object c
      then Raise (TypeError "cannot use method 'nlargest' with dtype object")
      else Ok (df_head n (df_take (column_nargsort c false) df))
  | None => Raise (KeyError column_)
  end.

(** [df[name] == s] for a Python string [s]. *)
Definition eq_str (c : column) (s : string) : list bool :=
  match c with
  | Int64 vs => (λ _, false) <$> vs
  | Float64 vs => (λ _, false) <$> vs
  | Object vs =>
      (λ o, match o with Some x => String.eqb x s | None => false end) <$> vs
  end.

(** [df[name] > z] for a Python integer [z]. *)
Definition gt_int (c : column) (z : Z) : result (list bool) :=
  match c with
  | Int64 vs => Ok ((λ v, Z.ltb z v) <$> vs)
  | Float64 vs => Ok ((λ v, SFltb (float_of_Z z) v) <$> vs)
  | Object vs =>
      if existsb (λ o, negb (obj_isna o)) vs
      then Raise (TypeError "'>' not supported between 'str' and 'int'")
      else Ok ((λ _, false) <$> vs)
  end.

(** [df[name].mean()] under the format spec [.2f]. *)
Definition mean_2f (c : column) : result token :=
  match c with
  | Object vs =>
      if existsb (λ o, negb (obj_isna o)) vs
      then Raise (TypeError "Could not convert string to numeric")
      else Ok (Mean2 c)
  | _ => Ok (Mean2 c)
  end.

(** [min()] and [max()] of a column skip the missing values. *)
Definition reduce_min {A} `{DType A} (vs : list A) : option A :=
  foldl (λ acc v,
           if isna v then acc
           else match acc with
                | None => Some v
                | Some m => if less v m then Some v else Some m
                end) None vs.

Definition reduce_max {A} `{DType A} (vs : list A) : option A :=
  foldl (λ acc v,
           if isna v then acc
           else match acc with
                | None => Some v
                | Some m => if less m v then Some v else Some m
                end) None vs.

Definition col_reduce (red : ∀ A, DType A → list A → option A)
    (c : column) : scalar :=
  match c with
  | Int64 vs => match red _ _ vs with Some z => SInt z | None => SFloat nan end
  | Float64 vs =>
      match red _ _ vs with Some f => SFloat f | None => SFloat nan end
  | Object vs =>
      match red _ _ vs with Some o => obj_scalar o | None => SFloat nan end
  end.

Definition col_min : column → scalar := col_reduce (@reduce_min).
Definition col_max : column → scalar := col_reduce (@reduce_max).

(** [df[name].value_counts().sort_index()]: the distinct values that are
    not missing, each with the number of rows that hold it, in ascending
    order of the value. *)
Definition same_key {A} `{DType A} (x y : A) : bool :=
  negb (less x y) && negb (less y x).

Fixpoint unique {A} `{DType A} (vs : list A) : list A :=
  match vs with
  | [] => []
  | v :: vs' =>
      let u := unique vs' in
      if existsb (same_key v) u then u else v :: u
  end.

Definition value_counts_sorted `{Oracles} {A} `{DType A} (vs : list A)
    : list (A * nat) :=
  let present := List.filter (λ v, negb (isna v)) vs in
  let keys := unique present in
  (λ k, (k, length (List.filter (same_key k) present)))
    <$> gather keys (nargsort keys true).

Definition col_value_counts `{Oracles} (c : column) : list (scalar * nat) :=
  match c with
  | Int64 vs => prod_map SInt id <$> value_counts_sorted vs
  | Float64 vs => prod_map SFloat id <$> value_counts_sorted vs
  | Object vs => prod_map obj_scalar id <$> value_counts_sorted vs
  end.

(** [df.iterrows()]: each row becomes a Series, so its cells are brought
    to a common dtype: with an object column present the cells stay as
    they are; otherwise integers become floats as soon as a float64 column
    is present. *)
Definition upcast (v : scalar) : scalar :=
  match v with SInt z => SFloat (float_of_Z z) | _ => v end.

Definition iterrows (df : DataFrame) : list (nat * record) :=
  let cs := snd <$> series df in
  if existsb is_object cs then rows df
  else if existsb is_float cs
  then (λ r : nat * list (string * scalar),
          (r.1, prod_map id upcast <$> r.2)) <$> rows df
  else rows df.

(** The cells of the rows, without the labels and the column names. *)
Definition body_of (rs : list (nat * record)) : list (list scalar) :=
  (λ r : nat * list (string * scalar), snd <$> r.2) <$> rs.

(** What [df.to_csv(path, index=False)] writes. *)
Definition csv_of (df : DataFrame) : content :=
  Table (columns df) (body_of (rows df)).

(** [f"{v:.2f}"]: a string cannot be formatted as a float. *)
Definition format_2f (v : scalar) : result token :=
  match v with
  | SStr _ =>
      Raise (ValueError "Unknown format code 'f' for object of type 'str'")
  | _ => Ok (Fix2 v)
  end.

(** Decimal digits, padded with zeros. *)
Definition digit (n : nat) : Ascii.ascii := Ascii.ascii_of_nat (48 + n mod 10).

Definition pad2 (n : nat) : string :=
  String (digit (n / 10)) (String (digit n) "").

Definition pad4 (n : nat) : string :=
  String (digit (n / 1000)) (String (digit (n / 100)) (pad2 n)).

(** [t.strftime("%Y-%m-%d")], for a year of four digits as
    [datetime.now()] returns it. *)
Definition strftime_Ymd (t : datetime) : string :=
  pad4 (year t) +:+ "-" +:+ pad2 (month t) +:+ "-" +:+ pad2 (day t).

(** ** The world and the monad of the script *)

Record World := {
  fs : gmap string node;
  console : list line;
  ticks : nat;
}.

Definition M (A : Type) : Type := World → result A * World.

Definition ret {A} (a : A) : M A := λ w, (Ok a, w).

Definition bind {A B} (m : M A) (k : A → M B) : M B :=
  λ w, match m w with
       | (Ok a, w') => k a w'
       | (Raise e, w') => (Raise e, w')
       end.

Definition raise {A} (e : exn) : M A := λ w, (Raise e, w).

Definition lift {A} (r : result A) : M A := λ w, (r, w).

#[export] Instance M_ret : MRet M := @ret.
#[export] Instance M_bind : MBind M := λ A B k m, bind m k.

(** [try: body except Exception as e: handler] *)
Definition try_except {A} (body : M A) (handler : exn → M A) : M A :=
  λ w, match body w with
       | (Ok a, w') => (Ok a, w')
       | (Raise e, w') => handler e w'
       end.

(** [try: body finally: final]: [final] runs on every exit of [body]; an
    exception of [final] replaces the outcome of [body]. *)
Definition try_finally {A} (body : M A) (final : M unit) : M A :=
  λ w, match body w with
       | (r, w') =>
           match final w' with
           | (Ok _, w'') => (r, w'')
           | (Raise e, w'') => (Raise e, w'')
           end
       end.

(** [for x in l: body] *)
Fixpoint for_each {A} (l : list A) (body : A → M unit) : M unit :=
  match l with
  | [] => ret ()
  | x :: l' => body x ;; for_each l' body
  end.

Definition set_fs (files : gmap string node) (w : World) : World :=
  {| fs := files; console := console w; ticks := ticks w |}.

Definition print (l : line) : M unit :=
  λ w, (Ok (),
        {| fs := fs w; console := console w ++ [l]; ticks := ticks w |}).

Definition datetime_now `{Oracles} : M datetime :=
  λ w, (Ok (clock (ticks w)),
        {| fs := fs w; console := console w; ticks := S (ticks w) |}).

(** [os.makedirs(path, exist_ok=True)], for a directory name that is not
    empty and whose parents exist. *)
Definition os_makedirs (path : string) : M unit :=
  λ w, match fs w !! path with
       | Some Dir => (Ok (), w)
       | Some (File _) => (Raise (FileExistsError path), w)
       | None => (Ok (), set_fs (<[path := Dir]> (fs w)) w)
       end.

(** [os.remove(path)], which is also [os.unlink(path)]. *)
Definition os_remove (path : string) : M unit :=
  λ w, match fs w !! path with
       | Some (File _) => (Ok (), set_fs (delete path (fs w)) w)
       | Some Dir => (Raise (IsADirectoryError path), w)
       | None => (Raise (FileNotFoundError path), w)
       end.

Definition os_unlink : string → M unit := os_remove.

(** [df.to_csv(path, index=False)]; the directory of [path] exists at both
    places the script writes. *)
Definition to_csv (df : DataFrame) (path : string) : M unit :=
  λ w, match fs w !! path with
       | Some Dir => (Raise (IsADirectoryError path), w)
       | _ => (Ok (), set_fs (<[path := File (csv_of df)]> (fs w)) w)
       end.

(** [tempfile.NamedTemporaryFile(mode='w', suffix='.csv', delete=False)]:
    creates an empty file and gives its name. *)
Definition named_temporary_file `{Oracles} : M string :=
  λ w, let path := mkstemp (fs w) in
       (Ok path, set_fs (<[path := File (Bytes "")]> (fs w)) w).

Definition load_with_earthkit `{Oracles} (path : string) : M handle :=
  λ w, (ek_from_source path (fs w !! path), w).

(** [os.path.join(d, name)] for a directory name [d] that is not empty and
    does not end in a slash, and a relative [name]. *)
Definition path_join (d name : string) : string := d +:+ "/" +:+ name.

Definition ends_with (suffix s : string) : bool :=
  let n := String.length s in
  let m := String.length suffix in
  (m <=? n) && String.eqb (String.substring (n - m) m s) suffix.

(** [fnmatch(name, "fire_snapshot*.csv")] *)
Definition fnmatch_snapshot (name : string) : bool :=
  String.prefix "fire_snapshot" name
  && ends_with ".csv" (String.substring 13 (String.length name - 13) name).

Fixpoint has_slash (s : string) : bool :=
  match s with
  | EmptyString => false
  | String c s' => Ascii.eqb c "/"%char || has_slash s'
  end.

(** The entry name of [path] in the directory [d], when [path] is an entry
    of [d]. *)
Definition entry_of (d path : string) : option string :=
  let pre := d +:+ "/" in
  if String.prefix pre path then
    let name := String.substring (String.length pre)
                  (String.length path - String.length pre) path in
    if has_slash name || String.eqb name "" then None else Some name
  else None.

Definition is_snapshot (d path : string) : bool :=
  match entry_of d path with
  | Some name => fnmatch_snapshot name
  | None => false
  end.

(** The paths in the directory [d] whose entry name matches the snapshot
    pattern. *)
Definition snapshot_files (d : string) (files : gmap string node)
    : list string :=
  List.filter (is_snapshot d) (fst <$> map_to_list files).

(** [glob.glob(os.path.join(d, "fire_snapshot*.csv"))] for a directory
    name [d] without wildcard characters: the entries of [d] whose name
    matches, files and directories alike. *)
Definition glob_snapshots (d : string) : M (list string) :=
  λ w, (Ok (snapshot_files d (fs w)), w).

(** ** The script *)

Definition base_url : string :=
  "https://firms.modaps.eosdis.nasa.gov/data/active_fire".

(** The dictionary [sources], in insertion order. *)
Definition sources : list (string * string) :=
  [("modis", "modis-c6.1");
   ("viirs", "viirs-snpp");
   ("viirs_noaa20", "viirs-noaa20")].

(** [f"{base_url}/{source_path}/txt/MODIS_C6_1_Global_24h.csv"] *)
Definition source_url (source_path : string) : string :=
  base_url +:+ "/" +:+ source_path +:+ "/txt/MODIS_C6_1_Global_24h.csv".

(** [df[df['acq_date'] == today_str]] *)
Definition filter_today (today_str : string) (date : column)
    (df : DataFrame) : DataFrame :=
  df_mask (eq_str date today_str) df.

(** The body of the [try] for one source: [Some] is the [return], [None]
    a [continue]. *)
Definition try_source `{Oracles} (today_str source_name source_path : string)
    : M (option (DataFrame * string)) :=
  let url := source_url source_path in
  print [Lit "Downloading fire data from "; Lit source_name; Lit "..."];;
  print [Lit "URL: "; Lit url];;
  df ← lift (download url);
  if negb (df_empty df) then
    if in_columns "acq_date" df then
      date ← lift (df_getitem "acq_date" df);
      let df_today := filter_today today_str date df in
      if negb (df_empty df_today) then
        print [Lit "Successfully downloaded "; Num (df_len df_today);
               Lit " fire detections from "; Lit source_name;
               Lit " for "; Lit today_str];;
        ret (Some (df_today, source_name))
      else
        print [Lit "No fire data for "; Lit today_str; Lit " from ";
               Lit source_name];;
        ret None
    else
      print [Lit "No date column found in "; Lit source_name; Lit " data"];;
      ret None
  else
    print [Lit "No data available from "; Lit source_name];;
    ret None.

Fixpoint try_sources `{Oracles} (today_str : string)
    (srcs : list (string * string)) : M (DataFrame * string) :=
  match srcs with
  | [] => raise (Exception "Failed to download fire data from all sources")
  | (source_name, source_path) :: rest =>
      r ← try_except (try_source today_str source_name source_path)
            (λ e, print [Lit "Failed to download from "; Lit source_name;
                         Lit ": "; Exn e];;
                  ret None);
      match r with
      | Some found => ret found
      | None => try_sources today_str rest
      end
  end.

Definition get_latest_fire_data `{Oracles} : M (DataFrame * string) :=
  today ← datetime_now;
  let today_str := strftime_Ymd today in
  try_sources today_str sources.

Definition process_fire_data_with_earthkit `{Oracles} (df : DataFrame)
    (source_name : string) : M (handle * DataFrame) :=
  print [Lit "Processing "; Num (df_len df);
         Lit " fire detections with earthkit..."];;
  tmp_path ← named_temporary_file;
  to_csv df tmp_path;;
  try_finally
    (data ← load_with_earthkit tmp_path;
     print [Lit "Loaded data with earthkit: "; Loaded data];;
     print [Lit "Data source: "; Lit source_name];;
     print [Lit "Number of records: "; Num (df_len df)];;
     print [Lit "Columns: "; Cols (columns df)];;
     print [Lit "\nSample data:"];;
     print [Frame (df_head 5 df)];;
     ret (data, df))
    (os_unlink tmp_path).

Definition save_fire_data `{Oracles} (df : DataFrame)
    (source_name output_dir : string) : M (list (string * string)) :=
  os_makedirs output_dir;;
  old_files ← glob_snapshots output_dir;
  for_each old_files os_remove;;
  df_sorted ←
    (if in_columns "frp" df then
       df_sorted ← lift (sort_values "frp" false df);
       print [Lit "Sorted "; Num (df_len df_sorted);
              Lit " fires by size (largest first)"];;
       ret df_sorted
     else
       print [Lit "No FRP column found - keeping original order"];;
       ret df);
  let csv_file := path_join output_dir "fire_snapshot.csv" in
  to_csv df_sorted csv_file;;
  print [Lit "Saved CSV: "; Lit csv_file];;
  ret [("csv", csv_file)].

(** [d[key]] for a dictionary with string keys and values. *)
Definition dict_getitem (key : string) (d : list (string * string))
    : result string :=
  match List.find (λ kv, String.eqb key kv.1) d with
  | Some kv => Ok kv.2
  | None => Raise (KeyError key)
  end.

(** [fire.get(name, 'N/A')] *)
Definition get_or_na (name : string) (fire : record) : scalar :=
  match record_get name fire with
  | Some v => v
  | None => SStr "N/A"
  end.

(** One line of the "most recent" listing; the coordinates are formatted
    first, then the line is printed. *)
Definition fire_line (fire : record) : result line :=
  match format_2f (get_or_na "latitude" fire),
        format_2f (get_or_na "longitude" fire) with
  | Ok lat, Ok lon =>
      Ok [Lit "  "; Val (get_or_na "acq_date" fire); Lit " ";
          Val (get_or_na "acq_time" fire); Lit " - Lat: "; lat;
          Lit ", Lon: "; lon]
  | Raise e, _ => Raise e
  | _, Raise e => Raise e
  end.

Definition print_fire (fire : record) : M unit :=
  l ← lift (fire_line fire);
  print l.

(** The four sub-analyses of [analyze_fire_data], in the order of the
    source: confidence (lines 170-172), coordinates (174-176), dates
    (179-183), most recent fires (186-191). *)
Definition analyze_confidence (df : DataFrame) : M unit :=
  if in_columns "confidence" df then
    confidence ← lift (df_getitem "confidence" df);
    mean ← lift (mean_2f confidence);
    print [Lit "Average confidence: "; mean];;
    high ← lift (gt_int confidence 80);
    print [Lit "High confidence fires (>80%): ";
           Num (df_len (df_mask high df))]
  else ret ().

Definition analyze_coordinates (df : DataFrame) : M unit :=
  if in_columns "latitude" df && in_columns "longitude" df then
    latitude ← lift (df_getitem "latitude" df);
    lat_min ← lift (format_2f (col_min latitude));
    lat_max ← lift (format_2f (col_max latitude));
    print [Lit "Latitude range: "; lat_min; Lit " to "; lat_max];;
    longitude ← lift (df_getitem "longitude" df);
    lon_min ← lift (format_2f (col_min longitude));
    lon_max ← lift (format_2f (col_max longitude));
    print [Lit "Longitude range: "; lon_min; Lit " to "; lon_max]
  else ret ().

Definition analyze_dates `{Oracles} (df : DataFrame) : M unit :=
  if in_columns "acq_date" df then
    acq_date ← lift (df_getitem "acq_date" df);
    let daily_counts := col_value_counts acq_date in
    print [Lit "\nDaily fire counts:"];;
    for_each daily_counts
      (λ dc, print [Lit "  "; Val dc.1; Lit ": "; Num dc.2; Lit " fires"])
  else ret ().

Definition analyze_most_recent `{Oracles} (df : DataFrame) : M unit :=
  if in_columns "acq_time" df then
    print [Lit "\nMost recent fire detection times:"];;
    recent_fires ←
      (if in_columns "acq_time" df
       then lift (nlargest 5 "acq_time" df)
       else ret (df_head 5 df));
    for_each (iterrows recent_fires) (λ row, print_fire row.2)
  else ret ().

Definition analyze_fire_data `{Oracles} (df : DataFrame) : M unit :=
  print [Lit "\n=== Fire Data Analysis ==="];;
  print [Lit "Total fire detections: "; Num (df_len df)];;
  analyze_confidence df;;
  analyze_coordinates df;;
  analyze_dates df;;
  analyze_most_recent df.

Definition main `{Oracles}
    : M (option DataFrame * option handle * option (list (string * string))) :=
  print [Lit "=== Fire Data Download and Analysis ==="];;
  now ← datetime_now;
  print [Lit "Current time: "; Clock now];;
  try_except
    ('(df, source_name) ← get_latest_fire_data;
     '(earthkit_data, processed_df) ←
        process_fire_data_with_earthkit df source_name;
     analyze_fire_data processed_df;;
     print [Lit "\n=== Saving Data ==="];;
     saved_files ← save_fire_data processed_df source_name "fire_data";
     print [Lit "\n=== Summary ==="];;
     print [Lit "Successfully downloaded and processed ";
            Num (df_len processed_df); Lit " fire detections"];;
     print [Lit "Data source: "; Lit source_name];;
     print [Lit "Earthkit data object: "; Loaded earthkit_data];;
     csv_file ← lift (dict_getitem "csv" saved_files);
     print [Lit "File saved: "; Lit csv_file];;
     ret (Some processed_df, Some earthkit_data, Some saved_files))
    (λ e, print [Lit "Error: "; Exn e];;
          ret (None, None, None)).

(** ** What is assumed of numpy, and what the claims speak of *)

(** The order of a dtype is a strict partial order. *)
Class LawfulDType (A : Type) `{DType A} := {
  less_asym : ∀ x y : A, less x y = true → less y x = false;
  less_trans : ∀ x y z : A,
    less x y = true → less y z = true → less x z = true;
}.

(** No key is smaller than an earlier one / than a later one. *)
Definition ascending {A} `{DType A} (l : list A) : Prop :=
  StronglySorted (λ a b, less b a = false) l.

Definition descending {A} `{DType A} (l : list A) : Prop :=
  StronglySorted (λ a b, less a b = false) l.

(** All that numpy promises of [argsort] with [kind='quicksort']: on keys
    none of which is missing it returns a permutation of the positions
    along which the keys ascend.  The documentation of [sort_values] says
    of its [kind] argument, default 'quicksort', that mergesort and stable
    are the only stable algorithms; how equal keys are ordered depends on
    the numpy build and on the length of the array. *)
Definition argsort_sorts (O : Oracles) : Prop :=
  ∀ (A : Type) (D : DType A), LawfulDType A → ∀ keys : list A,
    Forall (λ k, isna k = false) keys →
    argsort keys ≡ₚ seq 0 (length keys)
    ∧ ascending (gather keys (argsort keys)).

(** Descending keys, the missing ones last. *)
Definition descending_na_last {A} `{DType A} (l : list A) : Prop :=
  ∃ l1 l2, l = l1 ++ l2
    ∧ Forall (λ k, isna k = false) l1
    ∧ Forall (λ k, isna k = true) l2
    ∧ descending l1.

Definition column_descending (c : column) : Prop :=
  match c with
  | Int64 vs => descending_na_last vs
  | Float64 vs => descending_na_last vs
  | Object vs => descending_na_last vs
  end.

(** Stability of the order [pos] of the rows: rows with equal keys keep
    their relative order. *)
Definition keeps_ties_in_order {A} `{DType A} (items : list A)
    (pos : list nat) : Prop :=
  ∀ i j a b ka kb,
    i < j → pos !! i = Some a → pos !! j = Some b →
    items !! a = Some ka → items !! b = Some kb →
    isna ka = false → isna kb = false → same_key ka kb = true →
    a < b.

Definition column_keeps_ties_in_order (c : column) (pos : list nat) : Prop :=
  match c with
  | Int64 vs => keeps_ties_in_order vs pos
  | Float64 vs => keeps_ties_in_order vs pos
  | Object vs => keeps_ties_in_order vs pos
  end.

(** The date field of a row is the string [today_str]. *)
Definition is_today (today_str : string) (r : nat * record) : bool :=
  match record_get "acq_date" r.2 with
  | Some (SStr s) => String.eqb s today_str
  | _ => false
  end.

(** What one source contributes: the rows of today, when the download
    succeeds, the table is not empty, has a date column and has rows of
    today. *)
Definition todays_rows `{Oracles} (today_str source_path : string)
    : option DataFrame :=
  match download (source_url source_path) with
  | Ok df =>
      if df_empty df then None
      else match df_col "acq_date" df with
           | Some date =>
               let df_today := filter_today today_str date df in
               if df_empty df_today then None else Some df_today
           | None => None
           end
  | Raise _ => None
  end.

(** The first source, in the order of [srcs], that has rows of today. *)
Fixpoint first_source `{Oracles} (today_str : string)
    (srcs : list (string * string)) : option (DataFrame * string) :=
  match srcs with
  | [] => None
  | (source_name, source_path) :: rest =>
      match todays_rows today_str source_path with
      | Some df_today => Some (df_today, source_name)
      | None => first_source today_str rest
      end
  end.

(** Every configured source answers with a table that is empty or has no
    row of today. *)
Definition nothing_today `{Oracles} (today_str : string) : Prop :=
  ∀ source_name source_path, (source_name, source_path) ∈ sources →
    ∃ df, download (source_url source_path) = Ok df
      ∧ rectangular df = true
      ∧ (df_empty df = true
         ∨ Forall (λ r, is_today today_str r = false) (rows df)).

(** The value [v] is the string [s]. *)
Definition is_str (s : string) (v : scalar) : bool :=
  match v with SStr x => String.eqb x s | _ => false end.

(** The frame the writer writes. *)
Definition sorted_frame `{Oracles} (df : DataFrame) : DataFrame :=
  match df_col "frp" df with
  | Some frp => df_take (column_nargsort frp false) df
  | None => df
  end.

(** The path of the snapshot in the directory [d]. *)
Definition snapshot_path (d : string) : string :=
  path_join d "fire_snapshot.csv".

(** [glob.has_magic] *)
Fixpoint has_magic (s : string) : bool :=
  match s with
  | EmptyString => false
  | String c s' =>
      Ascii.eqb c "*"%char || Ascii.eqb c "?"%char || Ascii.eqb c "["%char
      || has_magic s'
  end.

(** A directory name the model of [os.path.join] and [glob.glob] is
    faithful for, such as the default ["fire_data"]: not empty, no
    trailing slash, no wildcard character. *)
Definition plain_dir (d : string) : bool :=
  negb (String.eqb d "") && negb (ends_with "/" d) && negb (has_magic d).

(** The writer can run: the output directory is not a regular file and no
    entry that matches the pattern is a directory. *)
Definition writable (d : string) (files : gmap string node) : Prop :=
  (∀ c, files !! d ≠ Some (File c))
  ∧ (∀ p, is_snapshot d p = true → files !! p ≠ Some Dir).

(** The key [ka] ranks at least as high as [kb]; a missing key ranks
    lowest. *)
Definition ranks_above {A} `{DType A} (ka kb : A) : Prop :=
  isna kb = true ∨ (isna ka = false ∧ less ka kb = false).

Definition column_ranks_above (c : column) (p q : nat) : Prop :=
  match c with
  | Int64 vs =>
      ∀ ka kb, vs !! p = Some ka → vs !! q = Some kb → ranks_above ka kb
  | Float64 vs =>
      ∀ ka kb, vs !! p = Some ka → vs !! q = Some kb → ranks_above ka kb
  | Object vs =>
      ∀ ka kb, vs !! p = Some ka → vs !! q = Some kb → ranks_above ka kb
  end.

(** The reading of the spec the code does not follow: whatever sort
    numpy runs, the writer writes the rows in an order that is descending
    and keeps rows of equal intensity in their input order. *)
Definition writer_sorts_stably : Prop :=
  ∀ (O : Oracles), argsort_sorts O →
  ∀ (df : DataFrame) (frp : column) (source_name d : string) (w : World),
    rectangular df = true → df_col "frp" df = Some frp →
    plain_dir d = true → writable d (fs w) →
    ∃ w' pos,
      save_fire_data df source_name d w = (Ok [("csv", snapshot_path d)], w')
      ∧ fs w' !! snapshot_path d = Some (File (csv_of (df_take pos df)))
      ∧ pos ≡ₚ seq 0 (df_len df)
      ∧ column_descending (col_take pos frp)
      ∧ column_keeps_ties_in_order frp pos.

(** The reading of the spec the code does not follow: all sources are
    asked at one URL. *)
Definition one_url_for_all_sources : Prop :=
  ∀ name1 path1 name2 path2,
    (name1, path1) ∈ sources → (name2, path2) ∈ sources →
    name1 ≠ name2 → source_url path1 = source_url path2.

(** The reading of the spec the code does not follow: without a time
    column the analyzer lists the first five rows. *)
Definition lists_first_rows_without_time : Prop :=
  ∀ (O : Oracles) (df : DataFrame) (w : World),
    in_columns "acq_time" df = false →
    ∀ row l, row ∈ iterrows (df_head 5 df) → fire_line row.2 = Ok l →
      l ∈ console (analyze_fire_data df w).2.

(** A cell that [.2f] can format. *)
Definition is_numeric (v : scalar) : bool :=
  match v with SStr _ => false | _ => true end.

Definition numeric_field (name : string) (r : record) : bool :=
  match record_get name r with
  | Some v => is_numeric v
  | None => false
  end.

(** The file name every URL ends in. *)
Definition feed_file : string := "/txt/MODIS_C6_1_Global_24h.csv".

(** A boolean test of [descending]. *)
Fixpoint descendingb {A} `{DType A} (l : list A) : bool :=
  match l with
  | [] => true
  | x :: l' => forallb (λ y, negb (less x y)) l' && descendingb l'
  end.

(** Pairs taken from [enumerate l] point at their own keys. *)
Definition indexes {A} (l : list A) (ps : list (nat * A)) : Prop :=
  Forall (λ p, l !! p.1 = Some p.2) ps.

(** The pair [p] may stand before [q]: the key of [q] is not smaller. *)
Definition key_before {A} `{DType A} (p q : nat * A) : Prop :=
  less q.2 p.2 = false.

(** ** Two sorts that keep the contract *)

(** Insertion after the keys that are not larger: a stable sort. *)
Fixpoint insert_key {A} `{DType A} (x : nat * A) (l : list (nat * A))
    : list (nat * A) :=
  match l with
  | [] => [x]
  | y :: l' => if less x.2 y.2 then x :: l else y :: insert_key x l'
  end.

Definition insertion_sort {A} `{DType A} (l : list (nat * A)) : list (nat * A) :=
  foldl (λ acc x, insert_key x acc) [] l.

Definition insertion_argsort (A : Type) (D : DType A) (keys : list A)
    : list nat :=
  fst <$> insertion_sort (enumerate keys).

(** The same sort run from the other end: equal keys come out in reverse
    order. *)
Definition reversing_argsort (A : Type) (D : DType A) (keys : list A)
    : list nat :=
  (λ i, length keys - 1 - i) <$> insertion_argsort A D (reverse keys).

(** ** Sample data *)

(** The float64 nearest to [digits / 10^scale]. *)
Definition decimal (digits : Z) (scale : Z) : float64 :=
  SFdiv 53 1024 (float_of_Z digits) (float_of_Z (10 ^ scale)).

Definition range_index (n : nat) : list nat := seq 0 n.

Definition sample_clock : nat → datetime :=
  λ _, {| year := 2024; month := 1; day := 15;
          hour := 9; minute := 30; second := 0 |}.

Definition sample_oracles
    (sort : ∀ A : Type, DType A → list A → list nat)
    (net : string → result DataFrame) : Oracles := {|
  argsort := sort;
  download := net;
  ek_from_source := λ _ _, Ok (EkData 0);
  mkstemp := λ _, "/tmp/tmpfires.csv";
  clock := sample_clock;
|}.

Definition no_network : string → result DataFrame :=
  λ _, Raise (RequestError "connection refused").

Definition empty_world : World :=
  {| fs := ∅; console := []; ticks := 0 |}.

(** A response with rows for three dates. *)
Definition three_days : DataFrame := {|
  index := range_index 4;
  series :=
    [("latitude", Float64 [decimal 105 1; decimal 207 1; decimal 11 1; decimal 52 1]);
     ("acq_date", Object [Some "2024-01-14"; Some "2024-01-15";
                           Some "2024-01-16"; Some "2024-01-15"]);
     ("acq_time", Int64 [2350; 130; 15; 1245])%Z]
|}.

(** The table of the spec: intensities 3.2, 10.5, 1.0. *)
Definition frp_example : DataFrame := {|
  index := range_index 3;
  series := [("frp", Float64 [decimal 32 1; decimal 105 1; decimal 1 0])]
|}.

(** Two fires of the same intensity. *)
Definition tied_fires : DataFrame := {|
  index := range_index 2;
  series := [("id", Int64 [1; 2]%Z);
             ("frp", Float64 [decimal 10 1; decimal 10 1])]
|}.

(** Eighteen fires of the same intensity, numbered in input order. *)
Definition eighteen_tied_fires : DataFrame := {|
  index := range_index 18;
  series := [("id", Int64 (Z.of_nat <$> seq 1 18));
             ("frp", Float64 (replicate 18 (decimal 10 1)))]
|}.

(** A table with a time column and no coordinates. *)
Definition time_only : DataFrame := {|
  index := range_index 1;
  series := [("acq_time", Int64 [130]%Z)]
|}.

(** A table with coordinates and no time column. *)
Definition coordinates_only : DataFrame := {|
  index := range_index 1;
  series := [("latitude", Float64 [decimal 15 1]);
             ("longitude", Float64 [decimal 25 1])]
|}.

(** Six fires with times and coordinates, and no date column. *)
Definition six_fires : DataFrame := {|
  index := range_index 6;
  series :=
    [("latitude", Float64 [decimal 101 1; decimal 102 1; decimal 103 1;
                           decimal 104 1; decimal 105 1; decimal 106 1]);
     ("longitude", Float64 [decimal 201 1; decimal 202 1; decimal 203 1;
                            decimal 204 1; decimal 205 1; decimal 206 1]);
     ("acq_time", Int64 [130; 2350; 15; 1245; 800; 1245])%Z]
|}.

(** A table with no row. *)
Definition no_rows : DataFrame := {|
  index := [];
  series := [("acq_date", Object []); ("frp", Float64 [])]
|}.

(** ** What the further properties speak of *)

(** A date as [datetime] holds it: a year of at most four digits, month
    and day of at most two. *)
Definition valid_date (t : datetime) : Prop :=
  year t < 100 * 100 ∧ month t < 100 ∧ day t < 100.

(** The message of the error the fetcher raises when no source has rows of
    today. *)
Definition all_sources_failed : exn :=
  Exception "Failed to download fire data from all sources".

(** Two moments of the same day. *)
Definition morning : datetime :=
  {| year := 2024; month := 1; day := 15;
     hour := 6; minute := 5; second := 0 |}.

Definition evening : datetime :=
  {| year := 2024; month := 1; day := 15;
     hour := 23; minute := 59; second := 59 |}.



(** A world in which the output directory holds an old snapshot under
    another name, a file of another kind, and a file lies outside it. *)
Definition used_world : World := {|
  fs := {[ "fire_data" := Dir;
           "fire_data/fire_snapshot_2023.csv" := File (Bytes "old");
           "fire_data/notes.txt" := File (Bytes "keep");
           "readme.md" := File (Bytes "keep") ]};
  console := [];
  ticks := 0;
|}.

(** A world in which the name of the output directory is taken by a
    file. *)
Definition blocked_world : World := {|
  fs := {[ "fire_data" := File (Bytes "") ]};
  console := [];
  ticks := 0;
|}.

(** Fires of which two have no intensity. *)
Definition patchy_fires : DataFrame := {|
  index := range_index 4;
  series := [("id", Int64 [1; 2; 3; 4]%Z);
             ("frp", Float64 [nan; decimal 32 1; nan; decimal 105 1])]
|}.

(** A step that only prints: it leaves the files and the clock as they
    are and adds its lines after those already printed. *)
Definition only_prints {A} (m : M A) : Prop :=
  ∀ w, fs (m w).2 = fs w
       ∧ ticks (m w).2 = ticks w
       ∧ console w `prefix_of` console (m w).2.

(** A response with every column the script reads; the second row is of
    the day before and has no intensity. *)
Definition full_feed : DataFrame := {|
  index := range_index 3;
  series :=
    [("latitude", Float64 [decimal 105 1; decimal 207 1; decimal 11 1]);
     ("longitude", Float64 [decimal 201 1; decimal 202 1; decimal 203 1]);
     ("confidence", Int64 [85; 60; 95]%Z);
     ("frp", Float64 [decimal 32 1; nan; decimal 105 1]);
     ("acq_date", Object [Some "2024-01-15"; Some "2024-01-14";
                           Some "2024-01-15"]);
     ("acq_time", Int64 [130; 2350; 1245]%Z)]
|}.

(** A response whose confidence is a letter, as the VIIRS feeds have
    it. *)
Definition letter_confidence : DataFrame := {|
  index := range_index 2;
  series :=
    [("latitude", Float64 [decimal 105 1; decimal 207 1]);
     ("longitude", Float64 [decimal 201 1; decimal 202 1]);
     ("confidence", Object [Some "n"; Some "h"]);
     ("acq_date", Object [Some "2024-01-15"; Some "2024-01-15"]);
     ("acq_time", Int64 [130; 1245]%Z)]
|}.

(** Only the first source answers. *)
Definition modis_only (df : DataFrame) : string → result DataFrame :=
  λ url, if String.eqb url (source_url "modis-c6.1") then Ok df
         else Raise (RequestError "404 Not Found").

(** The rows of 2024-01-15 in [three_days]. *)
Definition one_day : DataFrame :=
  df_mask [false; true; false; true] three_days.

(** * Proofs *)

(** ** The orders of the dtypes *)

Lemma Z_ltb_asym (x y : Z) : (x <? y)%Z = true → (y <? x)%Z = false.
Proof. lia. Qed.

Lemma Z_ltb_trans (x y z : Z) :
  (x <? y)%Z = true → (y <? z)%Z = true → (x <? z)%Z = true.
Proof. lia. Qed.

Lemma int64_lawful : LawfulDType Z.
Proof. exact (@Build_LawfulDType Z int64_dtype Z_ltb_asym Z_ltb_trans). Qed.

#[export] Existing Instance int64_lawful.

(** [Pos.compare_cont Eq] is the comparison of positives. *)
Lemma compare_cont_is_compare (p q : positive) :
  Pos.compare_cont Eq p q = (p ?= q)%positive.
Proof. reflexivity. Qed.

Ltac float_order :=
  repeat match goal with
  | s : bool |- _ => destruct s
  end;
  simpl;
  repeat match goal with
  | |- context [(?a ?= ?b)%Z] => destruct (Z.compare_spec a b); simpl
  | |- context [Pos.compare_cont Eq ?a ?b] =>
      rewrite (compare_cont_is_compare a b);
      destruct (Pos.compare_spec a b); simpl
  end;
  try congruence; try lia.

Lemma SFltb_asym (x y : float64) : SFltb x y = true → SFltb y x = false.
Proof.
  unfold SFltb.
  destruct x as [s1|s1| |s1 m1 e1], y as [s2|s2| |s2 m2 e2]; float_order.
Qed.

Lemma SFltb_trans (x y z : float64) :
  SFltb x y = true → SFltb y z = true → SFltb x z = true.
Proof.
  unfold SFltb.
  destruct x as [s1|s1| |s1 m1 e1], y as [s2|s2| |s2 m2 e2],
    z as [s3|s3| |s3 m3 e3]; float_order.
Qed.

Lemma float64_lawful : LawfulDType float64.
Proof.
  exact (@Build_LawfulDType float64 float64_dtype SFltb_asym SFltb_trans).
Qed.

#[export] Existing Instance float64_lawful.

Lemma ascii_compare_lt (a b : Ascii.ascii) :
  Ascii.compare a b = Lt ↔ (Ascii.N_of_ascii a < Ascii.N_of_ascii b)%N.
Proof. unfold Ascii.compare. apply N.compare_lt_iff. Qed.

Lemma ascii_compare_eq (a b : Ascii.ascii) : Ascii.compare a b = Eq ↔ a = b.
Proof.
  split; [apply Ascii.compare_eq_iff|].
  intros ->. unfold Ascii.compare. apply N.compare_refl.
Qed.

Lemma ascii_compare_gt (a b : Ascii.ascii) :
  Ascii.compare a b = Gt ↔ (Ascii.N_of_ascii b < Ascii.N_of_ascii a)%N.
Proof. unfold Ascii.compare. apply N.compare_gt_iff. Qed.

Lemma str_lt_asym (x y : string) : str_lt x y = true → str_lt y x = false.
Proof.
  unfold str_lt. rewrite (String.compare_antisym y x).
  by destruct (String.compare x y).
Qed.

Lemma string_compare_lt_trans (x y z : string) :
  String.compare x y = Lt → String.compare y z = Lt → String.compare x z = Lt.
Proof.
  revert y z. induction x as [|a x IH]; intros [|b y] [|c z]; simpl; try done.
  destruct (Ascii.compare a b) eqn:Hab; try done;
    destruct (Ascii.compare b c) eqn:Hbc; try done; intros H1 H2.
  - apply ascii_compare_eq in Hab, Hbc. subst.
    rewrite (proj2 (ascii_compare_eq c c) eq_refl). eauto.
  - apply ascii_compare_eq in Hab. subst. by rewrite Hbc.
  - apply ascii_compare_eq in Hbc. subst. by rewrite Hab.
  - apply ascii_compare_lt in Hab, Hbc.
    assert (Ascii.compare a c = Lt) as -> by (apply ascii_compare_lt; by eapply N.lt_trans).
    done.
Qed.

Lemma str_lt_trans (x y z : string) :
  str_lt x y = true → str_lt y z = true → str_lt x z = true.
Proof.
  unfold str_lt.
  destruct (String.compare x y) eqn:H1; try done.
  destruct (String.compare y z) eqn:H2; try done.
  by rewrite (string_compare_lt_trans _ _ _ H1 H2).
Qed.

Lemma obj_less_asym (x y : option string) :
  obj_less x y = true → obj_less y x = false.
Proof. destruct x, y; simpl; try done. apply str_lt_asym. Qed.

Lemma obj_less_trans (x y z : option string) :
  obj_less x y = true → obj_less y z = true → obj_less x z = true.
Proof. destruct x, y, z; simpl; try done. apply str_lt_trans. Qed.

Lemma object_lawful : LawfulDType (option string).
Proof.
  exact (@Build_LawfulDType (option string) object_dtype
           obj_less_asym obj_less_trans).
Qed.

#[export] Existing Instance object_lawful.

(** ** Facts about gathering rows *)

Lemma gather_cons_Some {A} (vs : list A) (p : nat) (pos : list nat) (v : A) :
  vs !! p = Some v → gather vs (p :: pos) = v :: gather vs pos.
Proof. intros H. unfold gather. cbn. by rewrite H. Qed.

Lemma gather_cons_None {A} (vs : list A) (p : nat) (pos : list nat) :
  vs !! p = None → gather vs (p :: pos) = gather vs pos.
Proof. intros H. unfold gather. cbn. by rewrite H. Qed.

Lemma gather_fmap {A B} (f : A → B) (vs : list A) (pos : list nat) :
  gather (f <$> vs) pos = f <$> gather vs pos.
Proof.
  induction pos as [|p pos IH]; [done|].
  destruct (vs !! p) as [v|] eqn:Hp.
  - rewrite (gather_cons_Some vs p pos v Hp).
    rewrite (gather_cons_Some (f <$> vs) p pos (f v))
      by (by rewrite list_lookup_fmap, Hp).
    cbn. by rewrite IH.
  - rewrite (gather_cons_None vs p pos Hp).
    by rewrite gather_cons_None by (by rewrite list_lookup_fmap, Hp).
Qed.

Lemma cells_col_take (pos : list nat) (c : column) :
  cells (col_take pos c) = gather (cells c) pos.
Proof. destruct c; simpl; by rewrite gather_fmap. Qed.

Lemma gather_lookup {A} (vs : list A) (pos : list nat) (k : nat) :
  Forall (λ p, p < length vs) pos →
  gather vs pos !! k = pos !! k ≫= (λ p, vs !! p).
Proof.
  intros Hpos. revert k. induction Hpos as [|p pos Hp _ IH]; intros k; [done|].
  destruct (lookup_lt_is_Some_2 vs p Hp) as [v Hv].
  rewrite (gather_cons_Some vs p pos v Hv).
  destruct k as [|k]; cbn; [done|]. apply IH.
Qed.

Lemma length_gather {A} (vs : list A) (pos : list nat) :
  Forall (λ p, p < length vs) pos → length (gather vs pos) = length pos.
Proof.
  induction 1 as [|p pos Hp _ IH]; [done|].
  destruct (lookup_lt_is_Some_2 vs p Hp) as [v Hv].
  rewrite (gather_cons_Some vs p pos v Hv). cbn. by rewrite IH.
Qed.

Lemma gather_seq {A} (vs : list A) : gather vs (seq 0 (length vs)) = vs.
Proof.
  apply list_eq. intros k. rewrite gather_lookup.
  - destruct (decide (k < length vs)) as [Hk|Hk].
    + by rewrite lookup_seq_lt.
    + rewrite lookup_seq_ge by lia. cbn. symmetry. apply lookup_ge_None. lia.
  - apply Forall_forall. intros p Hp. apply elem_of_seq in Hp. lia.
Qed.

Lemma length_rows (df : DataFrame) : length (rows df) = df_len df.
Proof. unfold rows. by rewrite length_imap. Qed.

Lemma rectangular_col (df : DataFrame) (nc : string * column) :
  rectangular df = true → nc ∈ series df → length (cells nc.2) = df_len df.
Proof.
  unfold rectangular. rewrite forallb_forall. intros H Hin.
  apply list_elem_of_In in Hin. apply H in Hin. by apply Nat.eqb_eq in Hin.
Qed.

Lemma omap_ext_elem {A B} (f g : A → option B) (l : list A) :
  (∀ x, x ∈ l → f x = g x) → omap f l = omap g l.
Proof.
  induction l as [|x l IH]; intros H; [done|].
  cbn. rewrite (H x) by left. rewrite IH; [done|].
  intros y Hy. apply H. by right.
Qed.

Lemma omap_fmap_compose {A B C} (f : A → B) (g : B → option C) (l : list A) :
  omap g (f <$> l) = omap (g ∘ f) l.
Proof. induction l as [|x l IH]; [done|]. cbn. by rewrite IH. Qed.

(** The rows of [df.take(pos)] are the rows of [df] at [pos]. *)
Lemma rows_df_take (pos : list nat) (df : DataFrame) :
  rectangular df = true →
  Forall (λ p, p < df_len df) pos →
  rows (df_take pos df) = gather (rows df) pos.
Proof.
  intros Hrect Hpos. apply list_eq. intros k.
  unfold rows at 1. rewrite list_lookup_imap. simpl.
  rewrite !gather_lookup by (by rewrite ?length_rows).
  destruct (pos !! k) as [p|] eqn:Hk; simpl; [|done].
  unfold rows. rewrite list_lookup_imap.
  destruct (index df !! p) as [lbl|]; simpl; [|done].
  do 2 f_equal. unfold row_at. simpl.
  rewrite omap_fmap_compose. apply omap_ext_elem. intros nc Hnc. simpl.
  rewrite cells_col_take, gather_lookup, Hk; [done|].
  by rewrite (rectangular_col df nc).
Qed.

Lemma gather_nonzero_from_ge {A} (l : list A) (mask : list bool) (k : nat) :
  length l ≤ k → gather l (nonzero_from k mask) = [].
Proof.
  revert k. induction mask as [|b mask IH]; intros k Hk; [done|].
  cbn. destruct b; [|apply IH; lia].
  rewrite gather_cons_None by (apply lookup_ge_None_2; lia).
  apply IH. lia.
Qed.

Lemma gather_nonzero_from {A} (pre l : list A) (mask : list bool) :
  gather (pre ++ l) (nonzero_from (length pre) mask) = compress mask l.
Proof.
  revert pre l. induction mask as [|b mask IH]; intros pre l; [done|].
  destruct l as [|x l].
  - rewrite app_nil_r, gather_nonzero_from_ge by lia. by destruct b.
  - specialize (IH (pre ++ [x]) l).
    rewrite length_app, <- app_assoc in IH. cbn in IH.
    replace (length pre + 1) with (S (length pre)) in IH by lia.
    cbn. destruct b; [|done].
    rewrite (gather_cons_Some _ _ _ x).
    + by rewrite IH.
    + by rewrite lookup_app_r, Nat.sub_diag by lia.
Qed.

Lemma gather_nonzero {A} (l : list A) (mask : list bool) :
  gather l (nonzero mask) = compress mask l.
Proof. apply (gather_nonzero_from [] l mask). Qed.

Lemma compress_fmap {A} (p : A → bool) (l : list A) :
  compress (p <$> l) l = List.filter p l.
Proof.
  induction l as [|x l IH]; [done|]. cbn. destruct (p x); by rewrite IH.
Qed.

Lemma nonzero_from_bound (k : nat) (mask : list bool) :
  Forall (λ p, p < k + length mask) (nonzero_from k mask).
Proof.
  revert k. induction mask as [|b mask IH]; intros k; simpl; [done|].
  specialize (IH (S k)).
  assert (Forall (λ p, p < k + S (length mask)) (nonzero_from (S k) mask)).
  { eapply Forall_impl; [exact IH|]. simpl. intros; lia. }
  destruct b; [constructor; [lia|done]|done].
Qed.

(** ** Gathering along a permutation *)

Lemma gather_app {A} (vs : list A) (p1 p2 : list nat) :
  gather vs (p1 ++ p2) = gather vs p1 ++ gather vs p2.
Proof. apply omap_app. Qed.

Lemma gather_Permutation {A} (vs : list A) (p1 p2 : list nat) :
  p1 ≡ₚ p2 → gather vs p1 ≡ₚ gather vs p2.
Proof. apply omap_Permutation. Qed.

Lemma gather_reverse {A} (vs : list A) (pos : list nat) :
  gather vs (reverse pos) = reverse (gather vs pos).
Proof.
  induction pos as [|p pos IH]; [done|].
  rewrite reverse_cons, gather_app, IH.
  destruct (vs !! p) as [v|] eqn:Hp.
  - rewrite (gather_cons_Some vs p pos v Hp), (gather_cons_Some vs p [] v Hp).
    by rewrite reverse_cons.
  - rewrite (gather_cons_None vs p pos Hp), (gather_cons_None vs p [] Hp).
    by rewrite app_nil_r.
Qed.

Lemma gather_perm_seq {A} (vs : list A) (pos : list nat) :
  pos ≡ₚ seq 0 (length vs) → gather vs pos ≡ₚ vs.
Proof.
  intros Hp. rewrite (gather_Permutation vs _ _ Hp). by rewrite gather_seq.
Qed.

Lemma perm_seq_bound (n : nat) (pos : list nat) :
  pos ≡ₚ seq 0 n → Forall (λ p, p < n) pos.
Proof.
  intros Hp. apply Forall_forall. intros p Hin.
  rewrite Hp in Hin. apply elem_of_seq in Hin. lia.
Qed.

Lemma gather_gather {A} (vs : list A) (f pos : list nat) :
  Forall (λ i, i < length vs) f →
  gather vs (gather f pos) = gather (gather vs f) pos.
Proof.
  intros Hf. induction pos as [|t pos IH]; [done|].
  destruct (f !! t) as [i|] eqn:Ht.
  - rewrite (gather_cons_Some f t pos i Ht).
    assert (i < length vs) as Hi.
    { eapply Forall_forall in Hf; [exact Hf|]. by eapply list_elem_of_lookup_2. }
    destruct (lookup_lt_is_Some_2 vs i Hi) as [v Hv].
    rewrite (gather_cons_Some vs i _ v Hv).
    rewrite (gather_cons_Some (gather vs f) t pos v); [by rewrite IH|].
    by rewrite gather_lookup, Ht.
  - rewrite (gather_cons_None f t pos Ht).
    rewrite gather_cons_None; [done|].
    apply lookup_ge_None. rewrite length_gather by done.
    by apply lookup_ge_None.
Qed.

(** ** Enumerating a list *)

Lemma enumerate_lookup {A} (l : list A) (i : nat) :
  enumerate l !! i = pair i <$> l !! i.
Proof. unfold enumerate. apply list_lookup_imap. Qed.

Lemma length_enumerate {A} (l : list A) : length (enumerate l) = length l.
Proof. unfold enumerate. apply length_imap. Qed.

Lemma fst_enumerate {A} (l : list A) :
  fst <$> enumerate l = seq 0 (length l).
Proof.
  apply list_eq. intros i. rewrite list_lookup_fmap, enumerate_lookup.
  destruct (l !! i) as [x|] eqn:Hi; cbn.
  - rewrite lookup_seq_lt; [done|]. by eapply lookup_lt_Some.
  - rewrite lookup_seq_ge; [done|]. by apply lookup_ge_None.
Qed.

Lemma snd_enumerate {A} (l : list A) : snd <$> enumerate l = l.
Proof.
  apply list_eq. intros i. rewrite list_lookup_fmap, enumerate_lookup.
  by destruct (l !! i).
Qed.

Lemma elem_of_enumerate {A} (l : list A) (p : nat * A) :
  p ∈ enumerate l → l !! p.1 = Some p.2.
Proof.
  intros Hin. apply list_elem_of_lookup in Hin as [i Hi].
  rewrite enumerate_lookup in Hi.
  destruct (l !! i) as [x|] eqn:Hx; cbn in Hi; [|done].
  by injection Hi as <-.
Qed.

Lemma indexes_enumerate {A} (l : list A) : indexes l (enumerate l).
Proof. apply Forall_forall. intros p. apply elem_of_enumerate. Qed.

Lemma indexes_Permutation {A} (l : list A) (ps qs : list (nat * A)) :
  ps ≡ₚ qs → indexes l ps → indexes l qs.
Proof. unfold indexes. by intros ->. Qed.

Lemma indexes_filter {A} (l : list A) (f : nat * A → bool) (ps : list (nat * A)) :
  indexes l ps → indexes l (List.filter f ps).
Proof.
  unfold indexes. rewrite !Forall_forall. intros H p Hin.
  apply list_elem_of_In, filter_In in Hin as [Hin _].
  apply H. by apply list_elem_of_In.
Qed.

Lemma gather_indexes {A} (l : list A) (ps : list (nat * A)) :
  indexes l ps → gather l (fst <$> ps) = snd <$> ps.
Proof.
  induction 1 as [|p ps Hp _ IH]; [done|].
  cbn. rewrite (gather_cons_Some _ _ _ _ Hp). by rewrite IH.
Qed.

Lemma indexes_bound {A} (l : list A) (ps : list (nat * A)) :
  indexes l ps → Forall (λ i, i < length l) (fst <$> ps).
Proof.
  unfold indexes. intros H. apply Forall_fmap.
  eapply Forall_impl; [exact H|].
  intros p Hp. cbn in *. exact (lookup_lt_Some _ _ _ Hp).
Qed.

(** ** Splitting by a test *)

Lemma filter_split_Permutation {A} (f : A → bool) (l : list A) :
  List.filter f l ++ List.filter (λ x, negb (f x)) l ≡ₚ l.
Proof.
  induction l as [|x l IH]; [done|].
  cbn. destruct (f x); cbn.
  - by rewrite IH.
  - rewrite <- Permutation_middle. by rewrite IH.
Qed.

Lemma Forall_filter_true {A} (f : A → bool) (l : list A) :
  Forall (λ x, f x = true) (List.filter f l).
Proof.
  apply Forall_forall. intros x Hin.
  by apply list_elem_of_In, filter_In in Hin as [_ ?].
Qed.

Lemma StronglySorted_reverse {A} (R : relation A) (l : list A) :
  StronglySorted R l → StronglySorted (flip R) (reverse l).
Proof.
  intros Hl. induction Hl as [|x l _ IH Hx]; [apply SSorted_nil|].
  rewrite reverse_cons. apply StronglySorted_app_2; [|done|repeat constructor].
  intros y z Hy Hz. apply list_elem_of_singleton in Hz as ->.
  rewrite elem_of_reverse in Hy. unfold flip.
  rewrite Forall_forall in Hx. by apply Hx.
Qed.

(** ** [nargsort] orders the rows *)

Section nargsort.
Context `{O : Oracles} (Hsort : argsort_sorts O).
Context {A : Type} `{L : LawfulDType A}.

Lemma nargsort_descending_eq (items : list A) :
  nargsort items false
  = reverse (gather (fst <$> reverse (present_pairs items))
               (argsort (snd <$> reverse (present_pairs items))))
    ++ (fst <$> missing_pairs items).
Proof. reflexivity. Qed.

Lemma present_not_missing (items : list A) :
  Forall (λ k, isna k = false) (snd <$> reverse (present_pairs items)).
Proof.
  apply Forall_fmap, Forall_forall. intros p Hp.
  apply elem_of_reverse, list_elem_of_In, filter_In in Hp as [_ Hp].
  cbn. by apply negb_true_iff in Hp.
Qed.

Lemma present_indexes (items : list A) :
  indexes items (reverse (present_pairs items)).
Proof.
  eapply indexes_Permutation; [symmetry; apply reverse_Permutation|].
  apply indexes_filter, indexes_enumerate.
Qed.

(** The positions come out as a permutation of all positions. *)
Lemma nargsort_Permutation (items : list A) :
  nargsort items false ≡ₚ seq 0 (length items).
Proof.
  rewrite nargsort_descending_eq.
  destruct (Hsort A _ L _ (present_not_missing items)) as [Hperm _].
  rewrite length_fmap in Hperm.
  rewrite reverse_Permutation.
  rewrite gather_perm_seq by (by rewrite length_fmap).
  rewrite reverse_Permutation, <- fmap_app, <- fst_enumerate.
  apply fmap_Permutation.
  etransitivity;
    [|apply (filter_split_Permutation (λ p : nat * A, negb (isna p.2)))].
  apply Permutation_app; [done|].
  unfold missing_pairs. generalize (enumerate items). clear.
  intros l. induction l as [|p l IH]; [done|].
  cbn. rewrite negb_involutive. destruct (isna p.2); by rewrite ?IH.
Qed.

(** Along them the keys descend, the missing ones last. *)
Lemma nargsort_descending (items : list A) :
  descending_na_last (gather items (nargsort items false)).
Proof.
  rewrite nargsort_descending_eq, gather_app, gather_reverse.
  destruct (Hsort A _ L _ (present_not_missing items)) as [Hperm Hasc].
  pose proof (present_indexes items) as Hidx.
  rewrite gather_gather by (by apply indexes_bound).
  rewrite (gather_indexes _ _ Hidx).
  eexists _, _. split; [reflexivity|]. split_and!.
  - apply Forall_reverse.
    rewrite gather_perm_seq by done. apply present_not_missing.
  - rewrite gather_indexes by apply indexes_filter, indexes_enumerate.
    apply Forall_fmap. unfold missing_pairs.
    eapply Forall_impl; [apply Forall_filter_true|]. done.
  - apply StronglySorted_reverse in Hasc. exact Hasc.
Qed.
End nargsort.

(** ** The two reference sorts keep the contract *)

Section reference_sorts.
Context {A : Type} `{L : LawfulDType A}.

Lemma insert_key_Permutation (x : nat * A) (l : list (nat * A)) :
  insert_key x l ≡ₚ x :: l.
Proof.
  induction l as [|y l IH]; [done|].
  cbn. destruct (less x.2 y.2); [done|].
  rewrite IH. apply Permutation_swap.
Qed.

Lemma insertion_sort_from (acc l : list (nat * A)) :
  foldl (λ acc x, insert_key x acc) acc l ≡ₚ acc ++ l.
Proof.
  revert acc. induction l as [|x l IH]; intros acc; cbn.
  - by rewrite app_nil_r.
  - rewrite IH, insert_key_Permutation. cbn. apply Permutation_middle.
Qed.

Lemma insertion_sort_Permutation (l : list (nat * A)) :
  insertion_sort l ≡ₚ l.
Proof. apply (insertion_sort_from [] l). Qed.

Lemma insert_key_sorted (x : nat * A) (l : list (nat * A)) :
  StronglySorted key_before l → StronglySorted key_before (insert_key x l).
Proof.
  intros Hl. induction Hl as [|y l Hl IH Hy]; cbn.
  - repeat constructor.
  - destruct (less x.2 y.2) eqn:Hxy.
    + constructor; [by constructor|].
      constructor; [by apply less_asym|].
      eapply Forall_impl; [exact Hy|]. intros z Hz. unfold key_before in *.
      destruct (less z.2 x.2) eqn:Hzx; [|done].
      by rewrite (less_trans _ _ _ Hzx Hxy) in Hz.
    + constructor; [done|].
      rewrite insert_key_Permutation. by constructor.
Qed.

Lemma insertion_sort_sorted (l : list (nat * A)) :
  StronglySorted key_before (insertion_sort l).
Proof.
  unfold insertion_sort.
  assert (∀ acc, StronglySorted key_before acc →
            StronglySorted key_before (foldl (λ acc x, insert_key x acc) acc l))
    as Hgen; [|apply Hgen; constructor].
  induction l as [|x l IH]; intros acc Hacc; cbn; [done|].
  by apply IH, insert_key_sorted.
Qed.

Lemma insertion_argsort_Permutation (keys : list A) :
  insertion_argsort A _ keys ≡ₚ seq 0 (length keys).
Proof.
  unfold insertion_argsort.
  by rewrite insertion_sort_Permutation, fst_enumerate.
Qed.

Lemma insertion_argsort_ascending (keys : list A) :
  ascending (gather keys (insertion_argsort A _ keys)).
Proof.
  unfold insertion_argsort. rewrite gather_indexes.
  - eapply StronglySorted_fmap; [|apply insertion_sort_sorted]. done.
  - eapply indexes_Permutation; [|apply indexes_enumerate].
    symmetry. apply insertion_sort_Permutation.
Qed.

Lemma mirror_seq (n : nat) :
  (λ i, n - 1 - i) <$> seq 0 n = reverse (seq 0 n).
Proof.
  apply list_eq. intros i. rewrite list_lookup_fmap.
  destruct (decide (i < n)) as [Hi|Hi].
  - rewrite reverse_lookup by (by rewrite length_seq).
    rewrite length_seq, !lookup_seq_lt by lia. cbn. f_equal. lia.
  - rewrite lookup_seq_ge by lia. symmetry. apply lookup_ge_None.
    rewrite length_reverse, length_seq. lia.
Qed.

Lemma gather_mirror (keys : list A) (pos : list nat) :
  Forall (λ p, p < length keys) pos →
  gather keys ((λ i, length keys - 1 - i) <$> pos)
  = gather (reverse keys) pos.
Proof.
  intros Hpos. induction Hpos as [|p pos Hp _ IH]; [done|].
  assert (is_Some (reverse keys !! p)) as [v Hv].
  { apply lookup_lt_is_Some. by rewrite length_reverse. }
  rewrite (gather_cons_Some _ _ _ _ Hv). cbn.
  rewrite (gather_cons_Some _ _ _ v); [by rewrite IH|].
  rewrite reverse_lookup in Hv by done. rewrite <- Hv. f_equal. lia.
Qed.

Lemma reversing_argsort_Permutation (keys : list A) :
  reversing_argsort A _ keys ≡ₚ seq 0 (length keys).
Proof.
  unfold reversing_argsort.
  rewrite insertion_argsort_Permutation, length_reverse, mirror_seq.
  apply reverse_Permutation.
Qed.

Lemma reversing_argsort_ascending (keys : list A) :
  ascending (gather keys (reversing_argsort A _ keys)).
Proof.
  unfold reversing_argsort. rewrite gather_mirror.
  - apply insertion_argsort_ascending.
  - rewrite <- (length_reverse keys).
    apply perm_seq_bound, insertion_argsort_Permutation.
Qed.
End reference_sorts.

Lemma insertion_argsort_sorts (net : string → result DataFrame) :
  argsort_sorts (sample_oracles insertion_argsort net).
Proof.
  intros A D L keys _. split.
  - apply insertion_argsort_Permutation.
  - apply insertion_argsort_ascending.
Qed.

Lemma reversing_argsort_sorts (net : string → result DataFrame) :
  argsort_sorts (sample_oracles reversing_argsort net).
Proof.
  intros A D L keys _. split.
  - apply reversing_argsort_Permutation.
  - apply reversing_argsort_ascending.
Qed.

(** ** Rows of a filtered frame *)

Lemma df_col_elem (name : string) (df : DataFrame) (c : column) :
  df_col name df = Some c → ∃ n, (n, c) ∈ series df.
Proof.
  unfold df_col. destruct (List.find _ _) as [[n c']|] eqn:Hf; [|done].
  cbn. intros [= <-]. exists n.
  apply find_some in Hf as [Hin _]. by apply list_elem_of_In.
Qed.

Lemma df_col_length (name : string) (df : DataFrame) (c : column) :
  rectangular df = true → df_col name df = Some c →
  length (cells c) = df_len df.
Proof.
  intros Hrect Hc. apply df_col_elem in Hc as [n Hin].
  apply (rectangular_col df (n, c) Hrect Hin).
Qed.

Lemma in_columns_df_col (name : string) (df : DataFrame) :
  in_columns name df = true ↔ is_Some (df_col name df).
Proof.
  unfold in_columns, df_col, columns.
  induction (series df) as [|[n c] l IH]; cbn.
  - split; [done|]. by intros [? ?].
  - destruct (String.eqb name n); cbn; [by split; eauto|]. exact IH.
Qed.

Lemma in_columns_false (name : string) (df : DataFrame) :
  in_columns name df = false ↔ df_col name df = None.
Proof.
  pose proof (in_columns_df_col name df) as H.
  destruct (in_columns name df), (df_col name df); split; try done.
  - intros _. destruct (proj1 H eq_refl) as [? ?]. done.
  - intros _. assert (is_Some (Some c)) as Hs by eauto.
    apply H in Hs. done.
Qed.

(** The field of a row is the cell of its column. *)
Lemma record_get_row_at (name : string) (df : DataFrame) (c : column) (i : nat) :
  rectangular df = true → i < df_len df → df_col name df = Some c →
  record_get name (row_at df i) = cells c !! i.
Proof.
  unfold rectangular, df_col, row_at, record_get.
  generalize (df_len df). intros n.
  induction (series df) as [|[m c'] l IH]; cbn; [done|].
  intros Hrect Hi. apply andb_true_iff in Hrect as [Hlen Hrect].
  apply Nat.eqb_eq in Hlen. unfold col_len in Hlen.
  assert (is_Some (cells c' !! i)) as [v Hv].
  { apply lookup_lt_is_Some. lia. }
  rewrite Hv. cbn. destruct (String.eqb name m); cbn.
  - by intros [= <-].
  - by apply IH.
Qed.

Lemma record_get_row_at_None (name : string) (df : DataFrame) (i : nat) :
  df_col name df = None → record_get name (row_at df i) = None.
Proof.
  unfold df_col, row_at, record_get.
  induction (series df) as [|[m c'] l IH]; cbn; [done|].
  destruct (String.eqb name m) eqn:Hm; [done|]. cbn. intros Hl.
  destruct (cells c' !! i); cbn; [|by apply IH].
  rewrite Hm. by apply IH.
Qed.

Arguments record_get : simpl never.
Arguments row_at : simpl never.

Lemma eq_str_cells (c : column) (s : string) :
  eq_str c s = is_str s <$> cells c.
Proof.
  destruct c as [vs|vs|vs]; cbn; rewrite <- list_fmap_compose;
    apply list_fmap_ext; intros ? x ?; cbn; try done.
  by destruct x.
Qed.

Lemma length_eq_str (c : column) (s : string) :
  length (eq_str c s) = length (cells c).
Proof. by rewrite eq_str_cells, length_fmap. Qed.

Lemma rows_df_mask (mask : list bool) (df : DataFrame) :
  rectangular df = true → length mask = df_len df →
  rows (df_mask mask df) = compress mask (rows df).
Proof.
  intros Hrect Hlen. unfold df_mask. rewrite rows_df_take; [|done|].
  - apply gather_nonzero.
  - rewrite <- Hlen. apply (nonzero_from_bound 0).
Qed.

Lemma eq_str_is_today (today_str : string) (date : column) (df : DataFrame) :
  rectangular df = true → df_col "acq_date" df = Some date →
  eq_str date today_str = is_today today_str <$> rows df.
Proof.
  intros Hrect Hdate. apply list_eq. intros i.
  rewrite eq_str_cells, !list_lookup_fmap. unfold rows.
  rewrite list_lookup_imap.
  pose proof (df_col_length _ _ _ Hrect Hdate) as Hlen.
  destruct (index df !! i) as [lbl|] eqn:Hi; cbn.
  - apply lookup_lt_Some in Hi. unfold is_today. cbn.
    rewrite (record_get_row_at _ _ _ _ Hrect Hi Hdate).
    destruct (cells date !! i) as [[]|] eqn:Hv; cbn; try done.
    apply lookup_ge_None in Hv. unfold df_len in *. lia.
  - apply lookup_ge_None in Hi.
    rewrite (lookup_ge_None_2 (cells date) i); [done|]. unfold df_len in *. lia.
Qed.

Lemma rows_filter_today (today_str : string) (date : column) (df : DataFrame) :
  rectangular df = true → df_col "acq_date" df = Some date →
  rows (filter_today today_str date df)
  = List.filter (is_today today_str) (rows df).
Proof.
  intros Hrect Hdate. unfold filter_today.
  rewrite rows_df_mask; [|done|].
  - by rewrite (eq_str_is_today _ _ _ Hrect Hdate), compress_fmap.
  - rewrite length_eq_str. by eapply df_col_length.
Qed.

(** ** The date string *)

Lemma length_strftime_Ymd (t : datetime) : String.length (strftime_Ymd t) = 10.
Proof. reflexivity. Qed.

Lemma strftime_Ymd_dashes (t : datetime) :
  String.get 4 (strftime_Ymd t) = Some "-"%char
  ∧ String.get 7 (strftime_Ymd t) = Some "-"%char.
Proof. split; reflexivity. Qed.

(** ** Running the fetcher *)

Ltac run_monad :=
  unfold mbind, M_bind, mret, M_ret, bind, ret, lift, raise, print,
    try_except, try_finally, datetime_now in *;
  cbn [fs console ticks fst snd] in *.

Lemma bind_run {A B} (m : M A) (k : A → M B) (w : World) :
  (m ≫= k) w
  = match m w with
    | (Ok a, w') => k a w'
    | (Raise e, w') => (Raise e, w')
    end.
Proof. reflexivity. Qed.

Section fetcher.
Context `{O : Oracles}.

Lemma length_rows_df_take (pos : list nat) (df : DataFrame) :
  df_len (df_take pos df) = length (gather (index df) pos).
Proof. reflexivity. Qed.

Lemma try_source_run (today_str source_name source_path : string) (w : World) :
  ∃ w',
    try_except (try_source today_str source_name source_path)
      (λ e, print [Lit "Failed to download from "; Lit source_name;
                   Lit ": "; Exn e];;
            ret None) w
    = (Ok ((λ t, (t, source_name)) <$> todays_rows today_str source_path), w')
    ∧ fs w' = fs w ∧ ticks w' = ticks w.
Proof.
  unfold try_source, todays_rows. run_monad.
  destruct (download (source_url source_path)) as [df|e]; cbn; [|by eauto].
  destruct (df_empty df); cbn; [by eauto|].
  destruct (in_columns "acq_date" df) eqn:Hcol; cbn.
  - apply in_columns_df_col in Hcol as [date Hdate].
    unfold df_getitem. rewrite Hdate. cbn.
    destruct (df_empty (filter_today today_str date df)); cbn; by eauto.
  - apply in_columns_false in Hcol. rewrite Hcol. by eauto.
Qed.

Lemma try_sources_run (today_str : string) (srcs : list (string * string))
    (w : World) :
  ∃ w',
    try_sources today_str srcs w
    = (match first_source today_str srcs with
       | Some found => Ok found
       | None => Raise (Exception "Failed to download fire data from all sources")
       end, w')
    ∧ fs w' = fs w ∧ ticks w' = ticks w.
Proof.
  revert w. induction srcs as [|[source_name source_path] rest IH]; intros w.
  - by exists w.
  - cbn [try_sources first_source].
    destruct (try_source_run today_str source_name source_path w)
      as (w1 & Hrun & Hfs & Hticks).
    rewrite bind_run, Hrun.
    destruct (todays_rows today_str source_path) as [t|]; cbn.
    + by exists w1.
    + destruct (IH w1) as (w2 & -> & Hfs2 & Hticks2).
      exists w2. by rewrite Hfs2, Hticks2.
Qed.

Lemma get_latest_fire_data_run (w : World) :
  ∃ w',
    get_latest_fire_data w
    = (match first_source (strftime_Ymd (clock (ticks w))) sources with
       | Some found => Ok found
       | None => Raise (Exception "Failed to download fire data from all sources")
       end, w')
    ∧ fs w' = fs w.
Proof.
  unfold get_latest_fire_data. run_monad.
  destruct (try_sources_run (strftime_Ymd (clock (ticks w))) sources
              {| fs := fs w; console := console w; ticks := S (ticks w) |})
    as (w' & -> & Hfs & _).
  by exists w'.
Qed.

Lemma first_source_Some (today_str : string) (srcs : list (string * string))
    (df_today : DataFrame) (source_name : string) :
  first_source today_str srcs = Some (df_today, source_name) →
  ∃ source_path, (source_name, source_path) ∈ srcs
    ∧ todays_rows today_str source_path = Some df_today.
Proof.
  induction srcs as [|[n p] rest IH]; cbn; [done|].
  destruct (todays_rows today_str p) as [t|] eqn:Ht.
  - intros [= <- <-]. exists p. split; [left|done].
  - intros Hrest. destruct (IH Hrest) as (p' & Hin & Hp').
    exists p'. split; [by right|done].
Qed.

Lemma first_source_None (today_str : string) (srcs : list (string * string)) :
  (∀ n p, (n, p) ∈ srcs → todays_rows today_str p = None) →
  first_source today_str srcs = None.
Proof.
  induction srcs as [|[n p] rest IH]; intros H; cbn; [done|].
  rewrite (H n p) by left. apply IH. intros n' p' Hin. apply (H n' p').
  by right.
Qed.

Lemma todays_rows_Some (today_str source_path : string) (df_today : DataFrame) :
  todays_rows today_str source_path = Some df_today →
  ∃ df date, download (source_url source_path) = Ok df
    ∧ df_col "acq_date" df = Some date
    ∧ df_today = filter_today today_str date df.
Proof.
  unfold todays_rows.
  destruct (download (source_url source_path)) as [df|]; [|done].
  destruct (df_empty df); [done|].
  destruct (df_col "acq_date" df) as [date|] eqn:Hdate; [|done].
  destruct (df_empty (filter_today today_str date df)); [done|].
  intros [= <-]. by exists df, date.
Qed.

Lemma nothing_today_None (today_str : string) :
  nothing_today today_str →
  ∀ n p, (n, p) ∈ sources → todays_rows today_str p = None.
Proof.
  intros Hnone n p Hin.
  destruct (Hnone n p Hin) as (df & Hdl & Hrect & Hrows).
  unfold todays_rows. rewrite Hdl.
  destruct (df_empty df) eqn:Hempty; [done|].
  destruct Hrows as [|Hrows]; [done|].
  destruct (df_col "acq_date" df) as [date|] eqn:Hdate; [|done].
  assert (df_len (filter_today today_str date df) = 0) as Hlen.
  { rewrite <- length_rows, (rows_filter_today _ _ _ Hrect Hdate).
    clear -Hrows. induction Hrows as [|r rs Hr _ IH]; [done|].
    cbn. by rewrite Hr. }
  unfold df_empty. by rewrite Hlen.
Qed.
End fetcher.

(** ** Paths and the snapshot pattern *)

Lemma append_cons (c : ascii) (a b : string) :
  String c a +:+ b = String c (a +:+ b).
Proof. reflexivity. Qed.

Lemma length_append (a b : string) :
  String.length (a +:+ b) = String.length a + String.length b.
Proof.
  induction a as [|c a IH]; [done|]. rewrite append_cons. cbn. by rewrite IH.
Qed.

Lemma append_assoc (a b c : string) : (a +:+ b) +:+ c = a +:+ (b +:+ c).
Proof.
  induction a as [|x a IH]; [done|]. rewrite !append_cons. by rewrite IH.
Qed.

Lemma prefix_append (a b : string) : String.prefix a (a +:+ b) = true.
Proof.
  induction a as [|c a IH]; [by destruct b|].
  rewrite append_cons. cbn. by destruct (ascii_dec c c).
Qed.

Lemma prefix_length (a b : string) :
  String.prefix a b = true → String.length a ≤ String.length b.
Proof.
  revert a. induction b as [|c b IH]; intros [|x a]; cbn; try done; try lia.
  destruct (ascii_dec x c); [|done]. intros H. apply IH in H. lia.
Qed.

Lemma substring_all (s : string) : String.substring 0 (String.length s) s = s.
Proof. induction s as [|c s IH]; [done|]. cbn. f_equal. exact IH. Qed.

Lemma substring_append (a b : string) :
  String.substring (String.length a)
    (String.length (a +:+ b) - String.length a) (a +:+ b) = b.
Proof.
  rewrite length_append.
  replace (String.length a + String.length b - String.length a)
    with (String.length b) by lia.
  induction a as [|c a IH]; [apply substring_all|].
  rewrite append_cons. cbn. exact IH.
Qed.

Lemma entry_of_join (d name : string) :
  has_slash name = false → name ≠ "" →
  entry_of d (path_join d name) = Some name.
Proof.
  intros Hslash Hne. unfold entry_of, path_join.
  rewrite <- (append_assoc d "/" name).
  rewrite prefix_append, substring_append, Hslash.
  apply String.eqb_neq in Hne. by rewrite Hne.
Qed.

Lemma is_snapshot_path (d : string) : is_snapshot d (snapshot_path d) = true.
Proof.
  unfold is_snapshot, snapshot_path. by rewrite entry_of_join.
Qed.

Lemma is_snapshot_dir (d : string) : is_snapshot d d = false.
Proof.
  unfold is_snapshot, entry_of.
  destruct (String.prefix (d +:+ "/") d) eqn:Hp; [|done].
  apply prefix_length in Hp. rewrite length_append in Hp. cbn in Hp. lia.
Qed.

Lemma snapshot_path_not_dir (d : string) : snapshot_path d ≠ d.
Proof.
  intros Heq. pose proof (is_snapshot_path d) as H.
  by rewrite Heq, is_snapshot_dir in H.
Qed.

Lemma elem_of_snapshot_files (d : string) (files : gmap string node) (p : string) :
  p ∈ snapshot_files d files ↔ is_snapshot d p = true ∧ is_Some (files !! p).
Proof.
  unfold snapshot_files. rewrite list_elem_of_In, filter_In, <- list_elem_of_In.
  rewrite list_elem_of_fmap. split.
  - intros [([k v] & -> & Hin) Hs]. split; [done|].
    apply elem_of_map_to_list in Hin. cbn. by eauto.
  - intros [Hs [v Hv]]. split; [|done]. exists (p, v). split; [done|].
    by apply elem_of_map_to_list.
Qed.

Lemma NoDup_snapshot_files (d : string) (files : gmap string node) :
  NoDup (snapshot_files d files).
Proof.
  unfold snapshot_files.
  apply NoDup_ListNoDup, List.NoDup_filter, NoDup_ListNoDup.
  apply NoDup_fst_map_to_list.
Qed.

Lemma NoDup_only {A} (l : list A) (a : A) :
  NoDup l → (∀ x, x ∈ l ↔ x = a) → l = [a].
Proof.
  intros Hnd Hl. destruct l as [|x l].
  - assert (a ∈ []) as Hin by (by apply Hl). by apply elem_of_nil in Hin.
  - assert (x = a) as -> by (apply Hl; left).
    destruct l as [|y l]; [done|].
    assert (y = a) as -> by (apply Hl; right; left).
    apply NoDup_cons in Hnd as [Hnot _]. exfalso. apply Hnot. left.
Qed.

(** ** Running the file operations *)

Lemma os_makedirs_Ok (d : string) (w w' : World) (u : unit) :
  os_makedirs d w = (Ok u, w') →
  (∀ c, fs w !! d ≠ Some (File c))
  ∧ fs w' !! d = Some Dir
  ∧ ∀ k, k ≠ d → fs w' !! k = fs w !! k.
Proof.
  unfold os_makedirs. destruct (fs w !! d) as [[c|]|] eqn:Hd; [done| |].
  - intros [= <- <-]. by rewrite Hd.
  - intros [= <- <-]. cbn. split; [done|]. split.
    + apply lookup_insert_eq.
    + intros k Hk. by apply lookup_insert_ne.
Qed.

Lemma os_makedirs_run (d : string) (w : World) :
  (∀ c, fs w !! d ≠ Some (File c)) → ∃ w', os_makedirs d w = (Ok (), w').
Proof.
  intros Hd. unfold os_makedirs.
  destruct (fs w !! d) as [[c|]|] eqn:Heq; eauto. by destruct (Hd c).
Qed.

Lemma remove_all_Ok (l : list string) (w w' : World) (u : unit) :
  for_each l os_remove w = (Ok u, w') →
  ∀ k, fs w' !! k = if bool_decide (k ∈ l) then None else fs w !! k.
Proof.
  revert w. induction l as [|p l IH]; intros w; cbn.
  - intros [= <- <-] k. done.
  - rewrite bind_run. unfold os_remove at 1.
    destruct (fs w !! p) as [[c|]|] eqn:Hp; [|done|done].
    intros Hrest k. rewrite (IH _ Hrest k). cbn.
    destruct (decide (k = p)) as [->|Hne].
    + rewrite lookup_delete_eq.
      rewrite (bool_decide_eq_true_2 (p ∈ p :: l)) by left.
      by destruct (bool_decide (p ∈ l)).
    + rewrite lookup_delete_ne by done.
      destruct (decide (k ∈ l)) as [Hin|Hin].
      * rewrite (bool_decide_eq_true_2 (k ∈ l)) by done.
        by rewrite (bool_decide_eq_true_2 (k ∈ p :: l)) by (by right).
      * rewrite (bool_decide_eq_false_2 (k ∈ l)) by done.
        rewrite (bool_decide_eq_false_2 (k ∈ p :: l)); [done|].
        intros Hin'. apply elem_of_cons in Hin' as [?|?]; done.
Qed.

Lemma remove_all_run (l : list string) (w : World) :
  NoDup l → (∀ p, p ∈ l → ∃ c, fs w !! p = Some (File c)) →
  ∃ w', for_each l os_remove w = (Ok (), w').
Proof.
  revert w. induction l as [|p l IH]; intros w Hnd Hfiles; cbn.
  - by eexists.
  - apply NoDup_cons in Hnd as [Hp Hnd].
    rewrite bind_run. unfold os_remove at 1.
    destruct (Hfiles p) as [c ->]; [left|].
    apply IH; [done|]. intros q Hq. cbn.
    rewrite lookup_delete_ne by (intros ->; done).
    apply Hfiles. by right.
Qed.

Lemma to_csv_Ok (df : DataFrame) (path : string) (w w' : World) (u : unit) :
  to_csv df path w = (Ok u, w') →
  fs w' = <[path := File (csv_of df)]> (fs w).
Proof.
  unfold to_csv. destruct (fs w !! path) as [[c|]|]; [|done|];
    by intros [= <- <-].
Qed.

Lemma to_csv_run (df : DataFrame) (path : string) (w : World) :
  fs w !! path ≠ Some Dir → ∃ w', to_csv df path w = (Ok (), w').
Proof.
  intros Hp. unfold to_csv. destruct (fs w !! path) as [[c|]|]; by eauto.
Qed.

(** ** Running the writer *)

Section writer.
Context `{O : Oracles}.

(** The sorting step touches the console only. *)
Lemma sort_step_run (df : DataFrame) (w : World) :
  ∃ w',
    (if in_columns "frp" df then
       df_sorted ← lift (sort_values "frp" false df);
       print [Lit "Sorted "; Num (df_len df_sorted);
              Lit " fires by size (largest first)"];;
       ret df_sorted
     else
       print [Lit "No FRP column found - keeping original order"];;
       ret df) w
    = (Ok (sorted_frame df), w')
    ∧ fs w' = fs w.
Proof.
  unfold sorted_frame, sort_values.
  destruct (in_columns "frp" df) eqn:Hcol.
  - apply in_columns_df_col in Hcol as [c ->]. by eexists.
  - apply in_columns_false in Hcol. rewrite Hcol. by eexists.
Qed.

(** What a run of the writer that returns leaves behind. *)
Lemma save_fire_data_Ok (df : DataFrame) (source_name d : string)
    (w w' : World) (r : list (string * string)) :
  save_fire_data df source_name d w = (Ok r, w') →
  r = [("csv", snapshot_path d)]
  ∧ (∀ c, fs w !! d ≠ Some (File c))
  ∧ fs w' !! snapshot_path d = Some (File (csv_of (sorted_frame df)))
  ∧ fs w' !! d = Some Dir
  ∧ ∀ k, k ≠ snapshot_path d → k ≠ d →
      fs w' !! k = if is_snapshot d k then None else fs w !! k.
Proof.
  unfold save_fire_data. rewrite bind_run.
  destruct (os_makedirs d w) as [[[]|e] w1] eqn:Hmk; [|done].
  apply os_makedirs_Ok in Hmk as (Hd & Hdir & Hframe1).
  rewrite bind_run. unfold glob_snapshots at 1.
  rewrite bind_run.
  destruct (for_each _ os_remove w1) as [[[]|e] w2] eqn:Hrm; [|done].
  pose proof (remove_all_Ok _ _ _ _ Hrm) as Hframe2. clear Hrm.
  rewrite bind_run.
  destruct (sort_step_run df w2) as (w3 & -> & Hfs3).
  rewrite bind_run.
  destruct (to_csv _ _ w3) as [[[]|e] w4] eqn:Hcsv; [|done].
  apply to_csv_Ok in Hcsv. fold (snapshot_path d) in *.
  intros [= <- <-]. cbn [fs]. rewrite Hcsv, Hfs3.
  split; [done|]. split; [done|]. split; [apply lookup_insert_eq|].
  assert (∀ k, k ≠ snapshot_path d →
            fs w2 !! k
            = if is_snapshot d k then None else fs w1 !! k) as Hk.
  { intros k _. rewrite Hframe2.
    destruct (is_snapshot d k) eqn:Hs.
    - destruct (fs w1 !! k) eqn:Hk1.
      + rewrite bool_decide_eq_true_2; [done|].
        apply elem_of_snapshot_files. by eauto.
      + by destruct (bool_decide _).
    - rewrite bool_decide_eq_false_2; [done|].
      rewrite elem_of_snapshot_files. intros [? _]. congruence. }
  split.
  - rewrite lookup_insert_ne by apply snapshot_path_not_dir.
    rewrite Hk by (by intros ?; eapply snapshot_path_not_dir).
    by rewrite is_snapshot_dir.
  - intros k Hk1 Hk2. rewrite lookup_insert_ne by done.
    rewrite Hk by done. by rewrite Hframe1.
Qed.

(** When it returns. *)
Lemma save_fire_data_run (df : DataFrame) (source_name d : string) (w : World) :
  writable d (fs w) →
  ∃ w', save_fire_data df source_name d w = (Ok [("csv", snapshot_path d)], w').
Proof.
  intros [Hd Hsnap]. unfold save_fire_data. rewrite bind_run.
  destruct (os_makedirs_run d w Hd) as [w1 Hmk]. rewrite Hmk.
  apply os_makedirs_Ok in Hmk as (_ & Hdir & Hframe1).
  rewrite bind_run. unfold glob_snapshots at 1. rewrite bind_run.
  destruct (remove_all_run (snapshot_files d (fs w1)) w1) as [w2 Hrm].
  { apply NoDup_snapshot_files. }
  { intros p Hp. apply elem_of_snapshot_files in Hp as [Hs [v Hv]].
    assert (p ≠ d) as Hne by (intros ->; by rewrite is_snapshot_dir in Hs).
    rewrite Hframe1 in Hv by done. rewrite Hframe1 by done.
    destruct v as [c|]; [by eauto|]. by destruct (Hsnap p Hs). }
  rewrite Hrm.
  pose proof (remove_all_Ok _ _ _ _ Hrm) as Hframe2.
  rewrite bind_run.
  destruct (sort_step_run df w2) as (w3 & -> & Hfs3).
  rewrite bind_run. fold (snapshot_path d).
  destruct (to_csv_run (sorted_frame df) (snapshot_path d) w3) as [w4 ->].
  { rewrite Hfs3, Hframe2.
    destruct (bool_decide _); [done|].
    rewrite Hframe1 by apply snapshot_path_not_dir.
    apply Hsnap, is_snapshot_path. }
  by eexists.
Qed.

(** After a run that returns, the directory holds one snapshot. *)
Lemma save_fire_data_one_snapshot (df : DataFrame) (source_name d : string)
    (w w' : World) (r : list (string * string)) :
  save_fire_data df source_name d w = (Ok r, w') →
  snapshot_files d (fs w') = [snapshot_path d] ∧ writable d (fs w').
Proof.
  intros Hrun.
  apply save_fire_data_Ok in Hrun as (_ & _ & Hcsv & Hdir & Hframe).
  assert (∀ p, is_snapshot d p = true → p ≠ snapshot_path d →
            fs w' !! p = None) as Hgone.
  { intros p Hs Hne. rewrite Hframe, Hs; [done..|].
    intros ->. by rewrite is_snapshot_dir in Hs. }
  split.
  - apply NoDup_only; [apply NoDup_snapshot_files|].
    intros p. rewrite elem_of_snapshot_files. split.
    + intros [Hs [v Hv]].
      destruct (decide (p = snapshot_path d)) as [|Hne]; [done|].
      by rewrite (Hgone p Hs Hne) in Hv.
    + intros ->. split; [apply is_snapshot_path|]. by rewrite Hcsv.
  - split.
    + intros c. by rewrite Hdir.
    + intros p Hs.
      destruct (decide (p = snapshot_path d)) as [->|Hne].
      * by rewrite Hcsv.
      * by rewrite (Hgone p Hs Hne).
Qed.
End writer.

(** ** The order the writer writes in *)

Arguments nargsort : simpl never.
Arguments column_nargsort : simpl never.

Section sorted_frame.
Context `{O : Oracles} (Hsort : argsort_sorts O).

Lemma column_nargsort_Permutation (c : column) :
  column_nargsort c false ≡ₚ seq 0 (col_len c).
Proof.
  destruct c as [vs|vs|vs]; unfold col_len, column_nargsort, cells;
    rewrite length_fmap; apply (nargsort_Permutation Hsort).
Qed.

Lemma column_nargsort_descending (c : column) :
  column_descending (col_take (column_nargsort c false) c).
Proof.
  destruct c as [vs|vs|vs]; unfold column_descending, col_take, column_nargsort;
    apply (nargsort_descending Hsort).
Qed.

Lemma column_nargsort_bound (df : DataFrame) (name : string) (c : column) :
  rectangular df = true → df_col name df = Some c →
  Forall (λ p, p < df_len df) (column_nargsort c false).
Proof.
  intros Hrect Hc. apply perm_seq_bound.
  rewrite column_nargsort_Permutation. unfold col_len.
  by rewrite (df_col_length _ _ _ Hrect Hc).
Qed.

Lemma columns_df_take (pos : list nat) (df : DataFrame) :
  columns (df_take pos df) = columns df.
Proof.
  unfold columns, df_take. cbn. rewrite <- list_fmap_compose.
  by apply list_fmap_ext.
Qed.

Lemma columns_sorted_frame (df : DataFrame) :
  columns (sorted_frame df) = columns df.
Proof.
  unfold sorted_frame. destruct (df_col "frp" df); [|done].
  apply columns_df_take.
Qed.

(** The writer writes the rows of the input in some order. *)
Lemma rows_sorted_frame (df : DataFrame) :
  rectangular df = true → rows (sorted_frame df) ≡ₚ rows df.
Proof.
  intros Hrect. unfold sorted_frame.
  destruct (df_col "frp" df) as [c|] eqn:Hc; [|done].
  rewrite rows_df_take by eauto using column_nargsort_bound.
  apply gather_perm_seq. rewrite length_rows, column_nargsort_Permutation.
  unfold col_len. by rewrite (df_col_length _ _ _ Hrect Hc).
Qed.
End sorted_frame.

Lemma descending_na_last_present {A} `{DType A} (l : list A) :
  Forall (λ k, isna k = false) l → descending_na_last l → descending l.
Proof.
  intros Hl (l1 & l2 & -> & _ & Hna & Hd).
  destruct l2 as [|x l2]; [by rewrite app_nil_r|].
  apply Forall_app in Hl as [_ Hl].
  apply Forall_cons in Hl as [Hx _]. apply Forall_cons in Hna as [Hx' _].
  congruence.
Qed.

Lemma descendingb_complete {A} `{DType A} (l : list A) :
  descending l → descendingb l = true.
Proof.
  intros Hl. induction Hl as [|x l _ IH Hx]; [done|].
  cbn. rewrite IH, andb_true_r. apply forallb_forall.
  intros y Hy. apply list_elem_of_In in Hy.
  rewrite Forall_forall in Hx. by rewrite (Hx y Hy).
Qed.

(** ** Running the loader *)

Section loader.
Context `{O : Oracles}.

Lemma process_fire_data_with_earthkit_run (df : DataFrame)
    (source_name : string) (w : World) :
  let tmp_path := mkstemp (fs w) in
  ∃ w',
    process_fire_data_with_earthkit df source_name w
    = (match ek_from_source tmp_path (Some (File (csv_of df))) with
       | Ok data => Ok (data, df)
       | Raise e => Raise e
       end, w')
    ∧ fs w' = delete tmp_path (fs w).
Proof.
  intros tmp_path. unfold process_fire_data_with_earthkit.
  unfold named_temporary_file, to_csv, load_with_earthkit, os_unlink,
    os_remove, set_fs.
  run_monad. fold tmp_path.
  rewrite !lookup_insert_eq. cbn [fs console ticks].
  rewrite !lookup_insert_eq.
  destruct (ek_from_source tmp_path (Some (File (csv_of df)))) as [data|e];
    cbn [fs console ticks]; rewrite !lookup_insert_eq;
    eexists; (split; [reflexivity|]); cbn [fs];
    by rewrite !delete_insert_eq.
Qed.
End loader.

(** ** Selecting the first rows of a sorted frame *)

Lemma gather_seq_take {A} (l : list A) (m : nat) :
  m ≤ length l → gather l (seq 0 m) = take m l.
Proof.
  intros Hm. apply list_eq. intros i. rewrite gather_lookup.
  - destruct (decide (i < m)) as [Hi|Hi].
    + rewrite lookup_seq_lt, lookup_take_lt by done. done.
    + rewrite lookup_seq_ge, lookup_take_ge by lia. done.
  - apply Forall_forall. intros p Hp. apply elem_of_seq in Hp. lia.
Qed.


Lemma col_take_col_take (p1 p2 : list nat) (c : column) :
  Forall (λ i, i < col_len c) p1 →
  col_take p2 (col_take p1 c) = col_take (gather p1 p2) c.
Proof.
  unfold col_len. destruct c as [vs|vs|vs]; cbn; rewrite length_fmap;
    intros Hp; by rewrite gather_gather.
Qed.

Lemma df_take_df_take (p1 p2 : list nat) (df : DataFrame) :
  rectangular df = true → Forall (λ i, i < df_len df) p1 →
  df_take p2 (df_take p1 df) = df_take (gather p1 p2) df.
Proof.
  intros Hrect Hp. unfold df_take. cbn. f_equal.
  - by rewrite gather_gather.
  - rewrite <- list_fmap_compose. apply list_fmap_ext. intros i nc Hnc. cbn.
    f_equal. apply col_take_col_take.
    apply list_elem_of_lookup_2 in Hnc.
    unfold col_len. by rewrite (rectangular_col df nc Hrect Hnc).
Qed.

Lemma df_head_df_take (k : nat) (pos : list nat) (df : DataFrame) :
  rectangular df = true → Forall (λ i, i < df_len df) pos →
  df_head k (df_take pos df) = df_take (take k pos) df.
Proof.
  intros Hrect Hpos. unfold df_head. rewrite df_take_df_take by done.
  f_equal. rewrite length_rows_df_take, length_gather by done.
  rewrite gather_seq_take by lia.
  destruct (decide (k ≤ length pos)).
  - by rewrite Nat.min_l.
  - rewrite Nat.min_r by lia. by rewrite !take_ge by lia.
Qed.

Lemma StronglySorted_lookup {A} (R : relation A) (l : list A) (i j : nat) (a b : A) :
  StronglySorted R l → i < j → l !! i = Some a → l !! j = Some b → R a b.
Proof.
  intros Hl. revert i j. induction Hl as [|x l _ IH Hx]; intros i j Hij; [done|].
  destruct j as [|j]; [lia|]. destruct i as [|i]; cbn.
  - intros [= <-] Hb. rewrite Forall_forall in Hx. apply Hx.
    by eapply list_elem_of_lookup_2.
  - apply IH. lia.
Qed.

(** Along a descending order an earlier row ranks above a later one. *)
Lemma descending_ranks {A} `{DType A} (keys : list A) (pos : list nat)
    (i j p q : nat) (ka kb : A) :
  Forall (λ p, p < length keys) pos →
  descending_na_last (gather keys pos) →
  i < j → pos !! i = Some p → pos !! j = Some q →
  keys !! p = Some ka → keys !! q = Some kb →
  ranks_above ka kb.
Proof.
  intros Hpos (l1 & l2 & Heq & Hl1 & Hl2 & Hdesc) Hij Hi Hj Hp Hq.
  assert (gather keys pos !! i = Some ka) as Hka
    by (by rewrite gather_lookup, Hi).
  assert (gather keys pos !! j = Some kb) as Hkb
    by (by rewrite gather_lookup, Hj).
  rewrite Heq in Hka, Hkb. unfold ranks_above.
  destruct (isna kb) eqn:Hna; [by left|right].
  assert (j < length l1) as Hjl.
  { destruct (decide (j < length l1)) as [|Hge]; [done|].
    rewrite lookup_app_r in Hkb by lia.
    rewrite Forall_forall in Hl2.
    rewrite (Hl2 kb) in Hna; [done|]. by eapply list_elem_of_lookup_2. }
  rewrite lookup_app_l in Hka, Hkb by lia. split.
  - rewrite Forall_forall in Hl1. apply Hl1. by eapply list_elem_of_lookup_2.
  - exact (StronglySorted_lookup _ l1 i j ka kb Hdesc Hij Hka Hkb).
Qed.

(** ** The rows the analyzer lists *)

Lemma fire_line_numeric (fire : record) :
  numeric_field "latitude" fire = true →
  numeric_field "longitude" fire = true →
  ∃ l, fire_line fire = Ok l.
Proof.
  unfold numeric_field, fire_line, get_or_na.
  destruct (record_get "latitude" fire) as [[]|];
    destruct (record_get "longitude" fire) as [[]|]; cbn; try done; by eauto.
Qed.

Lemma print_fires_run (rs : list (nat * record)) (lines : list line) (w : World) :
  Forall2 (λ row l, fire_line row.2 = Ok l) rs lines →
  for_each rs (λ row, print_fire row.2) w
  = (Ok (), {| fs := fs w; console := console w ++ lines; ticks := ticks w |}).
Proof.
  intros Hlines. revert w. induction Hlines as [|row l rs lines Hl _ IH];
    intros w; cbn.
  - rewrite app_nil_r. by destruct w.
  - rewrite bind_run. unfold print_fire at 1. rewrite bind_run.
    unfold lift at 1. rewrite Hl. unfold print at 1. rewrite IH. cbn.
    by rewrite <- app_assoc.
Qed.

Lemma fire_lines_exist (rs : list (nat * record)) :
  (∀ row, row ∈ rs →
     numeric_field "latitude" row.2 = true
     ∧ numeric_field "longitude" row.2 = true) →
  ∃ lines, Forall2 (λ row l, fire_line row.2 = Ok l) rs lines.
Proof.
  induction rs as [|row rs IH]; intros Hrs; [by exists []|].
  destruct (Hrs row) as [Hlat Hlon]; [left|].
  destruct (fire_line_numeric _ Hlat Hlon) as [l Hl].
  destruct IH as [lines Hlines]; [intros r Hr; apply Hrs; by right|].
  exists (l :: lines). by constructor.
Qed.

Lemma elem_of_rows (df : DataFrame) (row : nat * record) :
  row ∈ rows df → ∃ i, i < df_len df ∧ row.2 = row_at df i.
Proof.
  intros Hin. apply list_elem_of_lookup in Hin as [i Hi].
  unfold rows in Hi. rewrite list_lookup_imap in Hi.
  destruct (index df !! i) as [lbl|] eqn:Hlbl; [|done].
  injection Hi as <-. exists i. split; [|done]. by eapply lookup_lt_Some.
Qed.

Lemma cells_numeric (c : column) (v : scalar) :
  is_object c = false → v ∈ cells c → is_numeric v = true.
Proof.
  destruct c as [vs|vs|vs]; [| |done]; intros _ Hv;
    apply list_elem_of_fmap in Hv as (x & -> & _); done.
Qed.

Lemma rows_numeric (df : DataFrame) (name : string) (c : column)
    (row : nat * record) :
  rectangular df = true → df_col name df = Some c → is_object c = false →
  row ∈ rows df → numeric_field name row.2 = true.
Proof.
  intros Hrect Hc Hobj Hrow. apply elem_of_rows in Hrow as (i & Hi & ->).
  unfold numeric_field. rewrite (record_get_row_at _ _ _ _ Hrect Hi Hc).
  destruct (cells c !! i) as [v|] eqn:Hv.
  - eapply cells_numeric; [done|]. by eapply list_elem_of_lookup_2.
  - apply lookup_ge_None in Hv. rewrite (df_col_length _ _ _ Hrect Hc) in Hv.
    lia.
Qed.

Lemma record_get_upcast (name : string) (r : record) :
  record_get name (prod_map id upcast <$> r) = upcast <$> record_get name r.
Proof.
  unfold record_get. induction r as [|[n v] r IH]; [done|].
  cbn. destruct (String.eqb name n); [done|]. exact IH.
Qed.

(** A row that [iterrows] yields is a row of the frame, as it is or with
    its integers turned into floats. *)
Lemma elem_of_iterrows (df : DataFrame) (row : nat * record) :
  row ∈ iterrows df →
  ∃ row0, row0 ∈ rows df
    ∧ (row.2 = row0.2 ∨ row.2 = prod_map id upcast <$> row0.2).
Proof.
  unfold iterrows. destruct (existsb is_object _); [by eauto|].
  destruct (existsb is_float _); [|by eauto].
  intros Hin. apply list_elem_of_fmap in Hin as (row0 & -> & Hin0).
  by eauto.
Qed.

Lemma iterrows_numeric (df : DataFrame) (name : string) (c : column)
    (row : nat * record) :
  rectangular df = true → df_col name df = Some c → is_object c = false →
  row ∈ iterrows df → numeric_field name row.2 = true.
Proof.
  intros Hrect Hc Hobj Hrow.
  apply elem_of_iterrows in Hrow as (row0 & Hrow0 & Hcells).
  pose proof (rows_numeric _ _ _ _ Hrect Hc Hobj Hrow0) as Hnum.
  destruct Hcells as [->| ->]; [done|].
  unfold numeric_field in *. rewrite record_get_upcast.
  by destruct (record_get name row0.2) as [[]|].
Qed.

Lemma iterrows_missing_field (df : DataFrame) (name : string)
    (row : nat * record) :
  df_col name df = None → row ∈ iterrows df → get_or_na name row.2 = SStr "N/A".
Proof.
  intros Hc Hrow.
  apply elem_of_iterrows in Hrow as (row0 & Hrow0 & Hcells).
  apply elem_of_rows in Hrow0 as (i & _ & Hrow0).
  pose proof (record_get_row_at_None name df i Hc) as Hnone.
  rewrite <- Hrow0 in Hnone. unfold get_or_na.
  destruct Hcells as [->| ->]; [by rewrite Hnone|].
  by rewrite record_get_upcast, Hnone.
Qed.

Lemma rectangular_df_take (pos : list nat) (df : DataFrame) :
  rectangular df = true → Forall (λ p, p < df_len df) pos →
  rectangular (df_take pos df) = true.
Proof.
  intros Hrect Hpos. unfold rectangular. apply forallb_forall.
  intros nc Hnc. apply Nat.eqb_eq.
  apply list_elem_of_In in Hnc. cbn in Hnc.
  apply list_elem_of_fmap in Hnc as (nc0 & -> & Hnc0). cbn.
  unfold col_len. rewrite cells_col_take.
  rewrite !length_gather; [done|done|].
  by rewrite (rectangular_col df nc0 Hrect Hnc0).
Qed.

Lemma df_col_df_take (pos : list nat) (name : string) (df : DataFrame) :
  df_col name (df_take pos df) = col_take pos <$> df_col name df.
Proof.
  unfold df_col. cbn. induction (series df) as [|[n c] l IH]; [done|].
  cbn. destruct (String.eqb name n); [done|]. exact IH.
Qed.

Lemma is_object_col_take (pos : list nat) (c : column) :
  is_object (col_take pos c) = is_object c.
Proof. by destruct c. Qed.

(** * The claims *)

(** ** Fetcher *)

(** C1. The filtering step of the fetcher keeps exactly the rows whose
    [acq_date] field is the string of today's date in the form
    YYYY-MM-DD, under their labels and in the order of the response. *)
Theorem filter_keeps_todays_rows (today : datetime) (df : DataFrame)
    (date : column) :
  rectangular df = true →
  df_col "acq_date" df = Some date →
  rows (filter_today (strftime_Ymd today) date df)
  = List.filter (is_today (strftime_Ymd today)) (rows df)
  ∧ String.length (strftime_Ymd today) = 10.
Proof.
  intros Hrect Hdate. split; [by apply rows_filter_today|].
  apply length_strftime_Ymd.
Qed.

Lemma filter_keeps_todays_rows_witness :
  rectangular three_days = true
  ∧ df_col "acq_date" three_days
    = Some (Object [Some "2024-01-14"; Some "2024-01-15";
                    Some "2024-01-16"; Some "2024-01-15"])
  ∧ fst <$> rows (filter_today "2024-01-15"
                    (Object [Some "2024-01-14"; Some "2024-01-15";
                             Some "2024-01-16"; Some "2024-01-15"])
                    three_days) = [1; 3]
  ∧ (rows (filter_today (strftime_Ymd (sample_clock 0))
             (Object [Some "2024-01-14"; Some "2024-01-15";
                      Some "2024-01-16"; Some "2024-01-15"]) three_days)
     = List.filter (is_today (strftime_Ymd (sample_clock 0))) (rows three_days)
     ∧ String.length (strftime_Ymd (sample_clock 0)) = 10).
Proof.
  split; [reflexivity|]. split; [reflexivity|]. split; [reflexivity|].
  apply (filter_keeps_todays_rows (sample_clock 0) three_days); reflexivity.
Defined.

(** What the fetcher returns is the filtered response of the first source
    that has rows of today. *)
Lemma get_latest_fire_data_returns `{O : Oracles} (w w' : World)
    (df_today : DataFrame) (source_name : string) :
  (∀ url df, download url = Ok df → rectangular df = true) →
  get_latest_fire_data w = (Ok (df_today, source_name), w') →
  ∃ source_path df,
    (source_name, source_path) ∈ sources
    ∧ download (source_url source_path) = Ok df
    ∧ rows df_today
      = List.filter (is_today (strftime_Ymd (clock (ticks w)))) (rows df).
Proof.
  intros Hrect Hrun.
  destruct (get_latest_fire_data_run w) as (w1 & Hrun1 & _).
  rewrite Hrun1 in Hrun.
  destruct (first_source _ sources) as [found|] eqn:Hfirst; [|done].
  injection Hrun as -> _.
  apply first_source_Some in Hfirst as (path & Hin & Htoday).
  apply todays_rows_Some in Htoday as (df & date & Hdl & Hdate & ->).
  exists path, df. split; [done|]. split; [done|].
  apply rows_filter_today; [|done]. by eapply Hrect.
Qed.

(** C3. When every configured source answers with an empty table or with
    no row of today (the date the fetcher reads, on the second call of
    [datetime.now()] in the run), the fetcher raises its "all sources"
    error, [main] catches it, logs it and returns [(None, None, None)],
    and the file system is as it was: no file is created or
    overwritten. *)
Theorem main_returns_none_when_nothing_today `{O : Oracles} (w : World) :
  nothing_today (strftime_Ymd (clock (S (ticks w)))) →
  ∃ w',
    main w = (Ok (None, None, None), w')
    ∧ fs w' = fs w
    ∧ last (console w')
      = Some [Lit "Error: ";
              Exn (Exception "Failed to download fire data from all sources")].
Proof.
  intros Hnone. unfold main. rewrite !bind_run. unfold print at 1. cbn.
  unfold datetime_now at 1. cbn. rewrite !bind_run. unfold print at 1. cbn.
  unfold try_except. rewrite bind_run.
  match goal with |- context [get_latest_fire_data ?w0] =>
    destruct (get_latest_fire_data_run w0) as (w1 & -> & Hfs)
  end.
  cbn [ticks] in *.
  rewrite (first_source_None _ _ (nothing_today_None _ Hnone)).
  rewrite bind_run. unfold print at 1. cbn.
  eexists. split; [reflexivity|]. cbn. split; [done|]. apply last_snoc.
Qed.

Lemma main_returns_none_when_nothing_today_witness :
  ∃ w',
    @main (sample_oracles insertion_argsort (λ _, Ok no_rows)) empty_world
    = (Ok (None, None, None), w')
    ∧ fs w' = fs empty_world
    ∧ last (console w')
      = Some [Lit "Error: ";
              Exn (Exception "Failed to download fire data from all sources")].
Proof.
  apply (@main_returns_none_when_nothing_today
           (sample_oracles insertion_argsort (λ _, Ok no_rows)) empty_world).
  intros source_name source_path _. exists no_rows.
  split; [reflexivity|]. split; [reflexivity|]. left. reflexivity.
Defined.

(** C7, as the code has it.  Distinct source names get distinct URLs: the
    source path is part of the URL.  What the URLs share is the base and
    the file name, which is the MODIS one for every source. *)
Theorem source_urls_differ (name1 path1 name2 path2 : string) :
  (name1, path1) ∈ sources → (name2, path2) ∈ sources →
  name1 ≠ name2 →
  source_url path1 ≠ source_url path2
  ∧ String.prefix base_url (source_url path1) = true
  ∧ String.prefix base_url (source_url path2) = true
  ∧ ends_with feed_file (source_url path1) = true
  ∧ ends_with feed_file (source_url path2) = true.
Proof.
  unfold sources. rewrite !elem_of_cons, !elem_of_nil.
  intros [[= -> ->]|[[= -> ->]|[[= -> ->]|[]]]]
         [[= -> ->]|[[= -> ->]|[[= -> ->]|[]]]] Hne;
    try done; (split; [by vm_compute|by vm_compute]).
Qed.

Lemma source_urls_differ_witness :
  ("modis", "modis-c6.1") ∈ sources
  ∧ ("viirs", "viirs-snpp") ∈ sources
  ∧ "modis" ≠ "viirs"
  ∧ source_url "modis-c6.1" ≠ source_url "viirs-snpp".
Proof.
  assert (("modis", "modis-c6.1") ∈ sources) as H1 by (unfold sources; left).
  assert (("viirs", "viirs-snpp") ∈ sources) as H2
    by (unfold sources; right; left).
  assert ("modis" ≠ "viirs") as H3 by done.
  split; [exact H1|]. split; [exact H2|]. split; [exact H3|].
  exact (proj1 (source_urls_differ _ _ _ _ H1 H2 H3)).
Defined.

(** C7, as the spec has it, fails: the URL of the first source is not the
    URL of the second. *)
Lemma one_url_for_all_sources_fails : ¬ one_url_for_all_sources.
Proof.
  intros Hone.
  assert (source_url "modis-c6.1" = source_url "viirs-snpp") as Heq.
  { apply (Hone "modis" "modis-c6.1" "viirs" "viirs-snpp");
      [unfold sources; left|unfold sources; right; left|done]. }
  by vm_compute in Heq.
Qed.

(** ** Loader *)

(** C4. After the loader step the temporary file is gone, whether the
    external loader returned or raised; when it raised, its exception is
    the outcome of the step, and when it returned, the step returns its
    handle and the table as it was. *)
Theorem temporary_file_is_removed `{O : Oracles} (df : DataFrame)
    (source_name : string) (w : World) :
  fs (process_fire_data_with_earthkit df source_name w).2 !! mkstemp (fs w)
  = None
  ∧ (process_fire_data_with_earthkit df source_name w).1
    = match ek_from_source (mkstemp (fs w)) (Some (File (csv_of df))) with
      | Ok data => Ok (data, df)
      | Raise e => Raise e
      end.
Proof.
  destruct (process_fire_data_with_earthkit_run df source_name w)
    as (w' & -> & Hfs).
  cbn. rewrite Hfs. split; [apply lookup_delete_eq|done].
Qed.

(** The loader step leaves the other files alone. *)
Lemma process_fire_data_with_earthkit_frame `{O : Oracles} (df : DataFrame)
    (source_name : string) (w : World) :
  fs w !! mkstemp (fs w) = None →
  fs (process_fire_data_with_earthkit df source_name w).2 = fs w.
Proof.
  intros Hfresh.
  destruct (process_fire_data_with_earthkit_run df source_name w)
    as (w' & -> & Hfs).
  cbn. rewrite Hfs. by apply delete_id.
Qed.

(** ** Writer *)

Lemma writable_empty (d : string) : writable d (fs empty_world).
Proof. split; intros ?; cbn; by rewrite lookup_empty. Qed.

(** C8. After a run of the writer that returns, the output directory holds
    exactly one entry that matches the snapshot pattern, the file it has
    just written; a second run on any table then returns as well and
    again leaves exactly that one file. *)
Theorem writer_leaves_one_snapshot `{O : Oracles} (df1 df2 : DataFrame)
    (source1 source2 d : string) (w w1 : World) (r1 : list (string * string)) :
  plain_dir d = true →
  save_fire_data df1 source1 d w = (Ok r1, w1) →
  snapshot_files d (fs w1) = [snapshot_path d]
  ∧ fs w1 !! snapshot_path d = Some (File (csv_of (sorted_frame df1)))
  ∧ ∃ w2,
      save_fire_data df2 source2 d w1 = (Ok [("csv", snapshot_path d)], w2)
      ∧ snapshot_files d (fs w2) = [snapshot_path d]
      ∧ fs w2 !! snapshot_path d = Some (File (csv_of (sorted_frame df2))).
Proof.
  intros _ Hrun1.
  pose proof (save_fire_data_Ok _ _ _ _ _ _ Hrun1) as (_ & _ & Hfile1 & _).
  apply save_fire_data_one_snapshot in Hrun1 as [Hone Hwritable].
  split; [done|]. split; [done|].
  destruct (save_fire_data_run df2 source2 d w1 Hwritable) as [w2 Hrun2].
  exists w2. split; [done|].
  pose proof (save_fire_data_Ok _ _ _ _ _ _ Hrun2) as (_ & _ & Hfile2 & _).
  by apply save_fire_data_one_snapshot in Hrun2 as [? _].
Qed.

Lemma writer_leaves_one_snapshot_witness :
  let O := sample_oracles insertion_argsort no_network in
  let first := @save_fire_data O tied_fires "modis" "fire_data" empty_world in
  plain_dir "fire_data" = true
  ∧ first = (Ok [("csv", "fire_data/fire_snapshot.csv")], first.2)
  ∧ snapshot_files "fire_data" (fs first.2) = ["fire_data/fire_snapshot.csv"]
  ∧ ∃ w2,
      @save_fire_data O frp_example "viirs" "fire_data" first.2
      = (Ok [("csv", "fire_data/fire_snapshot.csv")], w2)
      ∧ snapshot_files "fire_data" (fs w2) = ["fire_data/fire_snapshot.csv"].
Proof.
  intros O first.
  assert (plain_dir "fire_data" = true) as Hplain by reflexivity.
  assert (first = (Ok [("csv", "fire_data/fire_snapshot.csv")], first.2))
    as Hfirst by (by vm_compute).
  split; [exact Hplain|]. split; [exact Hfirst|].
  destruct (@writer_leaves_one_snapshot O tied_fires frp_example "modis"
              "viirs" "fire_data" empty_world first.2 _ Hplain Hfirst)
    as (Hone & _ & w2 & Hrun2 & Htwo & _).
  split; [exact Hone|]. exists w2. split; [exact Hrun2|exact Htwo].
Defined.

(** C9. Without an [frp] column the writer writes the table as it is: the
    column names and the rows of the input, in the input order. *)
Theorem writer_keeps_order_without_frp `{O : Oracles} (df : DataFrame)
    (source_name d : string) (w : World) :
  in_columns "frp" df = false →
  plain_dir d = true →
  writable d (fs w) →
  ∃ w',
    save_fire_data df source_name d w = (Ok [("csv", snapshot_path d)], w')
    ∧ fs w' !! snapshot_path d
      = Some (File (Table (columns df) (body_of (rows df)))).
Proof.
  intros Hcol _ Hwritable.
  destruct (save_fire_data_run df source_name d w Hwritable) as [w' Hrun].
  exists w'. split; [done|].
  apply save_fire_data_Ok in Hrun as (_ & _ & -> & _).
  apply in_columns_false in Hcol. unfold sorted_frame. by rewrite Hcol.
Qed.

Lemma writer_keeps_order_without_frp_witness :
  in_columns "frp" three_days = false
  ∧ plain_dir "fire_data" = true
  ∧ writable "fire_data" (fs empty_world)
  ∧ fst <$> rows three_days = [0; 1; 2; 3]
  ∧ (λ r, r !! 2) <$> body_of (rows three_days)
    = [Some (SInt 2350); Some (SInt 130); Some (SInt 15); Some (SInt 1245)]
  ∧ ∃ w',
      @save_fire_data (sample_oracles insertion_argsort no_network)
        three_days "modis" "fire_data" empty_world
      = (Ok [("csv", snapshot_path "fire_data")], w')
      ∧ fs w' !! snapshot_path "fire_data"
        = Some (File (Table (columns three_days)
                        (body_of (rows three_days)))).
Proof.
  split; [reflexivity|]. split; [reflexivity|].
  split; [apply writable_empty|].
  split; [reflexivity|]. split; [reflexivity|].
  apply (@writer_keeps_order_without_frp
           (sample_oracles insertion_argsort no_network));
    [reflexivity|reflexivity|apply writable_empty].
Defined.

(** C10. The rows the writer writes are a permutation of the rows of the
    input, under the column names of the input: no row is added, dropped
    or changed. *)
Theorem writer_permutes_rows `{O : Oracles} (df : DataFrame)
    (source_name d : string) (w : World) :
  argsort_sorts O →
  rectangular df = true →
  plain_dir d = true →
  writable d (fs w) →
  ∃ w' body,
    save_fire_data df source_name d w = (Ok [("csv", snapshot_path d)], w')
    ∧ fs w' !! snapshot_path d = Some (File (Table (columns df) body))
    ∧ body ≡ₚ body_of (rows df).
Proof.
  intros Hsort Hrect _ Hwritable.
  destruct (save_fire_data_run df source_name d w Hwritable) as [w' Hrun].
  exists w', (body_of (rows (sorted_frame df))). split; [done|].
  apply save_fire_data_Ok in Hrun as (_ & _ & -> & _).
  unfold csv_of. rewrite columns_sorted_frame. split; [done|].
  unfold body_of. apply fmap_Permutation. by apply rows_sorted_frame.
Qed.

Lemma writer_permutes_rows_witness :
  let O := sample_oracles insertion_argsort no_network in
  argsort_sorts O
  ∧ rectangular tied_fires = true
  ∧ plain_dir "fire_data" = true
  ∧ writable "fire_data" (fs empty_world)
  ∧ ∃ w' body,
      @save_fire_data O tied_fires "modis" "fire_data" empty_world
      = (Ok [("csv", snapshot_path "fire_data")], w')
      ∧ fs w' !! snapshot_path "fire_data"
        = Some (File (Table (columns tied_fires) body))
      ∧ body ≡ₚ body_of (rows tied_fires).
Proof.
  intros O.
  split; [apply insertion_argsort_sorts|]. split; [reflexivity|].
  split; [reflexivity|]. split; [apply writable_empty|].
  apply (@writer_permutes_rows O tied_fires "modis" "fire_data" empty_world);
    [apply insertion_argsort_sorts|reflexivity|reflexivity
    |apply writable_empty].
Defined.

(** The order of the spec's example is forced by the contract alone. *)
Lemma frp_example_order `{O : Oracles} :
  argsort_sorts O →
  column_nargsort (Float64 [decimal 32 1; decimal 105 1; decimal 1 0]) false
  = [1; 0; 2].
Proof.
  intros Hsort.
  set (keys := [decimal 32 1; decimal 105 1; decimal 1 0]).
  pose proof (column_nargsort_Permutation Hsort (Float64 keys)) as Hperm.
  pose proof (column_nargsort_descending Hsort (Float64 keys)) as Hdesc.
  remember (column_nargsort (Float64 keys) false) as pos eqn:Hpos. clear Hpos.
  assert (descendingb (gather keys pos) = true) as Hcheck.
  { apply descendingb_complete, descending_na_last_present; [|done].
    assert (Forall (λ k : float64, isna k = false) keys) as Hpresent
      by (repeat constructor).
    clear -Hpresent. revert Hpresent. generalize keys. intros l Hl.
    induction pos as [|p pos IH]; [constructor|].
    destruct (l !! p) as [v|] eqn:Hp.
    - rewrite (gather_cons_Some _ _ _ _ Hp). constructor; [|done].
      rewrite Forall_forall in Hl. apply Hl. by eapply list_elem_of_lookup_2.
    - by rewrite (gather_cons_None _ _ _ Hp). }
  clear Hdesc. symmetry in Hperm. apply permutations_Permutation in Hperm.
  vm_compute in Hperm.
  repeat (apply elem_of_cons in Hperm as [->|Hperm]);
    try (by apply elem_of_nil in Hperm);
    vm_compute in Hcheck; done.
Qed.

(** C2, as the code has it.  With an [frp] column the writer writes the rows
    in descending order of [frp], rows without a value last; the order of
    rows of equal [frp] is whatever numpy's default sort gives.  The
    intensities 3.2, 10.5, 1.0 are written as 10.5, 3.2, 1.0. *)
Theorem writer_sorts_descending `{O : Oracles} (df : DataFrame) (frp : column)
    (source_name d : string) (w : World) :
  argsort_sorts O →
  rectangular df = true →
  df_col "frp" df = Some frp →
  plain_dir d = true →
  writable d (fs w) →
  (∃ w' pos,
     save_fire_data df source_name d w = (Ok [("csv", snapshot_path d)], w')
     ∧ fs w' !! snapshot_path d = Some (File (csv_of (df_take pos df)))
     ∧ pos ≡ₚ seq 0 (df_len df)
     ∧ column_descending (col_take pos frp))
  ∧ (∃ w',
       save_fire_data frp_example source_name d w
       = (Ok [("csv", snapshot_path d)], w')
       ∧ fs w' !! snapshot_path d
         = Some (File (Table ["frp"]
                         [[SFloat (decimal 105 1)]; [SFloat (decimal 32 1)];
                          [SFloat (decimal 1 0)]]))).
Proof.
  intros Hsort Hrect Hfrp _ Hwritable. split.
  - destruct (save_fire_data_run df source_name d w Hwritable) as [w' Hrun].
    exists w', (column_nargsort frp false). split; [done|].
    apply save_fire_data_Ok in Hrun as (_ & _ & -> & _).
    unfold sorted_frame. rewrite Hfrp. split; [done|]. split.
    + rewrite column_nargsort_Permutation by done. unfold col_len.
      by rewrite (df_col_length _ _ _ Hrect Hfrp).
    + by apply column_nargsort_descending.
  - destruct (save_fire_data_run frp_example source_name d w Hwritable)
      as [w' Hrun].
    exists w'. split; [done|].
    apply save_fire_data_Ok in Hrun as (_ & _ & -> & _).
    unfold sorted_frame.
    change (df_col "frp" frp_example)
      with (Some (Float64 [decimal 32 1; decimal 105 1; decimal 1 0])).
    cbv iota beta. by rewrite (frp_example_order Hsort).
Qed.

Lemma writer_sorts_descending_witness :
  let O := sample_oracles reversing_argsort no_network in
  argsort_sorts O
  ∧ rectangular tied_fires = true
  ∧ df_col "frp" tied_fires = Some (Float64 [decimal 10 1; decimal 10 1])
  ∧ plain_dir "fire_data" = true
  ∧ writable "fire_data" (fs empty_world)
  ∧ ∃ w',
      @save_fire_data O frp_example "modis" "fire_data" empty_world
      = (Ok [("csv", snapshot_path "fire_data")], w')
      ∧ fs w' !! snapshot_path "fire_data"
        = Some (File (Table ["frp"]
                        [[SFloat (decimal 105 1)]; [SFloat (decimal 32 1)];
                         [SFloat (decimal 1 0)]])).
Proof.
  intros O.
  split; [apply reversing_argsort_sorts|]. split; [reflexivity|].
  split; [reflexivity|]. split; [reflexivity|].
  split; [apply writable_empty|].
  exact (proj2 (@writer_sorts_descending O tied_fires _ "modis" "fire_data"
                  empty_world (reversing_argsort_sorts _) eq_refl eq_refl
                  eq_refl (writable_empty _))).
Defined.

(** An order of the positions 0 .. n-1 in which each is smaller than all
    later ones is the identity. *)
Lemma increasing_positions (n : nat) (pos : list nat) :
  pos ≡ₚ seq 0 n →
  (∀ i j a b, i < j → pos !! i = Some a → pos !! j = Some b → a < b) →
  pos = seq 0 n.
Proof.
  intros Hperm Hinc.
  apply (StronglySorted_unique_strong lt); [intros; lia| | |done].
  - clear Hperm. induction pos as [|a pos IH]; [constructor|].
    constructor.
    + apply IH. intros i j x y Hij Hi Hj.
      apply (Hinc (S i) (S j)); [lia|done..].
    + apply Forall_forall. intros b Hb.
      apply list_elem_of_lookup in Hb as [j Hj].
      apply (Hinc 0 (S j)); [lia|done..].
  - clear. generalize 0. induction n as [|n IH]; intros k; [constructor|].
    cbn. constructor; [apply IH|].
    apply Forall_forall. intros b Hb. apply elem_of_seq in Hb. lia.
Qed.

(** C2, as the spec has it, fails: numpy's contract leaves room for a sort
    under which eighteen fires of equal intensity are written in the
    reverse of their input order. *)
Lemma writer_sorts_stably_fails : ¬ writer_sorts_stably.
Proof.
  intros Hstable.
  destruct (Hstable (sample_oracles reversing_argsort no_network)
              (reversing_argsort_sorts _) eighteen_tied_fires
              (Float64 (replicate 18 (decimal 10 1))) "modis" "fire_data"
              empty_world eq_refl eq_refl eq_refl (writable_empty _))
    as (w' & pos & Hrun & Hfile & Hperm & _ & Hties).
  assert (pos = seq 0 18) as ->.
  { apply increasing_positions; [exact Hperm|].
    intros i j a b Hij Hi Hj. unfold column_keeps_ties_in_order in Hties.
    assert (a < 18 ∧ b < 18) as [Ha Hb].
    { pose proof (perm_seq_bound _ _ Hperm) as Hbound.
      rewrite Forall_forall in Hbound.
      split; apply Hbound; by eapply list_elem_of_lookup_2. }
    apply (Hties i j a b (decimal 10 1) (decimal 10 1) Hij Hi Hj);
      try reflexivity; by apply lookup_replicate_2. }
  vm_compute in Hrun. injection Hrun as <-.
  by vm_compute in Hfile.
Qed.

(** ** Analyzer *)

(** With none of the columns the analyzer looks for, it prints the two
    head lines and returns. *)
Lemma analyzer_skips_absent_columns `{O : Oracles} (df : DataFrame) (w : World) :
  in_columns "confidence" df = false →
  in_columns "latitude" df && in_columns "longitude" df = false →
  in_columns "acq_date" df = false →
  in_columns "acq_time" df = false →
  analyze_fire_data df w
  = (Ok (), {| fs := fs w;
               console := console w
                          ++ [[Lit "\n=== Fire Data Analysis ==="];
                              [Lit "Total fire detections: "; Num (df_len df)]];
               ticks := ticks w |}).
Proof.
  intros Hconf Hcoord Hdate Htime.
  unfold analyze_fire_data, analyze_confidence, analyze_coordinates,
    analyze_dates, analyze_most_recent.
  rewrite Hconf, Hcoord, Hdate, Htime. run_monad. cbn.
  by rewrite <- app_assoc.
Qed.

Lemma sort_one_row `{O : Oracles} (c : column) :
  argsort_sorts O → col_len c = 1 → column_nargsort c false = [0].
Proof.
  intros Hsort Hlen.
  pose proof (column_nargsort_Permutation Hsort c) as Hperm.
  rewrite Hlen in Hperm. by apply Permutation_singleton_r in Hperm.
Qed.

(** C5, where the code breaks it.  A table with a time column and without
    a latitude column makes the analyzer raise: the placeholder ['N/A']
    that [fire.get] returns for the missing latitude is a string, and the
    format spec [.2f] refuses a string. *)
Theorem analyzer_raises_without_latitude `{O : Oracles} (w : World) :
  argsort_sorts O →
  in_columns "latitude" time_only = false
  ∧ (analyze_fire_data time_only w).1
    = Raise (ValueError "Unknown format code 'f' for object of type 'str'").
Proof.
  intros Hsort. split; [reflexivity|].
  unfold analyze_fire_data, analyze_most_recent, nlargest.
  change (df_col "acq_time" time_only) with (Some (Int64 [130%Z])).
  cbv beta iota. change (is_object (Int64 [130%Z])) with false.
  cbv beta iota. rewrite (sort_one_row (Int64 [130%Z]) Hsort eq_refl).
  reflexivity.
Qed.

Lemma analyzer_raises_without_latitude_witness :
  let O := sample_oracles insertion_argsort no_network in
  argsort_sorts O
  ∧ (@analyze_fire_data O time_only empty_world).1
    = Raise (ValueError "Unknown format code 'f' for object of type 'str'").
Proof.
  intros O. split; [apply insertion_argsort_sorts|].
  exact (proj2 (@analyzer_raises_without_latitude O empty_world
                  (insertion_argsort_sorts _))).
Defined.

(** C6, as the code has it.  Without a time column the "most recent"
    sub-analysis prints nothing.  With a numeric time column (and numeric
    coordinates) it prints its head line and one line for each of five
    rows (all rows, when there are fewer), none of which has a smaller
    time than a row it leaves out; a missing date is printed as ['N/A']. *)
Theorem most_recent_lists_largest_times `{O : Oracles} (df : DataFrame)
    (w : World) :
  argsort_sorts O →
  rectangular df = true →
  (in_columns "acq_time" df = false →
   analyze_most_recent df w = (Ok (), w))
  ∧ (∀ time lat lon,
       df_col "acq_time" df = Some time → is_object time = false →
       df_col "latitude" df = Some lat → is_object lat = false →
       df_col "longitude" df = Some lon → is_object lon = false →
       ∃ sel lines,
         analyze_most_recent df w
         = (Ok (), {| fs := fs w;
                      console :=
                        console w
                        ++ [Lit "\nMost recent fire detection times:"] :: lines;
                      ticks := ticks w |})
         ∧ Forall2 (λ row l, fire_line row.2 = Ok l)
             (iterrows (df_take sel df)) lines
         ∧ length sel = 5 `min` df_len df
         ∧ NoDup sel
         ∧ Forall (λ p, p < df_len df) sel
         ∧ (∀ p q, p ∈ sel → q < df_len df → q ∉ sel →
              column_ranks_above time p q)
         ∧ (df_col "acq_date" df = None →
            ∀ row, row ∈ iterrows (df_take sel df) →
              get_or_na "acq_date" row.2 = SStr "N/A")).
Proof.
  intros Hsort Hrect. split.
  { intros Htime. unfold analyze_most_recent. by rewrite Htime. }
  intros time lat lon Htime Htobj Hlat Hlatobj Hlon Hlonobj.
  set (pos := column_nargsort time false).
  assert (pos ≡ₚ seq 0 (df_len df)) as Hperm.
  { unfold pos. rewrite column_nargsort_Permutation by done. unfold col_len.
    by rewrite (df_col_length _ _ _ Hrect Htime). }
  pose proof (perm_seq_bound _ _ Hperm) as Hbound.
  assert (Forall (λ p, p < df_len df) (take 5 pos)) as Hsel.
  { apply Forall_forall. intros p Hp. rewrite Forall_forall in Hbound.
    apply Hbound. apply elem_of_take in Hp as (i & Hi & _).
    by eapply list_elem_of_lookup_2. }
  pose proof (rectangular_df_take _ _ Hrect Hsel) as Hrect'.
  destruct (fire_lines_exist (iterrows (df_take (take 5 pos) df)))
    as [lines Hlines].
  { intros row Hrow. split.
    - eapply (iterrows_numeric _ "latitude" (col_take (take 5 pos) lat));
        [done| |by rewrite is_object_col_take|done].
      by rewrite df_col_df_take, Hlat.
    - eapply (iterrows_numeric _ "longitude" (col_take (take 5 pos) lon));
        [done| |by rewrite is_object_col_take|done].
      by rewrite df_col_df_take, Hlon. }
  exists (take 5 pos), lines. split_and!.
  - unfold analyze_most_recent.
    assert (in_columns "acq_time" df = true) as ->
      by (apply in_columns_df_col; by rewrite Htime).
    rewrite bind_run. unfold print at 1. rewrite bind_run.
    unfold lift, nlargest. rewrite Htime, Htobj.
    fold pos. rewrite (df_head_df_take _ _ _ Hrect Hbound).
    rewrite (print_fires_run _ _ _ Hlines). cbn.
    by rewrite <- app_assoc.
  - done.
  - rewrite length_take. f_equal.
    by rewrite Hperm, length_seq.
  - assert (NoDup pos) as Hnd by (rewrite Hperm; apply NoDup_seq).
    rewrite <- (take_drop 5 pos) in Hnd. by apply NoDup_app in Hnd as [? _].
  - done.
  - intros p q Hp Hq Hnot.
    apply elem_of_take in Hp as (i & Hi & Hi5).
    assert (q ∈ pos) as Hqin by (rewrite Hperm; apply elem_of_seq; lia).
    apply list_elem_of_lookup in Hqin as [j Hj].
    assert (i < j) as Hij.
    { destruct (decide (j < 5)) as [Hj5|]; [|lia].
      destruct Hnot. apply elem_of_take. by eauto. }
    pose proof (column_nargsort_Permutation Hsort time) as Hpermc.
    pose proof (column_nargsort_descending Hsort time) as Hdesc.
    fold pos in Hpermc, Hdesc. apply perm_seq_bound in Hpermc.
    unfold col_len in Hpermc.
    destruct time as [vs|vs|vs]; [| |done]; cbn in Hpermc, Hdesc |- *;
      rewrite length_fmap in Hpermc; intros ka kb Hka Hkb;
      by eapply (descending_ranks vs pos i j p q).
  - intros Hdate row Hrow.
    eapply iterrows_missing_field; [|done].
    by rewrite df_col_df_take, Hdate.
Qed.

Lemma most_recent_lists_largest_times_witness :
  let O := sample_oracles insertion_argsort no_network in
  argsort_sorts O
  ∧ rectangular six_fires = true
  ∧ (in_columns "acq_time" coordinates_only = false →
     @analyze_most_recent O coordinates_only empty_world = (Ok (), empty_world))
  ∧ ∃ (sel : list nat) (lines : list line),
      @analyze_most_recent O six_fires empty_world
      = (Ok (), {| fs := ∅;
                   console :=
                     [Lit "\nMost recent fire detection times:"] :: lines;
                   ticks := 0 |})
      ∧ length sel = 5
      ∧ NoDup sel.
Proof.
  intros O.
  pose proof (insertion_argsort_sorts no_network) as Hsort.
  split; [exact Hsort|]. split; [reflexivity|]. split.
  - exact (proj1 (@most_recent_lists_largest_times O coordinates_only
                    empty_world Hsort eq_refl)).
  - destruct (proj2 (@most_recent_lists_largest_times O six_fires empty_world
                       Hsort eq_refl) _ _ _ eq_refl eq_refl eq_refl eq_refl
                eq_refl eq_refl)
      as (sel & lines & Hrun & _ & Hlen & Hnd & _).
    exists sel, lines. split; [exact Hrun|]. split; [exact Hlen|exact Hnd].
Defined.

(** C6, as the spec has it, fails: a table with coordinates and no time
    column has one row, and the analyzer prints no line for it. *)
Lemma lists_first_rows_without_time_fails : ¬ lists_first_rows_without_time.
Proof.
  intros Hlists.
  specialize (Hlists (sample_oracles insertion_argsort no_network)
                coordinates_only empty_world eq_refl
                (0, [("latitude", SFloat (decimal 15 1));
                     ("longitude", SFloat (decimal 25 1))])
                [Lit "  "; Val (SStr "N/A"); Lit " "; Val (SStr "N/A");
                 Lit " - Lat: "; Fix2 (SFloat (decimal 15 1));
                 Lit ", Lon: "; Fix2 (SFloat (decimal 25 1))]).
  assert ((0, [("latitude", SFloat (decimal 15 1));
               ("longitude", SFloat (decimal 25 1))])
          ∈ iterrows (df_head 5 coordinates_only)) as Hrow
    by (vm_compute; left).
  specialize (Hlists Hrow eq_refl). vm_compute in Hlists.
  repeat (apply elem_of_cons in Hlists as [Hlists|Hlists]; [done|]).
  by apply elem_of_nil in Hlists.
Qed.

(** * Further properties of the script *)

(** ** Fetcher *)

(** Whatever a source does (an HTTP error, a malformed body, an empty
    table), the fetcher lets no exception of a source escape: it returns
    a table, or it raises its own "all sources" error.  It never touches
    the file system. *)
Theorem fetcher_raises_only_exhaustion `{O : Oracles} (w : World) :
  fs (get_latest_fire_data w).2 = fs w
  ∧ ((∃ found, (get_latest_fire_data w).1 = Ok found)
     ∨ (get_latest_fire_data w).1 = Raise all_sources_failed).
Proof.
  destruct (get_latest_fire_data_run w) as (w' & -> & Hfs). cbn [fst snd].
  split; [done|].
  destruct (first_source (strftime_Ymd (clock (ticks w))) sources)
    as [found|]; [left; by exists found|].
  by right.
Qed.

Lemma first_source_split `{O : Oracles} (today_str : string)
    (srcs : list (string * string)) (df_today : DataFrame) (name : string) :
  first_source today_str srcs = Some (df_today, name) →
  ∃ earlier path later,
    srcs = earlier ++ (name, path) :: later
    ∧ (∀ n p, (n, p) ∈ earlier → todays_rows today_str p = None)
    ∧ todays_rows today_str path = Some df_today.
Proof.
  induction srcs as [|[n p] rest IH]; cbn; [done|].
  destruct (todays_rows today_str p) as [t|] eqn:Ht.
  - intros [= <- <-]. exists [], p, rest. split; [done|]. split; [|done].
    intros ? ? Hin. by apply elem_of_nil in Hin.
  - intros Hrest. destruct (IH Hrest) as (earlier & path & later & -> & Hnone & Hp).
    exists ((n, p) :: earlier), path, later. split; [done|]. split; [|done].
    intros n' p' [[= -> ->]|Hin]%elem_of_cons; [done|]. by eapply Hnone.
Qed.

Lemma todays_rows_nonempty `{O : Oracles} (today_str path : string)
    (df_today : DataFrame) :
  todays_rows today_str path = Some df_today → df_empty df_today = false.
Proof.
  unfold todays_rows.
  destruct (download (source_url path)) as [df|]; [|done].
  destruct (df_empty df); [done|].
  destruct (df_col "acq_date" df) as [date|]; [|done].
  destruct (df_empty (filter_today today_str date df)) eqn:He; [done|].
  by intros [= <-].
Qed.

(** The fetcher stops at the first source, in the order modis, viirs,
    viirs_noaa20, that has rows of today: the sources before it had none,
    and what it returns is not empty and holds rows of today only, the
    ones of that source's response. *)
Theorem fetcher_returns_first_source_with_rows `{O : Oracles} (w w' : World)
    (df_today : DataFrame) (name : string) :
  (∀ url df, download url = Ok df → rectangular df = true) →
  get_latest_fire_data w = (Ok (df_today, name), w') →
  ∃ earlier path later df,
    sources = earlier ++ (name, path) :: later
    ∧ (∀ n p, (n, p) ∈ earlier →
         todays_rows (strftime_Ymd (clock (ticks w))) p = None)
    ∧ download (source_url path) = Ok df
    ∧ rows df_today
      = List.filter (is_today (strftime_Ymd (clock (ticks w)))) (rows df)
    ∧ df_empty df_today = false
    ∧ Forall (λ r, is_today (strftime_Ymd (clock (ticks w))) r = true)
        (rows df_today).
Proof.
  intros Hrect Hrun.
  destruct (get_latest_fire_data_run w) as (w1 & Hrun1 & _).
  rewrite Hrun1 in Hrun.
  destruct (first_source _ sources) as [found|] eqn:Hfirst; [|done].
  injection Hrun as -> _.
  apply first_source_split in Hfirst
    as (earlier & path & later & Hsplit & Hnone & Htoday).
  pose proof (todays_rows_nonempty _ _ _ Htoday) as Hne.
  apply todays_rows_Some in Htoday as (df & date & Hdl & Hdate & ->).
  exists earlier, path, later, df.
  assert (rows (filter_today (strftime_Ymd (clock (ticks w))) date df)
          = List.filter (is_today (strftime_Ymd (clock (ticks w)))) (rows df))
    as Hrows by (apply rows_filter_today; [by eapply Hrect|done]).
  split_and!; try done.
  rewrite Hrows. apply Forall_filter_true.
Qed.

Lemma fetcher_returns_first_source_with_rows_witness :
  let O := sample_oracles insertion_argsort (λ _, Ok three_days) in
  (∀ url df, @download O url = Ok df → rectangular df = true)
  ∧ ∃ df_today,
      (@get_latest_fire_data O empty_world).1 = Ok (df_today, "modis")
      ∧ df_empty df_today = false
      ∧ fst <$> rows df_today = [1; 3].
Proof.
  intros O.
  assert (∀ url df, @download O url = Ok df → rectangular df = true) as Hrect
    by (by intros url df [= <-]).
  split; [exact Hrect|].
  destruct (@get_latest_fire_data O empty_world) as [r w'] eqn:Hrun.
  assert (r = Ok (filter_today "2024-01-15"
                    (Object [Some "2024-01-14"; Some "2024-01-15";
                             Some "2024-01-16"; Some "2024-01-15"])
                    three_days, "modis")) as ->
    by (by vm_compute in Hrun; injection Hrun as <- _).
  destruct (@fetcher_returns_first_source_with_rows O _ _ _ _ Hrect Hrun)
    as (_ & _ & _ & _ & _ & _ & _ & _ & Hne & _).
  eexists. split; [reflexivity|]. split; [exact Hne|reflexivity].
Defined.

(** ** The date filter *)

Lemma length_nonzero_from (k k' : nat) (mask : list bool) :
  length (nonzero_from k mask) = length (nonzero_from k' mask).
Proof.
  revert k k'. induction mask as [|b mask IH]; intros k k'; [done|].
  cbn. destruct b; cbn; by rewrite (IH (S k) (S k')).
Qed.

Lemma compress_self (mask : list bool) :
  compress mask mask = replicate (length (nonzero mask)) true.
Proof.
  unfold nonzero. induction mask as [|b mask IH]; [done|].
  cbn. destruct b; cbn; rewrite IH; by rewrite (length_nonzero_from 1 0).
Qed.

Lemma nonzero_from_replicate (k n : nat) :
  nonzero_from k (replicate n true) = seq k n.
Proof.
  revert k. induction n as [|n IH]; intros k; [done|]. cbn. by rewrite IH.
Qed.

Lemma filter_today_bound (today_str : string) (date : column) (df : DataFrame) :
  rectangular df = true → df_col "acq_date" df = Some date →
  Forall (λ p, p < df_len df) (nonzero (eq_str date today_str)).
Proof.
  intros Hrect Hdate.
  rewrite <- (df_col_length _ _ _ Hrect Hdate), <- (length_eq_str date today_str).
  apply (nonzero_from_bound 0).
Qed.

(** Filtering keeps the shape of the table: the same columns, every
    column as long as the index, and no more rows than before. *)
Theorem filter_today_keeps_shape (today_str : string) (date : column)
    (df : DataFrame) :
  rectangular df = true →
  df_col "acq_date" df = Some date →
  columns (filter_today today_str date df) = columns df
  ∧ rectangular (filter_today today_str date df) = true
  ∧ df_len (filter_today today_str date df) ≤ df_len df.
Proof.
  intros Hrect Hdate.
  pose proof (filter_today_bound today_str _ _ Hrect Hdate) as Hbound.
  unfold filter_today, df_mask. split_and!.
  - apply columns_df_take.
  - by apply rectangular_df_take.
  - rewrite length_rows_df_take, length_gather by done.
    rewrite <- (df_col_length _ _ _ Hrect Hdate), <- (length_eq_str date today_str).
    unfold nonzero. generalize 0. generalize (eq_str date today_str).
    intros mask. induction mask as [|b mask IH]; intros k; [done|].
    cbn. destruct b; cbn; specialize (IH (S k)); lia.
Qed.

Lemma filter_today_keeps_shape_witness :
  rectangular three_days = true
  ∧ df_col "acq_date" three_days
    = Some (Object [Some "2024-01-14"; Some "2024-01-15";
                    Some "2024-01-16"; Some "2024-01-15"])
  ∧ columns (filter_today "2024-01-15"
               (Object [Some "2024-01-14"; Some "2024-01-15";
                        Some "2024-01-16"; Some "2024-01-15"]) three_days)
    = ["latitude"; "acq_date"; "acq_time"].
Proof.
  split; [reflexivity|]. split; [reflexivity|].
  exact (proj1 (filter_today_keeps_shape "2024-01-15" _ three_days
                  eq_refl eq_refl)).
Defined.

(** Filtering a filtered table again changes nothing. *)
Theorem filter_today_idempotent (today_str : string) (date : column)
    (df : DataFrame) :
  rectangular df = true →
  df_col "acq_date" df = Some date →
  ∃ date',
    df_col "acq_date" (filter_today today_str date df) = Some date'
    ∧ filter_today today_str date' (filter_today today_str date df)
      = filter_today today_str date df.
Proof.
  intros Hrect Hdate.
  pose proof (filter_today_bound today_str _ _ Hrect Hdate) as Hbound.
  set (mask := eq_str date today_str) in *.
  exists (col_take (nonzero mask) date). split.
  - unfold filter_today, df_mask. by rewrite df_col_df_take, Hdate.
  - unfold filter_today, df_mask. fold mask.
    rewrite df_take_df_take by done. f_equal.
    assert (eq_str (col_take (nonzero mask) date) today_str
            = replicate (length (nonzero mask)) true) as ->.
    { rewrite eq_str_cells, cells_col_take, <- gather_fmap, <- eq_str_cells.
      fold mask. by rewrite gather_nonzero, compress_self. }
    unfold nonzero at 2. rewrite nonzero_from_replicate. apply gather_seq.
Qed.

Lemma filter_today_idempotent_witness :
  rectangular three_days = true
  ∧ ∃ date',
      df_col "acq_date"
        (filter_today "2024-01-15"
           (Object [Some "2024-01-14"; Some "2024-01-15";
                    Some "2024-01-16"; Some "2024-01-15"]) three_days)
      = Some date'
      ∧ filter_today "2024-01-15" date'
          (filter_today "2024-01-15"
             (Object [Some "2024-01-14"; Some "2024-01-15";
                      Some "2024-01-16"; Some "2024-01-15"]) three_days)
        = filter_today "2024-01-15"
            (Object [Some "2024-01-14"; Some "2024-01-15";
                     Some "2024-01-16"; Some "2024-01-15"]) three_days.
Proof.
  split; [reflexivity|].
  exact (filter_today_idempotent "2024-01-15" _ three_days eq_refl eq_refl).
Defined.

(** ** The date string *)

Lemma digit_inj (a b : nat) : digit a = digit b → a mod 10 = b mod 10.
Proof.
  unfold digit. intros Heq.
  apply (f_equal nat_of_ascii) in Heq.
  pose proof (Nat.mod_upper_bound a 10). pose proof (Nat.mod_upper_bound b 10).
  rewrite !nat_ascii_embedding in Heq by lia. lia.
Qed.

Lemma two_digits (a : nat) :
  a < 100 → a = 10 * ((a / 10) mod 10) + a mod 10.
Proof.
  intros Ha.
  pose proof (Nat.div_mod_eq a 10) as H1.
  pose proof (Nat.div_mod_eq (a / 10) 10) as H2.
  pose proof (Nat.mod_upper_bound a 10) as H3.
  pose proof (Nat.mod_upper_bound (a / 10) 10) as H4.
  remember (a / 10 / 10) as x3. remember ((a / 10) mod 10) as x2.
  remember (a / 10) as x1. remember (a mod 10) as x0. lia.
Qed.

Lemma four_digits (a : nat) :
  a < 100 * 100 →
  a = 1000 * ((a / 1000) mod 10) + 100 * ((a / 100) mod 10)
      + 10 * ((a / 10) mod 10) + a mod 10.
Proof.
  intros Ha.
  replace (a / 1000) with (a / 100 / 10) by (by rewrite !Nat.Div0.div_div).
  assert (a / 100 < 100) as H5 by (apply Nat.Div0.div_lt_upper_bound; lia).
  pose proof (two_digits (a / 100) H5) as H1.
  pose proof (Nat.mod_upper_bound a 100 ltac:(lia)) as H4.
  pose proof (two_digits (a mod 100) H4) as H2.
  pose proof (Nat.div_mod_eq a 100) as H3.
  assert (a mod 100 / 10 = (a / 10) mod 10) as E1.
  { change 100 with (10 * 10). rewrite Nat.Div0.mod_mul_r.
    rewrite (Nat.mul_comm 10), Nat.div_add by lia.
    rewrite (Nat.div_small (a mod 10)); [done|]. by apply Nat.mod_upper_bound. }
  assert ((a mod 100) mod 10 = a mod 10) as E2.
  { change 100 with (10 * 10). by rewrite Nat.Div0.mod_mul_r,
        Nat.mul_comm, Nat.Div0.mod_add, Nat.Div0.mod_mod. }
  rewrite E2 in H2. rewrite E1 in H2.
  assert (((a / 10) mod 10) mod 10 = (a / 10) mod 10) as E3 by apply Nat.Div0.mod_mod.
  rewrite E3 in H2.
  remember ((a / 100 / 10) mod 10) as p. remember ((a / 100) mod 10) as q.
  remember ((a / 10) mod 10) as r. remember (a mod 10) as s.
  remember (a / 100) as x. remember (a mod 100) as y. lia.
Qed.

(** Two dates have the same string only when they are the same day: the
    string comparison of the filter is a comparison of dates. *)
Theorem strftime_Ymd_injective (t1 t2 : datetime) :
  valid_date t1 → valid_date t2 →
  strftime_Ymd t1 = strftime_Ymd t2 →
  year t1 = year t2 ∧ month t1 = month t2 ∧ day t1 = day t2.
Proof.
  intros (Hy1 & Hm1 & Hd1) (Hy2 & Hm2 & Hd2).
  unfold strftime_Ymd, pad4, pad2. rewrite !append_cons.
  intros [= Ha Hb Hc Hd He Hf Hg Hh].
  apply digit_inj in Ha, Hb, Hc, Hd, He, Hf, Hg, Hh.
  repeat match goal with
  | H : context [(Nat.divmod ?n ?k 0 ?k).1] |- _ =>
      change ((Nat.divmod n k 0 k).1) with (n / S k) in H
  end.
  rewrite (four_digits _ Hy1), (four_digits _ Hy2).
  rewrite (two_digits _ Hm1), (two_digits _ Hm2).
  rewrite (two_digits _ Hd1), (two_digits _ Hd2).
  by rewrite Ha, Hb, Hc, Hd, He, Hf, Hg, Hh.
Qed.

Lemma strftime_Ymd_injective_witness :
  valid_date morning ∧ valid_date evening
  ∧ strftime_Ymd morning = strftime_Ymd evening
  ∧ year morning = year evening
  ∧ month morning = month evening
  ∧ day morning = day evening.
Proof.
  assert (valid_date morning) as H1 by (unfold valid_date; cbn; lia).
  assert (valid_date evening) as H2 by (unfold valid_date; cbn; lia).
  split; [exact H1|]. split; [exact H2|]. split; [reflexivity|].
  exact (strftime_Ymd_injective morning evening H1 H2 eq_refl).
Defined.

(** ** Writer: when it runs and what it leaves *)

Lemma remove_all_files (l : list string) (w w' : World) (u : unit) :
  NoDup l → for_each l os_remove w = (Ok u, w') →
  ∀ p, p ∈ l → ∃ c, fs w !! p = Some (File c).
Proof.
  revert w. induction l as [|q l IH]; intros w Hnd Hrun p Hp.
  - by apply elem_of_nil in Hp.
  - apply NoDup_cons in Hnd as [Hq Hnd]. cbn in Hrun.
    rewrite bind_run in Hrun. unfold os_remove at 1 in Hrun.
    destruct (fs w !! q) as [[c|]|] eqn:Hfile; [|done|done].
    apply elem_of_cons in Hp as [->|Hp]; [by eauto|].
    destruct (IH _ Hnd Hrun p Hp) as [c' Hc']. cbn in Hc'.
    rewrite lookup_delete_ne in Hc' by (intros ->; done). by eauto.
Qed.

Lemma save_fire_data_Ok_writable `{O : Oracles} (df : DataFrame)
    (source_name d : string) (w w' : World) (r : list (string * string)) :
  save_fire_data df source_name d w = (Ok r, w') → writable d (fs w).
Proof.
  intros Hrun. split.
  { by apply save_fire_data_Ok in Hrun as (_ & Hd & _). }
  intros p Hs Hdir. revert Hrun.
  unfold save_fire_data. rewrite bind_run.
  destruct (os_makedirs d w) as [[[]|e] w1] eqn:Hmk; [|done].
  apply os_makedirs_Ok in Hmk as (_ & _ & Hframe1).
  rewrite bind_run. unfold glob_snapshots at 1. rewrite bind_run.
  destruct (for_each _ os_remove w1) as [[[]|e] w2] eqn:Hrm; [|done].
  intros _.
  assert (p ≠ d) as Hne by (intros ->; by rewrite is_snapshot_dir in Hs).
  destruct (remove_all_files _ _ _ _ (NoDup_snapshot_files d (fs w1)) Hrm p)
    as [c Hc].
  - apply elem_of_snapshot_files. split; [done|].
    rewrite Hframe1 by done. by rewrite Hdir.
  - rewrite Hframe1 in Hc by done. congruence.
Qed.

(** For an output directory that is one plain name in the working
    directory, such as the default ["fire_data"], the writer returns
    exactly when that name is not taken by a regular file and no entry
    that matches the snapshot pattern is a directory. *)
Theorem writer_returns_iff_writable `{O : Oracles} (df : DataFrame)
    (source_name d : string) (w : World) :
  plain_dir d = true →
  has_slash d = false →
  (∃ w', save_fire_data df source_name d w
         = (Ok [("csv", snapshot_path d)], w'))
  ↔ writable d (fs w).
Proof.
  intros _ _. split.
  - intros [w' Hrun]. by eapply save_fire_data_Ok_writable.
  - apply save_fire_data_run.
Qed.

Lemma writer_returns_iff_writable_witness :
  let O := sample_oracles insertion_argsort no_network in
  plain_dir "fire_data" = true
  ∧ has_slash "fire_data" = false
  ∧ (∃ w', @save_fire_data O tied_fires "modis" "fire_data" empty_world
           = (Ok [("csv", snapshot_path "fire_data")], w'))
  ∧ ¬ (∃ w', @save_fire_data O tied_fires "modis" "fire_data" blocked_world
             = (Ok [("csv", snapshot_path "fire_data")], w')).
Proof.
  intros O. split; [reflexivity|]. split; [reflexivity|]. split.
  - exact (proj2 (@writer_returns_iff_writable O tied_fires "modis"
                    "fire_data" empty_world eq_refl eq_refl)
             (writable_empty _)).
  - intros Hrun.
    destruct (proj1 (@writer_returns_iff_writable O tied_fires "modis"
                       "fire_data" blocked_world eq_refl eq_refl) Hrun)
      as [Hfile _].
    exact (Hfile (Bytes "") eq_refl).
Defined.

(** When the name of the output directory is taken by a regular file the
    writer raises [FileExistsError] before it has deleted or written
    anything: the world is as it was. *)
Theorem writer_refuses_file_as_directory `{O : Oracles} (df : DataFrame)
    (source_name d : string) (w : World) (c : content) :
  fs w !! d = Some (File c) →
  save_fire_data df source_name d w = (Raise (FileExistsError d), w).
Proof.
  intros Hd. unfold save_fire_data. rewrite bind_run.
  unfold os_makedirs. by rewrite Hd.
Qed.

Lemma writer_refuses_file_as_directory_witness :
  fs blocked_world !! "fire_data" = Some (File (Bytes ""))
  ∧ @save_fire_data (sample_oracles insertion_argsort no_network)
      tied_fires "modis" "fire_data" blocked_world
    = (Raise (FileExistsError "fire_data"), blocked_world).
Proof.
  split; [reflexivity|].
  exact (@writer_refuses_file_as_directory
           (sample_oracles insertion_argsort no_network) tied_fires "modis"
           "fire_data" blocked_world (Bytes "") eq_refl).
Defined.



(** Writing the same table a second time changes nothing: the file system
    after two runs is the file system after one. *)
Theorem writer_idempotent `{O : Oracles} (df : DataFrame)
    (source1 source2 d : string) (w w1 : World) (r : list (string * string)) :
  save_fire_data df source1 d w = (Ok r, w1) →
  ∃ w2, save_fire_data df source2 d w1 = (Ok r, w2) ∧ fs w2 = fs w1.
Proof.
  intros Hrun1.
  pose proof (save_fire_data_one_snapshot _ _ _ _ _ _ Hrun1) as [_ Hwritable].
  apply save_fire_data_Ok in Hrun1 as (-> & _ & Hcsv1 & Hdir1 & Hframe1).
  destruct (save_fire_data_run df source2 d w1 Hwritable) as [w2 Hrun2].
  exists w2. split; [done|].
  apply save_fire_data_Ok in Hrun2 as (_ & _ & Hcsv2 & Hdir2 & Hframe2).
  apply map_eq. intros k.
  destruct (decide (k = snapshot_path d)) as [->|Hk1]; [congruence|].
  destruct (decide (k = d)) as [->|Hk2]; [congruence|].
  rewrite Hframe2 by done. destruct (is_snapshot d k) eqn:Hs; [|done].
  by rewrite Hframe1, Hs.
Qed.

Lemma writer_idempotent_witness :
  let O := sample_oracles insertion_argsort no_network in
  let run := @save_fire_data O tied_fires "modis" "fire_data" used_world in
  run = (Ok [("csv", "fire_data/fire_snapshot.csv")], run.2)
  ∧ ∃ w2,
      @save_fire_data O tied_fires "viirs" "fire_data" run.2
      = (Ok [("csv", "fire_data/fire_snapshot.csv")], w2)
      ∧ fs w2 = fs run.2.
Proof.
  intros O run.
  assert (run = (Ok [("csv", "fire_data/fire_snapshot.csv")], run.2)) as Hrun
    by (by vm_compute).
  split; [exact Hrun|].
  exact (@writer_idempotent O tied_fires "modis" "viirs" "fire_data"
           used_world run.2 _ Hrun).
Defined.

(** ** The snapshot pattern *)

Lemma prefix_split (a b : string) :
  String.prefix a b = true →
  b = a +:+ String.substring (String.length a)
              (String.length b - String.length a) b.
Proof.
  revert b. induction a as [|c a IH]; intros b.
  - intros _. cbn. rewrite Nat.sub_0_r. by rewrite substring_all.
  - destruct b as [|c' b]; [done|]. cbn.
    destruct (ascii_dec c c') as [->|]; [|done].
    intros H. rewrite append_cons. f_equal. by apply IH.
Qed.

Lemma substring_split (s : string) (k : nat) :
  k ≤ String.length s →
  s = String.substring 0 k s +:+ String.substring k (String.length s - k) s.
Proof.
  revert k. induction s as [|c s IH]; intros [|k] Hk; cbn in *; try lia.
  - done.
  - by rewrite substring_all.
  - rewrite append_cons. f_equal. apply IH. lia.
Qed.

Lemma substring_after (a b : string) :
  String.substring (String.length a) (String.length b) (a +:+ b) = b.
Proof.
  induction a as [|c a IH]; [apply substring_all|].
  rewrite append_cons. cbn. exact IH.
Qed.

Lemma ends_with_append (a suffix : string) :
  ends_with suffix (a +:+ suffix) = true.
Proof.
  unfold ends_with. rewrite length_append.
  replace (String.length a + String.length suffix - String.length suffix)
    with (String.length a) by lia.
  rewrite substring_after, String.eqb_refl, andb_true_r.
  apply Nat.leb_le. lia.
Qed.

Lemma ends_with_split (suffix s : string) :
  ends_with suffix s = true → ∃ a, s = a +:+ suffix.
Proof.
  unfold ends_with. intros [Hlen Heq]%andb_true_iff.
  apply Nat.leb_le in Hlen. apply String.eqb_eq in Heq.
  exists (String.substring 0 (String.length s - String.length suffix) s).
  pose proof (substring_split s (String.length s - String.length suffix))
    as Hsplit.
  replace (String.length s - (String.length s - String.length suffix))
    with (String.length suffix) in Hsplit by lia.
  rewrite Heq in Hsplit. apply Hsplit. lia.
Qed.

Lemma has_slash_append (a b : string) :
  has_slash (a +:+ b) = has_slash a || has_slash b.
Proof.
  induction a as [|c a IH]; [done|].
  rewrite append_cons. cbn. by rewrite IH, orb_assoc.
Qed.

Lemma fnmatch_snapshot_spec (name : string) :
  fnmatch_snapshot name = true
  ↔ ∃ mid, name = "fire_snapshot" +:+ mid +:+ ".csv".
Proof.
  unfold fnmatch_snapshot. split.
  - intros [Hpre Hsuf]%andb_true_iff.
    apply prefix_split in Hpre. apply ends_with_split in Hsuf as [mid Hmid].
    exists mid. rewrite Hpre at 1. f_equal. exact Hmid.
  - intros [mid ->]. rewrite prefix_append.
    change 13 with (String.length "fire_snapshot").
    by rewrite substring_append, ends_with_append.
Qed.

Lemma entry_of_spec (d path name : string) :
  entry_of d path = Some name
  ↔ path = path_join d name ∧ has_slash name = false ∧ name ≠ "".
Proof.
  split.
  - unfold entry_of, path_join.
    destruct (String.prefix (d +:+ "/") path) eqn:Hpre; [|done].
    apply prefix_split in Hpre.
    destruct (has_slash _) eqn:Hslash; [done|].
    destruct (String.eqb _ "") eqn:Hempty; [done|].
    cbn. intros [= <-]. split; [|split; [done|by apply String.eqb_neq]].
    rewrite Hpre at 1. by rewrite append_assoc.
  - intros (-> & Hslash & Hne). by apply entry_of_join.
Qed.

Lemma is_snapshot_iff (d path : string) :
  is_snapshot d path = true
  ↔ ∃ mid, has_slash mid = false
      ∧ path = path_join d ("fire_snapshot" +:+ mid +:+ ".csv").
Proof.
  unfold is_snapshot. split.
  - destruct (entry_of d path) as [name|] eqn:Hentry; [|done].
    apply entry_of_spec in Hentry as (-> & Hslash & _).
    intros [mid ->]%fnmatch_snapshot_spec. exists mid. split; [|done].
    rewrite !has_slash_append in Hslash.
    by apply orb_false_iff in Hslash as [_ [? _]%orb_false_iff].
  - intros (mid & Hslash & ->).
    rewrite entry_of_join.
    + apply fnmatch_snapshot_spec. by exists mid.
    + rewrite !has_slash_append, Hslash. reflexivity.
    + done.
Qed.

(** For a plain directory name (not empty, no trailing slash, no
    wildcard character), the paths the writer's glob selects are exactly
    the entries of that directory named [fire_snapshot], anything without
    a slash, [.csv]: nothing in a sub-directory, nothing outside. *)
Theorem is_snapshot_spec (d path : string) :
  plain_dir d = true →
  (is_snapshot d path = true
   ↔ ∃ mid, has_slash mid = false
       ∧ path = d +:+ "/" +:+ "fire_snapshot" +:+ mid +:+ ".csv").
Proof. intros _. apply is_snapshot_iff. Qed.

Lemma is_snapshot_spec_witness :
  plain_dir "fire_data" = true
  ∧ is_snapshot "fire_data" "fire_data/fire_snapshot_2023.csv" = true
  ∧ ¬ (∃ mid, has_slash mid = false
         ∧ "fire_data/old/fire_snapshot.csv"
           = "fire_data" +:+ "/" +:+ "fire_snapshot" +:+ mid +:+ ".csv")
  ∧ ¬ (∃ mid, has_slash mid = false
         ∧ "fire_data/notes.txt"
           = "fire_data" +:+ "/" +:+ "fire_snapshot" +:+ mid +:+ ".csv").
Proof.
  split; [reflexivity|]. split.
  - apply (proj2 (is_snapshot_spec "fire_data"
                    "fire_data/fire_snapshot_2023.csv" eq_refl)).
    by exists "_2023".
  - split; intros Hmid.
    + by apply (proj2 (is_snapshot_spec "fire_data"
                         "fire_data/old/fire_snapshot.csv" eq_refl)) in Hmid.
    + by apply (proj2 (is_snapshot_spec "fire_data" "fire_data/notes.txt"
                         eq_refl)) in Hmid.
Defined.

(** ** Writer: the rows without an intensity *)










(** ** Loader *)

(** When the loader step returns, the table it returns is the table it
    was given, the handle is what earthkit made of the CSV text of that
    table at the temporary path, and every other path is as it was. *)
Theorem loader_returns_table_unchanged `{O : Oracles} (df df' : DataFrame)
    (source_name : string) (data : handle) (w w' : World) :
  process_fire_data_with_earthkit df source_name w = (Ok (data, df'), w') →
  df' = df
  ∧ ek_from_source (mkstemp (fs w)) (Some (File (csv_of df))) = Ok data
  ∧ (∀ k, k ≠ mkstemp (fs w) → fs w' !! k = fs w !! k)
  ∧ ticks w' = ticks w.
Proof.
  intros Hrun.
  destruct (process_fire_data_with_earthkit_run df source_name w)
    as (w1 & Hrun1 & Hfs).
  assert (ticks (process_fire_data_with_earthkit df source_name w).2
          = ticks w) as Hticks.
  { unfold process_fire_data_with_earthkit, named_temporary_file, to_csv,
      load_with_earthkit, os_unlink, os_remove, set_fs. run_monad.
    rewrite !lookup_insert_eq. cbn [fs console ticks].
    rewrite !lookup_insert_eq.
    destruct (ek_from_source _ _); cbn [fs console ticks];
      by rewrite !lookup_insert_eq. }
  rewrite Hrun in Hrun1, Hticks. cbn in Hticks.
  injection Hrun1 as Hres <-.
  destruct (ek_from_source _ _) as [data'|e]; [|done].
  injection Hres as <- <-. split; [done|]. split; [done|]. split; [|done].
  intros k Hk. rewrite Hfs. by apply lookup_delete_ne.
Qed.

Lemma loader_returns_table_unchanged_witness :
  let O := sample_oracles insertion_argsort no_network in
  let run := @process_fire_data_with_earthkit O three_days "modis" used_world in
  run = (Ok (EkData 0, three_days), run.2)
  ∧ fs run.2 !! "readme.md" = Some (File (Bytes "keep"))
  ∧ ticks run.2 = 0.
Proof.
  intros O run.
  assert (run = (Ok (EkData 0, three_days), run.2)) as Hrun by (by vm_compute).
  split; [exact Hrun|].
  destruct (@loader_returns_table_unchanged O three_days three_days "modis"
              (EkData 0) used_world run.2 Hrun) as (_ & _ & Hframe & Hticks).
  split; [by rewrite Hframe|exact Hticks].
Defined.

(** ** Analyzer *)

Lemma only_prints_ret {A} (a : A) : only_prints (ret a).
Proof. intros w. by cbn. Qed.

Lemma only_prints_lift {A} (r : result A) : only_prints (lift r).
Proof. intros w. by cbn. Qed.

Lemma only_prints_print (l : line) : only_prints (print l).
Proof. intros w. cbn. split; [done|]. split; [done|]. by eexists. Qed.

Lemma only_prints_bind {A B} (m : M A) (k : A → M B) :
  only_prints m → (∀ a, only_prints (k a)) → only_prints (m ≫= k).
Proof.
  intros Hm Hk w. rewrite bind_run.
  destruct (Hm w) as (Hfs & Hticks & Hcon).
  destruct (m w) as [[a|e] w1]; cbn in *; [|done].
  destruct (Hk a w1) as (Hfs' & Hticks' & Hcon').
  split; [congruence|]. split; [congruence|]. by etrans.
Qed.

Lemma only_prints_for_each {A} (l : list A) (body : A → M unit) :
  (∀ x, only_prints (body x)) → only_prints (for_each l body).
Proof.
  intros Hbody. induction l as [|x l IH]; [apply only_prints_ret|].
  cbn [for_each]. apply only_prints_bind; [apply Hbody|by intros _].
Qed.

Ltac only_prints :=
  repeat first
    [ apply only_prints_ret
    | apply only_prints_lift
    | apply only_prints_print
    | apply only_prints_for_each; intros ?
    | apply only_prints_bind; [|intros ?]
    | match goal with
      | |- only_prints (if ?b then _ else _) => destruct b
      end ].

Lemma analyze_fire_data_only_prints `{O : Oracles} (df : DataFrame) :
  only_prints (analyze_fire_data df).
Proof.
  unfold analyze_fire_data, analyze_confidence, analyze_coordinates,
    analyze_dates, analyze_most_recent, print_fire.
  only_prints.
Qed.

(** The analyzer only prints: on every table and on every path through
    it, returning or raising, the file system and the clock are as they
    were, and the lines printed before are still there, in front. *)
Theorem analyzer_only_prints `{O : Oracles} (df : DataFrame) (w : World) :
  fs (analyze_fire_data df w).2 = fs w
  ∧ ticks (analyze_fire_data df w).2 = ticks w
  ∧ console w `prefix_of` console (analyze_fire_data df w).2.
Proof. apply analyze_fire_data_only_prints. Qed.

Lemma for_each_print_run {A} (l : list A) (f : A → line) (w : World) :
  for_each l (λ x, print (f x)) w
  = (Ok (), {| fs := fs w; console := console w ++ (f <$> l);
               ticks := ticks w |}).
Proof.
  revert w. induction l as [|x l IH]; intros w; cbn.
  - rewrite app_nil_r. by destruct w.
  - rewrite bind_run. unfold print at 1. rewrite IH. cbn.
    by rewrite <- app_assoc.
Qed.

Lemma format_2f_col_reduce (red : ∀ A, DType A → list A → option A)
    (c : column) :
  is_object c = false → ∃ t, format_2f (col_reduce red c) = Ok t.
Proof.
  destruct c as [vs|vs|vs]; [| |done]; intros _; cbn;
    destruct (red _ _ vs); cbn; by eauto.
Qed.

Section analyzer_returns.
Context `{O : Oracles}.
Variable df : DataFrame.

Lemma analyze_confidence_Ok (w : World) :
  (∀ c, df_col "confidence" df = Some c → is_object c = false) →
  ∃ w', analyze_confidence df w = (Ok (), w').
Proof.
  intros Hnum. unfold analyze_confidence.
  destruct (in_columns "confidence" df) eqn:Hin; [|by eexists].
  apply in_columns_df_col in Hin as [c Hc]. specialize (Hnum c Hc).
  unfold df_getitem. rewrite Hc.
  destruct c as [vs|vs|vs]; [| |done]; by eexists.
Qed.

Lemma analyze_coordinates_Ok (w : World) :
  (∀ c, df_col "latitude" df = Some c → is_object c = false) →
  (∀ c, df_col "longitude" df = Some c → is_object c = false) →
  ∃ w', analyze_coordinates df w = (Ok (), w').
Proof.
  intros Hlat Hlon. unfold analyze_coordinates.
  destruct (in_columns "latitude" df) eqn:Hin1; [|by eexists].
  destruct (in_columns "longitude" df) eqn:Hin2; [|by eexists].
  apply in_columns_df_col in Hin1 as [lat Hlatc].
  apply in_columns_df_col in Hin2 as [lon Hlonc].
  specialize (Hlat lat Hlatc). specialize (Hlon lon Hlonc).
  unfold df_getitem, col_min, col_max. rewrite Hlatc, Hlonc.
  destruct (format_2f_col_reduce (@reduce_min) lat Hlat) as [t1 Ht1].
  destruct (format_2f_col_reduce (@reduce_max) lat Hlat) as [t2 Ht2].
  destruct (format_2f_col_reduce (@reduce_min) lon Hlon) as [t3 Ht3].
  destruct (format_2f_col_reduce (@reduce_max) lon Hlon) as [t4 Ht4].
  cbn [andb]. run_monad. rewrite Ht1, Ht2. cbn. rewrite Ht3, Ht4.
  by eexists.
Qed.

Lemma analyze_dates_Ok (w : World) :
  ∃ w', analyze_dates df w = (Ok (), w').
Proof.
  unfold analyze_dates.
  destruct (in_columns "acq_date" df) eqn:Hin; [|by eexists].
  apply in_columns_df_col in Hin as [c Hc].
  unfold df_getitem. rewrite Hc. rewrite !bind_run. unfold lift at 1.
  rewrite bind_run. unfold print at 1. rewrite for_each_print_run.
  by eexists.
Qed.

Lemma analyze_most_recent_Ok (w : World) :
  argsort_sorts O →
  rectangular df = true →
  (∀ c, df_col "latitude" df = Some c → is_object c = false) →
  (∀ c, df_col "longitude" df = Some c → is_object c = false) →
  (∀ c, df_col "acq_time" df = Some c →
     is_object c = false
     ∧ in_columns "latitude" df = true
     ∧ in_columns "longitude" df = true) →
  ∃ w', analyze_most_recent df w = (Ok (), w').
Proof.
  intros Hsort Hrect Hlat Hlon Htime. unfold analyze_most_recent.
  destruct (in_columns "acq_time" df) eqn:Hin; [|by eexists].
  apply in_columns_df_col in Hin as [time Htimec].
  destruct (Htime time Htimec) as (Hobj & Hin1 & Hin2).
  apply in_columns_df_col in Hin1 as [lat Hlatc].
  apply in_columns_df_col in Hin2 as [lon Hlonc].
  specialize (Hlat lat Hlatc). specialize (Hlon lon Hlonc).
  pose proof (column_nargsort_bound Hsort df _ _ Hrect Htimec) as Hbound.
  set (pos := column_nargsort time false) in *.
  assert (Forall (λ p, p < df_len df) (take 5 pos)) as Hsel.
  { apply Forall_forall. intros p Hp. rewrite Forall_forall in Hbound.
    apply Hbound. apply elem_of_take in Hp as (i & Hi & _).
    by eapply list_elem_of_lookup_2. }
  pose proof (rectangular_df_take _ _ Hrect Hsel) as Hrect'.
  destruct (fire_lines_exist (iterrows (df_take (take 5 pos) df)))
    as [lines Hlines].
  { intros row Hrow. split.
    - eapply (iterrows_numeric _ "latitude" (col_take (take 5 pos) lat));
        [done| |by rewrite is_object_col_take|done].
      by rewrite df_col_df_take, Hlatc.
    - eapply (iterrows_numeric _ "longitude" (col_take (take 5 pos) lon));
        [done| |by rewrite is_object_col_take|done].
      by rewrite df_col_df_take, Hlonc. }
  rewrite bind_run. unfold print at 1. rewrite bind_run.
  unfold lift, nlargest. rewrite Htimec, Hobj.
  fold pos. rewrite (df_head_df_take _ _ _ Hrect Hbound).
  rewrite (print_fires_run _ _ _ Hlines). by eexists.
Qed.
End analyzer_returns.

(** The analyzer returns on every table whose confidence, latitude and
    longitude columns, where present, are numeric, and whose time column,
    where present, is numeric and comes with both coordinates. *)
Theorem analyzer_returns_on_numeric_table `{O : Oracles} (df : DataFrame)
    (w : World) :
  argsort_sorts O →
  rectangular df = true →
  (∀ c, df_col "confidence" df = Some c → is_object c = false) →
  (∀ c, df_col "latitude" df = Some c → is_object c = false) →
  (∀ c, df_col "longitude" df = Some c → is_object c = false) →
  (∀ c, df_col "acq_time" df = Some c →
     is_object c = false
     ∧ in_columns "latitude" df = true
     ∧ in_columns "longitude" df = true) →
  (analyze_fire_data df w).1 = Ok ().
Proof.
  intros Hsort Hrect Hconf Hlat Hlon Htime. unfold analyze_fire_data.
  rewrite bind_run. unfold print at 1. rewrite bind_run. unfold print at 1.
  rewrite bind_run.
  match goal with |- context [analyze_confidence df ?w0] =>
    destruct (analyze_confidence_Ok df w0 Hconf) as [w1 ->]
  end.
  rewrite bind_run.
  destruct (analyze_coordinates_Ok df w1 Hlat Hlon) as [w2 ->].
  rewrite bind_run.
  destruct (analyze_dates_Ok df w2) as [w3 ->].
  by destruct (analyze_most_recent_Ok df w3 Hsort Hrect Hlat Hlon Htime)
    as [w4 ->].
Qed.

Lemma analyzer_returns_on_numeric_table_witness :
  let O := sample_oracles insertion_argsort no_network in
  argsort_sorts O
  ∧ rectangular full_feed = true
  ∧ is_object (Int64 [85; 60; 95]%Z) = false
  ∧ (@analyze_fire_data O full_feed empty_world).1 = Ok ().
Proof.
  intros O.
  pose proof (insertion_argsort_sorts no_network) as Hsort.
  split; [exact Hsort|]. split; [reflexivity|]. split; [reflexivity|].
  apply (@analyzer_returns_on_numeric_table O full_feed empty_world Hsort
           eq_refl).
  - by intros c [= <-].
  - by intros c [= <-].
  - by intros c [= <-].
  - by intros c [= <-].
Defined.

(** A confidence column that holds text makes the analyzer raise a
    [TypeError] at the average, after the two head lines and before any
    other line. *)
Theorem analyzer_raises_on_text_confidence `{O : Oracles} (df : DataFrame)
    (vs : list (option string)) (s : string) (w : World) :
  df_col "confidence" df = Some (Object vs) →
  Some s ∈ vs →
  ∃ msg,
    analyze_fire_data df w
    = (Raise (TypeError msg),
       {| fs := fs w;
          console := console w
                     ++ [[Lit "\n=== Fire Data Analysis ==="];
                         [Lit "Total fire detections: "; Num (df_len df)]];
          ticks := ticks w |}).
Proof.
  intros Hconf Hs. unfold analyze_fire_data, analyze_confidence.
  assert (in_columns "confidence" df = true) as ->
    by (apply in_columns_df_col; by rewrite Hconf).
  unfold df_getitem. rewrite Hconf.
  assert (∃ msg, mean_2f (Object vs) = Raise (TypeError msg)) as [msg Hmean].
  { unfold mean_2f.
    assert (existsb (λ o, negb (obj_isna o)) vs = true) as ->; [|by eexists].
    apply existsb_exists. exists (Some s). split; [|done].
    by apply list_elem_of_In. }
  exists msg. run_monad. rewrite Hmean. cbn. by rewrite <- app_assoc.
Qed.

Lemma analyzer_raises_on_text_confidence_witness :
  df_col "confidence" letter_confidence = Some (Object [Some "n"; Some "h"])
  ∧ Some "h" ∈ [Some "n"; Some "h"]
  ∧ ∃ msg,
      @analyze_fire_data (sample_oracles insertion_argsort no_network)
        letter_confidence empty_world
      = (Raise (TypeError msg),
         {| fs := ∅;
            console := [[Lit "\n=== Fire Data Analysis ==="];
                        [Lit "Total fire detections: "; Num 2]];
            ticks := 0 |}).
Proof.
  assert (Some "h" ∈ [Some "n"; Some "h"]) as Hin by (right; left).
  split; [reflexivity|]. split; [exact Hin|].
  exact (@analyzer_raises_on_text_confidence
           (sample_oracles insertion_argsort no_network) letter_confidence
           [Some "n"; Some "h"] "h" empty_world eq_refl Hin).
Defined.

Lemma analyzer_skips_absent_columns_witness :
  in_columns "confidence" patchy_fires = false
  ∧ in_columns "latitude" patchy_fires && in_columns "longitude" patchy_fires
    = false
  ∧ in_columns "acq_date" patchy_fires = false
  ∧ in_columns "acq_time" patchy_fires = false
  ∧ @analyze_fire_data (sample_oracles insertion_argsort no_network)
      patchy_fires empty_world
    = (Ok (), {| fs := ∅;
                 console := [[Lit "\n=== Fire Data Analysis ==="];
                             [Lit "Total fire detections: "; Num 4]];
                 ticks := 0 |}).
Proof.
  split; [reflexivity|]. split; [reflexivity|]. split; [reflexivity|].
  split; [reflexivity|].
  exact (@analyzer_skips_absent_columns
           (sample_oracles insertion_argsort no_network) patchy_fires
           empty_world eq_refl eq_refl eq_refl eq_refl).
Defined.

(** ** The whole run *)

Lemma bind_Ok_inv {A B} (m : M A) (k : A → M B) (w w' : World) (b : B) :
  (m ≫= k) w = (Ok b, w') →
  ∃ a w1, m w = (Ok a, w1) ∧ k a w1 = (Ok b, w').
Proof.
  rewrite bind_run. destruct (m w) as [[a|e] w1]; [by eauto|done].
Qed.

Lemma print_Ok_inv (l : line) (w w' : World) (u : unit) :
  print l w = (Ok u, w') → fs w' = fs w ∧ ticks w' = ticks w.
Proof. unfold print. by intros [= _ <-]. Qed.

(** The steps of a run of [main] that returns a table. *)
Lemma main_inv `{O : Oracles} (w w' : World)
    (r : option DataFrame * option handle * option (list (string * string))) :
  main w = (Ok r, w') →
  r = (None, None, None)
  ∨ ∃ df name ek saved w0 w1 w2 w3 w4 w5,
      r = (Some df, Some ek, Some saved)
      ∧ fs w0 = fs w ∧ ticks w0 = S (ticks w)
      ∧ get_latest_fire_data w0 = (Ok (df, name), w1)
      ∧ process_fire_data_with_earthkit df name w1 = (Ok (ek, df), w2)
      ∧ analyze_fire_data df w2 = (Ok (), w3)
      ∧ fs w4 = fs w3
      ∧ save_fire_data df name "fire_data" w4 = (Ok saved, w5)
      ∧ fs w' = fs w5.
Proof.
  intros Hmain. unfold main in Hmain.
  apply bind_Ok_inv in Hmain as (u0 & wa & Hp1 & Hmain).
  apply print_Ok_inv in Hp1 as [Hfs1 Ht1].
  apply bind_Ok_inv in Hmain as (now & wb & Hnow & Hmain).
  injection Hnow as _ <-.
  apply bind_Ok_inv in Hmain as (u1 & w0 & Hp2 & Hmain).
  apply print_Ok_inv in Hp2 as [Hfs2 Ht2]. cbn [fs ticks] in Hfs2, Ht2.
  unfold try_except in Hmain.
  match type of Hmain with
  | match ?body w0 with _ => _ end = _ =>
      destruct (body w0) as [[a|e] wc] eqn:Hbody
  end.
  2: { left. apply bind_Ok_inv in Hmain as (u2 & wd & _ & Hret).
       by injection Hret as <- _. }
  right. injection Hmain as -> ->.
  apply bind_Ok_inv in Hbody as ([df name] & w1 & Hget & Hbody).
  apply bind_Ok_inv in Hbody as ([ek df'] & w2 & Hload & Hbody).
  apply bind_Ok_inv in Hbody as ([] & w3 & Hanalyze & Hbody).
  apply bind_Ok_inv in Hbody as (u3 & w4 & Hp3 & Hbody).
  apply print_Ok_inv in Hp3 as [Hfs4 _].
  apply bind_Ok_inv in Hbody as (saved & w5 & Hsave & Hbody).
  apply bind_Ok_inv in Hbody as (u4 & w6 & Hp4 & Hbody).
  apply print_Ok_inv in Hp4 as [Hfs6 _].
  apply bind_Ok_inv in Hbody as (u5 & w7 & Hp5 & Hbody).
  apply print_Ok_inv in Hp5 as [Hfs7 _].
  apply bind_Ok_inv in Hbody as (u6 & w8 & Hp6 & Hbody).
  apply print_Ok_inv in Hp6 as [Hfs8 _].
  apply bind_Ok_inv in Hbody as (u7 & w9 & Hp7 & Hbody).
  apply print_Ok_inv in Hp7 as [Hfs9 _].
  apply bind_Ok_inv in Hbody as (csv_file & w10 & Hcsv & Hbody).
  assert (w10 = w9) as -> by (unfold lift in Hcsv; congruence).
  apply bind_Ok_inv in Hbody as (u8 & w11 & Hp8 & Hbody).
  apply print_Ok_inv in Hp8 as [Hfs11 _].
  injection Hbody as <- <-.
  assert (df' = df) as ->.
  { destruct (process_fire_data_with_earthkit_run df name w1)
      as (w2' & Hrun & _).
    rewrite Hload in Hrun. injection Hrun as Hres _.
    destruct (ek_from_source _ _); [|done]. by injection Hres as _ ->. }
  exists df, name, ek, saved, w0, w1, w2, w3, w4, w5.
  split; [done|]. split; [congruence|]. split; [by rewrite Ht2, Ht1|].
  split; [done|]. split; [done|]. split; [done|]. split; [done|].
  split; [done|]. congruence.
Qed.

Lemma main_Ok `{O : Oracles} (w : World) : ∃ r w', main w = (Ok r, w').
Proof.
  unfold main. rewrite !bind_run. unfold print at 1. cbn.
  unfold datetime_now at 1. cbn. rewrite !bind_run. unfold print at 1. cbn.
  unfold try_except.
  match goal with
  | |- ∃ r w', match ?body ?w0 with _ => _ end = _ =>
      destruct (body w0) as [[a|e] wc]
  end; [by eauto|].
  rewrite bind_run. unfold print at 1. by eauto.
Qed.

(** [main] never raises: whatever the sources answer and whatever is on
    the disk, it returns, and what it returns is either three times
    [None] or a table, a handle and the dictionary of saved files. *)
Theorem main_never_raises `{O : Oracles} (w : World) :
  ∃ r, (main w).1 = Ok r
    ∧ (r = (None, None, None)
       ∨ ∃ df ek saved, r = (Some df, Some ek, Some saved)).
Proof.
  destruct (main_Ok w) as (r & w' & Hmain). exists r.
  split; [by rewrite Hmain|].
  apply main_inv in Hmain
    as [->|(df & name & ek & saved & ? & ? & ? & ? & ? & ? & -> & _)];
    [by left|right; by eauto].
Qed.



(** When the analyzer raises on the table the fetcher returns, [main]
    returns three times [None] and the writer is never reached: the
    directory is not made, no snapshot is deleted or written, and the
    file system is the one [main] started with, without the temporary
    path. *)
Theorem main_saves_nothing_when_analyzer_raises `{O : Oracles} (w : World)
    (df : DataFrame) (name : string) :
  first_source (strftime_Ymd (clock (S (ticks w)))) sources
  = Some (df, name) →
  (∀ wa, ∃ e, (analyze_fire_data df wa).1 = Raise e) →
  (main w).1 = Ok (None, None, None)
  ∧ fs (main w).2 = delete (mkstemp (fs w)) (fs w).
Proof.
  intros Hfirst Hraise.
  assert (∃ w', main w = (Ok (None, None, None), w')
                ∧ fs w' = delete (mkstemp (fs w)) (fs w))
    as (w' & -> & Hfs); [|done].
  unfold main. rewrite !bind_run. unfold print at 1. cbn.
  unfold datetime_now at 1. cbn. rewrite !bind_run. unfold print at 1. cbn.
  unfold try_except. rewrite bind_run.
  match goal with |- context [get_latest_fire_data ?w0] =>
    destruct (get_latest_fire_data_run w0) as (w1 & -> & Hfs1)
  end.
  cbn [ticks fs] in *. rewrite Hfirst. rewrite bind_run.
  destruct (process_fire_data_with_earthkit_run df name w1)
    as (w2 & -> & Hfs2).
  rewrite Hfs1 in *.
  destruct (ek_from_source _ _) as [ek|e].
  - rewrite bind_run. destruct (Hraise w2) as [e He].
    destruct (analyze_fire_data_only_prints df w2) as (Hfs3 & _).
    destruct (analyze_fire_data df w2) as [[[]|e'] w3]; [done|].
    cbn in Hfs3. rewrite bind_run. unfold print at 1. cbn.
    eexists. split; [reflexivity|]. cbn. congruence.
  - rewrite bind_run. unfold print at 1. cbn.
    eexists. split; [reflexivity|]. by cbn.
Qed.

Lemma main_saves_nothing_when_analyzer_raises_witness :
  let O := sample_oracles insertion_argsort (modis_only letter_confidence) in
  @first_source O (strftime_Ymd (sample_clock 1)) sources
  = Some (letter_confidence, "modis")
  ∧ (∀ wa, ∃ e, (@analyze_fire_data O letter_confidence wa).1 = Raise e)
  ∧ (@main O used_world).1 = Ok (None, None, None)
  ∧ fs (@main O used_world).2 = delete "/tmp/tmpfires.csv" (fs used_world).
Proof.
  intros O.
  assert (@first_source O (strftime_Ymd (sample_clock 1)) sources
          = Some (letter_confidence, "modis")) as Hfirst by (by vm_compute).
  assert (∀ wa, ∃ e, (@analyze_fire_data O letter_confidence wa).1 = Raise e)
    as Hraise by (intros wa; eexists; reflexivity).
  split; [exact Hfirst|]. split; [exact Hraise|].
  exact (@main_saves_nothing_when_analyzer_raises O used_world
           letter_confidence "modis" Hfirst Hraise).
Defined.

(** ** The daily counts of a table of one day *)

Lemma unique_replicate {A} `{DType A} (x : A) (n : nat) :
  same_key x x = true → unique (replicate (S n) x) = [x].
Proof.
  intros Hx. induction n as [|n IH]; [done|].
  change (replicate (S (S n)) x) with (x :: replicate (S n) x).
  cbn [unique]. rewrite IH. cbn. by rewrite Hx.
Qed.

Lemma filter_replicate {A} (f : A → bool) (x : A) (n : nat) :
  f x = true → List.filter f (replicate n x) = replicate n x.
Proof.
  intros Hx. induction n as [|n IH]; [done|]. cbn. by rewrite Hx, IH.
Qed.

Lemma value_counts_one_key `{O : Oracles} (s : string) (n : nat) :
  argsort_sorts O →
  value_counts_sorted (replicate (S n) (Some s)) = [(Some s, S n)].
Proof.
  intros Hsort. unfold value_counts_sorted.
  assert (same_key (Some s) (Some s) = true) as Hkey.
  { unfold same_key. cbn. unfold str_lt.
    pose proof (String.compare_antisym s s) as Hrefl.
    by destruct (String.compare s s). }
  rewrite (filter_replicate (λ v, negb (isna v))) by done.
  rewrite unique_replicate by done.
  assert (nargsort [Some s] true = [0]) as ->.
  { unfold nargsort, present_pairs, missing_pairs. cbn.
    destruct (Hsort (option string) _ _ [Some s]) as [Hperm _].
    { by repeat constructor. }
    cbn in Hperm. apply Permutation_singleton_r in Hperm. by rewrite Hperm. }
  change (gather [Some s] [0]) with [Some s]. cbn [fmap list_fmap].
  rewrite (filter_replicate (same_key (Some s))) by done.
  by rewrite length_replicate.
Qed.

Lemma all_equal_one_string (vs : list (option string)) (s : string)
    (k : nat) :
  eq_str (Object vs) s = replicate k true → vs = replicate k (Some s).
Proof.
  revert k. induction vs as [|o vs IH]; intros [|k] Hmask; try done.
  cbn in Hmask. injection Hmask as Ho Hmask.
  cbn. rewrite (IH k Hmask). destruct o as [x|]; [|done].
  apply String.eqb_eq in Ho. by subst.
Qed.

Lemma date_column_of_one_day (df : DataFrame) (date : column) (s : string) :
  rectangular df = true →
  df_col "acq_date" df = Some date →
  df_empty df = false →
  Forall (λ r, is_today s r = true) (rows df) →
  ∃ n, date = Object (replicate (S n) (Some s)) ∧ df_len df = S n.
Proof.
  intros Hrect Hdate Hempty Htoday.
  pose proof (eq_str_is_today s date df Hrect Hdate) as Hmask.
  pose proof (df_col_length _ _ _ Hrect Hdate) as Hlen.
  assert (is_today s <$> rows df = replicate (df_len df) true) as Hall.
  { rewrite <- length_rows. revert Htoday. generalize (rows df).
    intros rs Hrs. induction Hrs as [|r rs Hr _ IH]; [done|].
    cbn. by rewrite Hr, IH. }
  rewrite Hall in Hmask.
  destruct (df_len df) as [|n] eqn:Hn.
  { unfold df_empty in Hempty. by rewrite Hn in Hempty. }
  exists n. split; [|done].
  destruct date as [vs|vs|vs].
  - cbn in Hmask, Hlen. rewrite length_fmap in Hlen.
    destruct vs; [done|]. by cbn in Hmask.
  - cbn in Hmask, Hlen. rewrite length_fmap in Hlen.
    destruct vs; [done|]. by cbn in Hmask.
  - f_equal. by apply (all_equal_one_string vs s (S n)).
Qed.

(** On a table that is not empty and whose rows are all of one day, as
    the fetcher returns it, the daily counts are one line: that day with
    the number of rows of the table. *)
Theorem analyzer_counts_one_day `{O : Oracles} (df : DataFrame)
    (date : column) (s : string) (w : World) :
  argsort_sorts O →
  rectangular df = true →
  df_col "acq_date" df = Some date →
  df_empty df = false →
  Forall (λ r, is_today s r = true) (rows df) →
  analyze_dates df w
  = (Ok (),
     {| fs := fs w;
        console := console w
                   ++ [[Lit "\nDaily fire counts:"];
                       [Lit "  "; Val (SStr s); Lit ": "; Num (df_len df);
                        Lit " fires"]];
        ticks := ticks w |}).
Proof.
  intros Hsort Hrect Hdate Hempty Htoday.
  destruct (date_column_of_one_day df date s Hrect Hdate Hempty Htoday)
    as (n & -> & Hlen).
  unfold analyze_dates.
  assert (in_columns "acq_date" df = true) as ->
    by (apply in_columns_df_col; by rewrite Hdate).
  unfold df_getitem. rewrite Hdate. rewrite !bind_run. unfold lift at 1.
  rewrite bind_run. unfold print at 1. rewrite for_each_print_run.
  cbn [col_value_counts]. rewrite (value_counts_one_key s n Hsort).
  cbn. by rewrite Hlen, <- app_assoc.
Qed.

Lemma analyzer_counts_one_day_witness :
  let O := sample_oracles insertion_argsort no_network in
  argsort_sorts O
  ∧ rectangular one_day = true
  ∧ df_empty one_day = false
  ∧ Forall (λ r, is_today "2024-01-15" r = true) (rows one_day)
  ∧ @analyze_dates O one_day empty_world
    = (Ok (),
       {| fs := ∅;
          console := [[Lit "\nDaily fire counts:"];
                      [Lit "  "; Val (SStr "2024-01-15"); Lit ": "; Num 2;
                       Lit " fires"]];
          ticks := 0 |}).
Proof.
  intros O.
  pose proof (insertion_argsort_sorts no_network) as Hsort.
  assert (Forall (λ r, is_today "2024-01-15" r = true) (rows one_day))
    as Htoday by (by repeat constructor).
  split; [exact Hsort|]. split; [reflexivity|]. split; [reflexivity|].
  split; [exact Htoday|].
  exact (@analyzer_counts_one_day O one_day _ "2024-01-15" empty_world Hsort
           eq_refl eq_refl eq_refl Htoday).
Defined.
